(** * Elastic Agent log analyzer: a shallow embedding of the correlation
      and analysis engine of [elastic_agent_log_analyzer.py]

    The development follows the Python source class by class:
    [ServerGroup], [ComparisonEngine], the loader and normalizer of
    [MultiServerLogViewer], and the filter and analyzers of [ServerViewer].
    Tk widgets are left out; what a method writes to a text widget is
    returned as a value.

    Conventions of the embedding:
    - a Python exception is a value of [exn]; code that can raise returns
      a [result];
    - a [datetime] is its wall-clock reading in microseconds since
      0001-01-01T00:00:00 together with its UTC offset, [None] for a naive
      value; ordering a naive against an aware value raises [TypeError],
      comparing them with [==] is [False], as in Python;
    - Python floats are modelled by exact rationals ([Q]); the float
      operations of the source (division, mean) are therefore exact here;
    - strings are ASCII strings, [str.lower] is ASCII lower-casing. *)

From Stdlib Require Import ZArith QArith List String Ascii Bool Arith Lia.
From Stdlib Require Import Qabs Qround Permutation Sorted FinFun.
Import ListNotations.

Set Implicit Arguments.

(** ** Python runtime: exceptions and results *)

Inductive exn : Set :=
| TypeError | AttributeError | KeyError | OverflowError | ValueError.

Inductive result (A : Type) : Type :=
| Ok (a : A)
| Raise (e : exn).

Arguments Ok {A} a.
Arguments Raise {A} e.

Definition bind {A B : Type} (c : result A) (k : A -> result B) : result B :=
  match c with
  | Ok a => k a
  | Raise e => Raise e
  end.

Declare Scope py_scope.
Delimit Scope py_scope with py.
Notation "x <- c ;; k" := (bind c (fun x => k))
  (at level 61, c at next level, right associativity) : py_scope.

Definition is_ok {A : Type} (c : result A) : bool :=
  match c with Ok _ => true | Raise _ => false end.

(** ** Strings *)

Definition lower_ascii (c : ascii) : ascii :=
  let n := nat_of_ascii c in
  if ((65 <=? n) && (n <=? 90))%nat then ascii_of_nat (n + 32) else c.

(** [str.lower] *)
Fixpoint lower (s : string) : string :=
  match s with
  | EmptyString => EmptyString
  | String c s' => String (lower_ascii c) (lower s')
  end.

(** [needle in hay] on strings *)
Fixpoint contains (needle hay : string) : bool :=
  prefix needle hay ||
  match hay with
  | EmptyString => false
  | String _ hay' => contains needle hay'
  end.

(** [s.replace('Z', '+00:00')] *)
Fixpoint replace_Z (s : string) : string :=
  match s with
  | EmptyString => EmptyString
  | String c s' =>
      if Ascii.eqb c "Z"%char then ("+00:00" ++ replace_Z s')%string
      else String c (replace_Z s')
  end.

(** [s[:n]] *)
Definition take (n : nat) (s : string) : string := substring 0 n s.

(** ** datetime *)

Local Open Scope string_scope.
Local Open Scope Z_scope.
Local Open Scope list_scope.

Record datetime : Set := mkdt {
  wall : Z;                (* microseconds since 0001-01-01T00:00:00 *)
  utcoffset : option Z     (* microseconds east of UTC; None: naive *)
}.

Definition us_per_minute : Z := 60000000.
Definition us_per_hour : Z := 3600000000.
Definition us_per_day : Z := 86400000000.

(** [datetime.min] and the wall-clock reading of [datetime.max] *)
Definition datetime_min : datetime := mkdt 0 None.
Definition max_wall : Z := 3652059 * us_per_day - 1.

(** [x == y] *)
Definition dt_eqb (x y : datetime) : bool :=
  match utcoffset x, utcoffset y with
  | None, None => wall x =? wall y
  | Some ox, Some oy => wall x - ox =? wall y - oy
  | _, _ => false
  end.

(** the instant two comparable datetimes are ordered by *)
Definition dt_cmp_key (x y : datetime) : result (Z * Z) :=
  match utcoffset x, utcoffset y with
  | None, None => Ok (wall x, wall y)
  | Some ox, Some oy => Ok (wall x - ox, wall y - oy)
  | _, _ => Raise TypeError
  end.

(** [x < y], [x > y], [x <= y] *)
Definition dt_ltb (x y : datetime) : result bool :=
  (p <- dt_cmp_key x y ;; Ok (fst p <? snd p))%py.
Definition dt_gtb (x y : datetime) : result bool := dt_ltb y x.
Definition dt_leb (x y : datetime) : result bool :=
  (p <- dt_cmp_key x y ;; Ok (fst p <=? snd p))%py.

(** [x - y], a timedelta in microseconds *)
Definition dt_sub (x y : datetime) : result Z :=
  (p <- dt_cmp_key x y ;; Ok (fst p - snd p))%py.

(** [x + timedelta(microseconds = d)]; the date must stay in range *)
Definition dt_add (x : datetime) (d : Z) : result datetime :=
  let w := wall x + d in
  if (0 <=? w) && (w <=? max_wall) then Ok (mkdt w (utcoffset x))
  else Raise OverflowError.

(** [x.replace(second=0, microsecond=0)] *)
Definition replace_second0 (x : datetime) : datetime :=
  mkdt (wall x - wall x mod us_per_minute) (utcoffset x).

(** [x.minute] *)
Definition dt_minute (x : datetime) : Z := (wall x / us_per_minute) mod 60.

(** ** Decoded JSON documents *)

#[local] Set Warnings "-register-all".

Inductive json : Type :=
| JNull
| JBool (b : bool)
| JNum (q : Q)
| JStr (s : string)
| JList (l : list json)
| JDict (kv : list (string * json)).

Fixpoint assoc {V : Type} (k : string) (kv : list (string * V)) : option V :=
  match kv with
  | [] => None
  | (k', v) :: kv' => if String.eqb k k' then Some v else assoc k kv'
  end.

(** [d.get(k, default)]; only a dict has the method *)
Definition py_get (d : json) (k : string) (default : json) : result json :=
  match d with
  | JDict kv => Ok (match assoc k kv with Some v => v | None => default end)
  | _ => Raise AttributeError
  end.

(** [d[k]] with a string key *)
Definition py_getitem (d : json) (k : string) : result json :=
  match d with
  | JDict kv => match assoc k kv with Some v => Ok v | None => Raise KeyError end
  | _ => Raise TypeError
  end.

Definition is_str (k : string) (v : json) : bool :=
  match v with JStr s => String.eqb s k | _ => false end.

(** [k in d] with a string [k]: key of a dict, substring of a string,
    element of a list *)
Definition py_in (k : string) (d : json) : result bool :=
  match d with
  | JDict kv => Ok (match assoc k kv with Some _ => true | None => false end)
  | JStr s => Ok (contains k s)
  | JList l => Ok (existsb (is_str k) l)
  | _ => Raise TypeError
  end.

(** truth value of an object *)
Definition truthy (v : json) : bool :=
  match v with
  | JNull => false
  | JBool b => b
  | JNum q => negb (Qeq_bool q 0)
  | JStr s => negb (String.eqb s EmptyString)
  | JList l => match l with [] => false | _ => true end
  | JDict kv => match kv with [] => false | _ => true end
  end.

(** the number an object stands for in arithmetic and ordering ([bool] is
    a subclass of [int]) *)
Definition as_number (v : json) : result Q :=
  match v with
  | JNum q => Ok q
  | JBool b => Ok (if b then 1%Q else 0%Q)
  | _ => Raise TypeError
  end.

(** [v.lower()] *)
Definition py_lower (v : json) : result string :=
  match v with
  | JStr s => Ok (lower s)
  | _ => Raise AttributeError
  end.

(** lists and dicts are unhashable *)
Definition hashable (v : json) : bool :=
  match v with JList _ | JDict _ => false | _ => true end.

(** [x == y] on hashable objects *)
Definition hashable_eqb (x y : json) : bool :=
  match x, y with
  | JNull, JNull => true
  | JStr s, JStr t => String.eqb s t
  | JStr _, _ | _, JStr _ | JNull, _ | _, JNull => false
  | _, _ =>
      match as_number x, as_number y with
      | Ok p, Ok q => Qeq_bool p q
      | _, _ => false
      end
  end.

(** [s.add(v)] on a set kept as a duplicate-free list *)
Definition set_add (v : json) (s : list json) : result (list json) :=
  if hashable v then
    Ok (if existsb (hashable_eqb v) s then s else s ++ [v])
  else Raise TypeError.

Definition str_set_add (v : string) (s : list string) : list string :=
  if existsb (String.eqb v) s then s else s ++ [v].

Definition str_set_mem (v : string) (s : list string) : bool :=
  existsb (String.eqb v) s.

(** [len(v)] *)
Definition py_len (v : json) : result nat :=
  match v with
  | JStr s => Ok (String.length s)
  | JList l => Ok (List.length l)
  | JDict kv => Ok (List.length kv)
  | _ => Raise TypeError
  end.

(** [v[:100] + '...']: only a string can be sliced and then extended by
    a string (a list raises at [+], a dict at the slice) *)
Definition py_preview (v : json) : result json :=
  match v with
  | JStr s => Ok (JStr (take 100 s ++ "...")%string)
  | _ => Raise TypeError
  end.

(** ** Library functions the source calls and the embedding does not define

    [fromisoformat] and [strptime] parse a string to a datetime ([None]
    stands for [ValueError]); [strptime] is used with the one format
    ['%Y-%m-%d %H:%M:%S']. [json_dumps] serializes a document and [repr]
    prints a non-string object. *)

Class PyLib : Type := {
  fromisoformat : string -> option datetime;
  strptime : string -> option datetime;
  json_dumps : json -> string;
  repr : json -> string
}.

(** ** Normalized log records *)

(** [processed['timestamp']]: either the [strftime] rendering of the
    converted time with the zone name, or the raw field *)
Inductive display_ts : Type :=
| Formatted (local : datetime) (tz_name : string)
| Verbatim (v : json).

Record LogRecord : Type := mkLog {
  raw : json;
  line_number : nat;
  file_name : string;
  server_name : string;
  timestamp : display_ts;
  parsed_timestamp : datetime;
  level : json;
  component : json;
  message : json;
  full_message : json
}.

(** ** class ServerGroup *)

Record ServerGroup : Type := mkGroup {
  name : string;
  logs : list LogRecord;
  components : list json;
  log_levels : list json;
  loaded_files : list string
}.

Definition new_group (n : string) : ServerGroup := mkGroup n [] [] [] [].

Definition set_logs (sg : ServerGroup) (l : list LogRecord) : ServerGroup :=
  mkGroup (name sg) l (components sg) (log_levels sg) (loaded_files sg).
Definition set_components (sg : ServerGroup) (c : list json) : ServerGroup :=
  mkGroup (name sg) (logs sg) c (log_levels sg) (loaded_files sg).
Definition set_log_levels (sg : ServerGroup) (c : list json) : ServerGroup :=
  mkGroup (name sg) (logs sg) (components sg) c (loaded_files sg).
Definition set_loaded_files (sg : ServerGroup) (f : list string) : ServerGroup :=
  mkGroup (name sg) (logs sg) (components sg) (log_levels sg) f.

(** [add_log]: the three statements run in order, so a raising [set.add]
    leaves the earlier updates in place *)
Definition add_log (sg : ServerGroup) (p : LogRecord) : ServerGroup * result unit :=
  let sg1 := set_logs sg (logs sg ++ [p]) in
  match set_add (component p) (components sg1) with
  | Raise e => (sg1, Raise e)
  | Ok cs =>
      let sg2 := set_components sg1 cs in
      match set_add (level p) (log_levels sg2) with
      | Raise e => (sg2, Raise e)
      | Ok ls => (set_log_levels sg2 ls, Ok tt)
      end
  end.

Definition clear (sg : ServerGroup) : ServerGroup := new_group (name sg).

(** [log['level'].lower() == s] and [log['level'].lower() in [...]] *)
Definition level_is (s : string) (log : LogRecord) : result bool :=
  (l <- py_lower (level log) ;; Ok (String.eqb l s))%py.

Definition level_in (ss : list string) (log : LogRecord) : result bool :=
  (l <- py_lower (level log) ;; Ok (existsb (String.eqb l) ss))%py.

(** a list comprehension [[x for x in l if p(x)]] whose test can raise *)
Fixpoint filter_r {A : Type} (p : A -> result bool) (l : list A) : result (list A) :=
  match l with
  | [] => Ok []
  | x :: l' =>
      (b <- p x ;; r <- filter_r p l' ;; Ok (if b then x :: r else r))%py
  end.

Record Stats : Set := mkStats {
  total_logs : nat;
  components_count : nat;
  files : nat;
  errors : nat;
  warnings : nat
}.

Definition get_stats (sg : ServerGroup) : result Stats :=
  (es <- filter_r (level_is "error") (logs sg) ;;
   ws <- filter_r (level_in ["warn"; "warning"]) (logs sg) ;;
   Ok (mkStats (List.length (logs sg)) (List.length (components sg))
               (List.length (loaded_files sg)) (List.length es) (List.length ws)))%py.

(** ** Sorting with a comparison that can raise

    [list.sort] and [sorted] are stable and use [<] only. The model is the
    stable insertion sort: an element goes in front of the first element it
    is less than. When no comparison raises, every stable sort gives this
    list. A sort of datetimes raises as soon as the list holds a naive and
    an aware value, whatever the algorithm, since the two have to be
    compared at some point. *)

Section Sort.
Variable A : Type.
Variable ltb : A -> A -> result bool.

Fixpoint insert_by (x : A) (l : list A) : result (list A) :=
  match l with
  | [] => Ok [x]
  | y :: l' =>
      (b <- ltb x y ;;
       if b then Ok (x :: y :: l')
       else (r <- insert_by x l' ;; Ok (y :: r)))%py
  end.

Fixpoint sort_into (acc : list A) (l : list A) : result (list A) :=
  match l with
  | [] => Ok acc
  | x :: l' => (acc' <- insert_by x acc ;; sort_into acc' l')%py
  end.

Definition sort_by (l : list A) : result (list A) := sort_into [] l.
End Sort.

(** ** class MultiServerLogViewer: normalizer and loader *)

Definition tz_map : list (string * Z) :=
  [ ("UTC", 0); ("Eastern (EDT)", -4); ("Eastern (EST)", -5);
    ("Central (CDT)", -5); ("Central (CST)", -6); ("Mountain (MDT)", -6);
    ("Mountain (MST)", -7); ("Pacific (PDT)", -7); ("Pacific (PST)", -8) ].

Definition tz_names : list (string * string) :=
  [ ("UTC", "UTC"); ("Eastern (EDT)", "EDT"); ("Eastern (EST)", "EST");
    ("Central (CDT)", "CDT"); ("Central (CST)", "CST"); ("Mountain (MDT)", "MDT");
    ("Mountain (MST)", "MST"); ("Pacific (PDT)", "PDT"); ("Pacific (PST)", "PST") ].

(** [str(v)] *)
Definition py_str {lib : PyLib} (v : json) : string :=
  match v with
  | JStr s => s
  | JNull => "None"
  | JBool true => "True"
  | JBool false => "False"
  | _ => repr v
  end.

(** one line of a file as the loader sees it after [strip] and
    [json.loads]: empty, rejected with [JSONDecodeError], or decoded *)
Inductive line : Type :=
| Blank
| Malformed
| Document (entry : json).

(** what [_load_file_thread] reports: the number of new records handed to
    [_update_ui_after_load], or the error dialog of its handler *)
Inductive load_outcome : Set :=
| Loaded (new_log_count : nat)
| LoadFailed (e : exn).

(** what [add_file] does: the duplicate warning, or the load it starts *)
Inductive add_outcome : Set :=
| DuplicateFileWarning
| Started (o : load_outcome).

Section Viewer.
Context {lib : PyLib}.

(** [self.timezone_var.get()] *)
Variable selected_tz : string.

Definition convert_timezone (utc_timestamp : datetime) : result datetime :=
  let offset_hours :=
    match assoc selected_tz tz_map with Some h => h | None => 0 end in
  dt_add utc_timestamp (offset_hours * us_per_hour).

Definition get_timezone_name : string :=
  match assoc selected_tz tz_names with Some n => n | None => "UTC" end.

(** the body of the [try] that parses and renders [@timestamp] *)
Definition parse_timestamp (timestamp_str : json) : result (display_ts * datetime) :=
  match timestamp_str with
  | JStr s =>
      match fromisoformat (replace_Z s) with
      | Some utc_timestamp =>
          (local_timestamp <- convert_timezone utc_timestamp ;;
           Ok (Formatted local_timestamp get_timezone_name, utc_timestamp))%py
      | None => Raise ValueError
      end
  | _ => Raise AttributeError
  end.

Definition extract_timestamp (entry : json) : result (display_ts * datetime) :=
  (timestamp_str <- py_get entry "@timestamp" (JStr EmptyString) ;;
   if truthy timestamp_str then
     match parse_timestamp timestamp_str with
     | Ok r => Ok r
     | Raise _ => Ok (Verbatim timestamp_str, datetime_min)
     end
   else Ok (Verbatim (JStr "N/A"), datetime_min))%py.

Definition extract_component (entry : json) : result json :=
  (has_component <- py_in "component" entry ;;
   if has_component then
     comp_info <- py_getitem entry "component" ;;
     match comp_info with
     | JDict _ =>
         by_type <- py_get comp_info "type" (JStr "unknown") ;;
         py_get comp_info "binary" by_type
     | _ => Ok (JStr (py_str comp_info))
     end
   else
     has_service <- py_in "service.name" entry ;;
     if has_service then py_getitem entry "service.name"
     else Ok (JStr "unknown"))%py.

Definition process_log_entry (entry : json) (line_num : nat)
    (file_name server_name : string) : result LogRecord :=
  (ts <- extract_timestamp entry ;;
   log_level <- py_get entry "log.level" (JStr "unknown") ;;
   component <- extract_component entry ;;
   message <- py_get entry "message" (JStr EmptyString) ;;
   n <- py_len message ;;
   preview <- (if (100 <? n)%nat then py_preview message else Ok message) ;;
   Ok (mkLog entry line_num file_name server_name (fst ts) (snd ts)
             log_level component preview message))%py.

(** the [for] loop over the lines of a file; [line_num] counts from 1.
    The group is returned also when a line raises: what was added before
    stays added. *)
Fixpoint read_lines (file_name server_name : string) (line_num : nat)
    (lines : list line) (sg : ServerGroup) (new_logs : nat)
    : ServerGroup * result nat :=
  match lines with
  | [] => (sg, Ok new_logs)
  | Blank :: rest | Malformed :: rest =>
      read_lines file_name server_name (S line_num) rest sg new_logs
  | Document entry :: rest =>
      match process_log_entry entry line_num file_name server_name with
      | Raise e => (sg, Raise e)
      | Ok processed_entry =>
          match add_log sg processed_entry with
          | (sg', Raise e) => (sg', Raise e)
          | (sg', Ok _) =>
              read_lines file_name server_name (S line_num) rest sg' (S new_logs)
          end
      end
  end.

(** [server_group.logs.sort(key=lambda x: x.get('parsed_timestamp', datetime.min))] *)
Definition sort_logs (l : list LogRecord) : result (list LogRecord) :=
  sort_by (fun x y => dt_ltb (parsed_timestamp x) (parsed_timestamp y)) l.

(** [_load_file_thread]. The file name is recorded first. When the sort
    raises, Python leaves the list in an order that depends on how far the
    sort got; the model keeps the order before the sort, which is what
    Python does when the first comparison raises. *)
Definition _load_file_thread (sg : ServerGroup) (file_name : string)
    (lines : list line) : ServerGroup * load_outcome :=
  let sg1 := set_loaded_files sg (str_set_add file_name (loaded_files sg)) in
  match read_lines file_name (name sg) 1 lines sg1 0 with
  | (sg2, Raise e) => (sg2, LoadFailed e)
  | (sg2, Ok n) =>
      match sort_logs (logs sg2) with
      | Ok sorted => (set_logs sg2 sorted, Loaded n)
      | Raise e => (sg2, LoadFailed e)
      end
  end.

(** [load_file]: clear, then load *)
Definition load_file (sg : ServerGroup) (file_name : string)
    (lines : list line) : ServerGroup * load_outcome :=
  _load_file_thread (clear sg) file_name lines.

(** [add_file]: refuse a file name that is already loaded *)
Definition add_file (sg : ServerGroup) (file_name : string)
    (lines : list line) : ServerGroup * add_outcome :=
  if str_set_mem file_name (loaded_files sg) then (sg, DuplicateFileWarning)
  else
    let (sg', o) := _load_file_thread sg file_name lines in
    (sg', Started o).

End Viewer.

(** ** difflib.SequenceMatcher(None, a, b)

    The matcher of the Python standard library as [calculate_similarity]
    uses it: no junk predicate, [autojunk] on. Sequences are strings,
    indices are natural numbers. *)

Module SequenceMatcher.

Definition Match : Set := (nat * nat * nat)%type.

(** [indices = b2j.setdefault(elt, []); indices.append(i)] *)
Fixpoint setdefault_append (elt : ascii) (i : nat)
    (b2j : list (ascii * list nat)) : list (ascii * list nat) :=
  match b2j with
  | [] => [(elt, [i])]
  | (e, idxs) :: rest =>
      if Ascii.eqb e elt then (e, idxs ++ [i]) :: rest
      else (e, idxs) :: setdefault_append elt i rest
  end.

Fixpoint enumerate_b (i : nat) (b : list ascii)
    (b2j : list (ascii * list nat)) : list (ascii * list nat) :=
  match b with
  | [] => b2j
  | elt :: b' => enumerate_b (S i) b' (setdefault_append elt i b2j)
  end.

(** [__chain_b]: index the elements of [b]; with 200 elements or more,
    drop the popular ones, those that occur more than [n // 100 + 1]
    times. The junk set stays empty. *)
Definition chain_b (b : list ascii) : list (ascii * list nat) :=
  let b2j := enumerate_b 0 b [] in
  let n := List.length b in
  if (200 <=? n)%nat then
    let ntest := (n / 100 + 1)%nat in
    filter (fun p => negb (ntest <? List.length (snd p))%nat) b2j
  else b2j.

Definition bjunk : list ascii := [].

Definition isbjunk (c : ascii) : bool := existsb (Ascii.eqb c) bjunk.

(** [b2j.get(elt, nothing)] *)
Fixpoint b2j_get (elt : ascii) (b2j : list (ascii * list nat)) : list nat :=
  match b2j with
  | [] => []
  | (e, idxs) :: rest => if Ascii.eqb e elt then idxs else b2j_get elt rest
  end.

(** [j2len.get(j, 0)] *)
Fixpoint j2len_get (j2len : list (nat * nat)) (j : nat) : nat :=
  match j2len with
  | [] => 0%nat
  | (j', k) :: rest => if (j' =? j)%nat then k else j2len_get rest j
  end.

Section Matcher.
Variables a b : list ascii.
Variable b2j : list (ascii * list nat).

(** the loop over the positions [j] of [a[i]] in [b]; [j2len.get(j-1, 0)]
    is 0 at [j = 0], where the key would be -1 *)
Fixpoint scan_row (i blo bhi : nat) (j2len : list (nat * nat))
    (js : list nat) (newj2len : list (nat * nat)) (best : Match)
    : list (nat * nat) * Match :=
  match js with
  | [] => (newj2len, best)
  | j :: js' =>
      if (j <? blo)%nat then scan_row i blo bhi j2len js' newj2len best
      else if (bhi <=? j)%nat then (newj2len, best)
      else
        let k := (match j with
                  | O => 0
                  | S j' => j2len_get j2len j'
                  end + 1)%nat in
        let '(_, _, bestsize) := best in
        scan_row i blo bhi j2len js' ((j, k) :: newj2len)
          (if (bestsize <? k)%nat then ((i + 1 - k)%nat, (j + 1 - k)%nat, k)
           else best)
  end.

(** the loop [for i in range(alo, ahi)], [n] rows from row [i] on *)
Fixpoint scan_rows (n i blo bhi : nat) (j2len : list (nat * nat))
    (best : Match) : Match :=
  match n with
  | O => best
  | S n' =>
      let js := match nth_error a i with
                | Some elt => b2j_get elt b2j
                | None => []
                end in
      let '(newj2len, best') := scan_row i blo bhi j2len js [] best in
      scan_rows n' (S i) blo bhi newj2len best'
  end.

Definition same_elt (i j : nat) : bool :=
  match nth_error a i, nth_error b j with
  | Some x, Some y => Ascii.eqb x y
  | _, _ => false
  end.

(** [while besti > alo and bestj > blo and ok(b[bestj-1]) and
    a[besti-1] == b[bestj-1]]; it runs at most [besti - alo] times *)
Fixpoint extend_left (steps : nat) (ok : ascii -> bool) (alo blo : nat)
    (best : Match) : Match :=
  match steps with
  | O => best
  | S steps' =>
      let '(besti, bestj, bestsize) := best in
      if (alo <? besti)%nat && (blo <? bestj)%nat
         && match nth_error b (bestj - 1) with
            | Some y => ok y
            | None => false
            end
         && same_elt (besti - 1) (bestj - 1)
      then extend_left steps' ok alo blo
             ((besti - 1)%nat, (bestj - 1)%nat, (bestsize + 1)%nat)
      else best
  end.

(** [while besti+bestsize < ahi and bestj+bestsize < bhi and
    ok(b[bestj+bestsize]) and a[besti+bestsize] == b[bestj+bestsize]] *)
Fixpoint extend_right (steps : nat) (ok : ascii -> bool) (ahi bhi : nat)
    (best : Match) : Match :=
  match steps with
  | O => best
  | S steps' =>
      let '(besti, bestj, bestsize) := best in
      if (besti + bestsize <? ahi)%nat && (bestj + bestsize <? bhi)%nat
         && match nth_error b (bestj + bestsize) with
            | Some y => ok y
            | None => false
            end
         && same_elt (besti + bestsize) (bestj + bestsize)
      then extend_right steps' ok ahi bhi (besti, bestj, (bestsize + 1)%nat)
      else best
  end.

Definition extend (ok : ascii -> bool) (alo ahi blo bhi : nat)
    (best : Match) : Match :=
  let best1 := extend_left (fst (fst best) - alo) ok alo blo best in
  extend_right (ahi - (fst (fst best1) + snd best1)) ok ahi bhi best1.

Definition find_longest_match (alo ahi blo bhi : nat) : Match :=
  let best := scan_rows (ahi - alo) alo blo bhi [] (alo, blo, 0%nat) in
  let best := extend (fun y => negb (isbjunk y)) alo ahi blo bhi best in
  extend isbjunk alo ahi blo bhi best.

(** the [while queue] loop of [get_matching_blocks]; the head of
    [queue] is the element [queue.pop()] takes. [None]: the bound on the
    number of iterations was too small. *)
Fixpoint blocks_loop (fuel : nat) (queue : list (nat * nat * nat * nat))
    (matching_blocks : list Match) : option (list Match) :=
  match queue with
  | [] => Some matching_blocks
  | (alo, ahi, blo, bhi) :: queue' =>
      match fuel with
      | O => None
      | S fuel' =>
          let '(i, j, k) := find_longest_match alo ahi blo bhi in
          if (k =? 0)%nat then blocks_loop fuel' queue' matching_blocks
          else
            let queue1 :=
              if (alo <? i)%nat && (blo <? j)%nat
              then (alo, i, blo, j) :: queue' else queue' in
            let queue2 :=
              if (i + k <? ahi)%nat && (j + k <? bhi)%nat
              then ((i + k)%nat, ahi, (j + k)%nat, bhi) :: queue1 else queue1 in
            blocks_loop fuel' queue2 (matching_blocks ++ [(i, j, k)])
      end
  end.
End Matcher.

(** [matching_blocks.sort()]: triples in lexicographic order *)
Definition match_ltb (x y : Match) : bool :=
  let '(i1, j1, k1) := x in
  let '(i2, j2, k2) := y in
  ((i1 <? i2) || ((i1 =? i2) && ((j1 <? j2) || ((j1 =? j2) && (k1 <? k2)))))%nat.

Fixpoint insert_match (x : Match) (l : list Match) : list Match :=
  match l with
  | [] => [x]
  | y :: l' => if match_ltb x y then x :: y :: l' else y :: insert_match x l'
  end.

Definition sort_matches (l : list Match) : list Match :=
  fold_left (fun acc x => insert_match x acc) l [].

(** the loop that merges adjacent blocks *)
Fixpoint collapse (cur : Match) (l : list Match) (non_adjacent : list Match)
    : list Match :=
  let '(i1, j1, k1) := cur in
  match l with
  | [] => if (k1 =? 0)%nat then non_adjacent else non_adjacent ++ [cur]
  | (i2, j2, k2) :: l' =>
      if ((i1 + k1 =? i2) && (j1 + k1 =? j2))%nat
      then collapse (i1, j1, (k1 + k2)%nat) l' non_adjacent
      else collapse (i2, j2, k2) l'
             (if (k1 =? 0)%nat then non_adjacent else non_adjacent ++ [cur])
  end.

Definition get_matching_blocks (a b : list ascii) : list Match :=
  let la := List.length a in
  let lb := List.length b in
  let found :=
    match blocks_loop a b (chain_b b) (2 * la + 2) [(0%nat, la, 0%nat, lb)] [] with
    | Some l => l
    | None => []
    end in
  collapse (0%nat, 0%nat, 0%nat) (sort_matches found) [] ++ [(la, lb, 0%nat)].

(** [_calculate_ratio] *)
Definition _calculate_ratio (matches length : nat) : Q :=
  if (length =? 0)%nat then 1%Q
  else (2 * inject_Z (Z.of_nat matches) / inject_Z (Z.of_nat length))%Q.

Definition ratio (a b : list ascii) : Q :=
  let matches := fold_right (fun t s => (snd t + s)%nat) 0%nat (get_matching_blocks a b) in
  _calculate_ratio matches (List.length a + List.length b).

End SequenceMatcher.

(** ** class ComparisonEngine *)

Definition calculate_similarity (str1 str2 : string) : Q :=
  SequenceMatcher.ratio (list_ascii_of_string str1) (list_ascii_of_string str2).

Definition Qltb (x y : Q) : bool := negb (Qle_bool y x).

Record SimilarityCorrelation : Type := mkSimilar {
  log1 : LogRecord;
  log2 : LogRecord;
  similarity : Q;
  time_diff_minutes : Q
}.

Definition important_levels : list string := ["error"; "warn"; "warning"].

(** [abs((t1 - t2).total_seconds()) / 60] *)
Definition minutes_between (t1 t2 : datetime) : result Q :=
  (d <- dt_sub t1 t2 ;;
   Ok (Qabs (inject_Z d / inject_Z 1000000) / 60)%Q)%py.

(** the body of the inner loop: the correlation to append, if any *)
Definition compare_pair (similarity_threshold time_window_minutes : Q)
    (l1 l2 : LogRecord) : result (option SimilarityCorrelation) :=
  if dt_eqb (parsed_timestamp l2) datetime_min then Ok None
  else
    (time_diff <- minutes_between (parsed_timestamp l1) (parsed_timestamp l2) ;;
     if Qltb time_window_minutes time_diff then Ok None
     else
       m1 <- py_lower (full_message l1) ;;
       m2 <- py_lower (full_message l2) ;;
       let sim := calculate_similarity m1 m2 in
       if Qle_bool similarity_threshold sim
       then Ok (Some (mkSimilar l1 l2 sim time_diff))
       else Ok None)%py.

Fixpoint inner_loop (similarity_threshold time_window_minutes : Q)
    (l1 : LogRecord) (important_logs2 : list LogRecord)
    (correlations : list SimilarityCorrelation)
    : result (list SimilarityCorrelation) :=
  match important_logs2 with
  | [] => Ok correlations
  | l2 :: rest =>
      (c <- compare_pair similarity_threshold time_window_minutes l1 l2 ;;
       inner_loop similarity_threshold time_window_minutes l1 rest
         (match c with
          | Some x => correlations ++ [x]
          | None => correlations
          end))%py
  end.

Fixpoint outer_loop (similarity_threshold time_window_minutes : Q)
    (important_logs1 important_logs2 : list LogRecord)
    (correlations : list SimilarityCorrelation)
    : result (list SimilarityCorrelation) :=
  match important_logs1 with
  | [] => Ok correlations
  | l1 :: rest =>
      if dt_eqb (parsed_timestamp l1) datetime_min
      then outer_loop similarity_threshold time_window_minutes rest
             important_logs2 correlations
      else
        (cs <- inner_loop similarity_threshold time_window_minutes l1
                 important_logs2 correlations ;;
         outer_loop similarity_threshold time_window_minutes rest
           important_logs2 cs)%py
  end.

(** [sorted(correlations, key=lambda x: x['similarity'], reverse=True)] *)
Definition by_similarity_desc (x y : SimilarityCorrelation) : result bool :=
  Ok (Qltb (similarity y) (similarity x)).

Definition find_similar_messages (logs1 logs2 : list LogRecord)
    (similarity_threshold time_window_minutes : Q)
    : result (list SimilarityCorrelation) :=
  (important_logs1 <- filter_r (level_in important_levels) logs1 ;;
   important_logs2 <- filter_r (level_in important_levels) logs2 ;;
   correlations <- outer_loop similarity_threshold time_window_minutes
                     important_logs1 important_logs2 [] ;;
   sort_by by_similarity_desc correlations)%py.

(** records on which the correlation does not raise: level and message are
    strings *)
Definition text_record (l : LogRecord) : Prop :=
  (exists s, level l = JStr s) /\ (exists m, full_message l = JStr m).

(** what holds of a correlation found between [important1] and
    [important2] *)
Definition similar_ok (important1 important2 : list LogRecord) (thr win : Q)
    (c : SimilarityCorrelation) : Prop :=
  In (log1 c) important1 /\ In (log2 c) important2 /\
  dt_eqb (parsed_timestamp (log1 c)) datetime_min = false /\
  dt_eqb (parsed_timestamp (log2 c)) datetime_min = false /\
  minutes_between (parsed_timestamp (log1 c)) (parsed_timestamp (log2 c))
  = Ok (time_diff_minutes c) /\
  (time_diff_minutes c <= win)%Q /\
  (exists m1 m2, full_message (log1 c) = JStr m1 /\ full_message (log2 c) = JStr m2 /\
                 similarity c = calculate_similarity (lower m1) (lower m2)) /\
  (thr <= similarity c)%Q.

Record TimelineCorrelation : Set := mkTimeline {
  time_bucket : datetime;
  server1_events : nat;
  server2_events : nat;
  server1_errors : nat;
  server2_errors : nat;
  time_offset_minutes : Z
}.

(** [int(x)] on a float: truncation toward zero *)
Definition py_int (x : Q) : Z := Z.quot (Qnum x) (Zpos (Qden x)).

(** [get_time_bucket(timestamp, bucket_size_minutes=1)] *)
Definition get_time_bucket (timestamp : datetime) : datetime :=
  let t := replace_second0 timestamp in
  mkdt (wall t - (dt_minute timestamp mod 1) * us_per_minute) (utcoffset t).

(** a [defaultdict(list)] keyed by datetimes, in insertion order;
    [buckets[bucket].append(log)] *)
Fixpoint bucket_append (bucket : datetime) (log : LogRecord)
    (buckets : list (datetime * list LogRecord))
    : list (datetime * list LogRecord) :=
  match buckets with
  | [] => [(bucket, [log])]
  | (k, ls) :: rest =>
      if dt_eqb k bucket then (k, ls ++ [log]) :: rest
      else (k, ls) :: bucket_append bucket log rest
  end.

Fixpoint fill_buckets (logs : list LogRecord)
    (buckets : list (datetime * list LogRecord))
    : list (datetime * list LogRecord) :=
  match logs with
  | [] => buckets
  | log :: rest =>
      fill_buckets rest
        (if negb (dt_eqb (parsed_timestamp log) datetime_min)
         then bucket_append (get_time_bucket (parsed_timestamp log)) log buckets
         else buckets)
  end.

(** [buckets[k]] when [k in buckets] *)
Fixpoint bucket_lookup (k : datetime) (buckets : list (datetime * list LogRecord))
    : option (list LogRecord) :=
  match buckets with
  | [] => None
  | (k', ls) :: rest => if dt_eqb k' k then Some ls else bucket_lookup k rest
  end.

(** [range(lo, hi)] *)
Definition py_range (lo hi : Z) : list Z :=
  map (fun i => lo + Z.of_nat i) (seq 0 (Z.to_nat (hi - lo))).

(** the body of the loop over the offsets *)
Definition correlate_at (buckets2 : list (datetime * list LogRecord))
    (bucket_time : datetime) (bucket1_logs : list LogRecord)
    (minutes_offset : Z) : result (option TimelineCorrelation) :=
  (check_bucket <- dt_add bucket_time (minutes_offset * us_per_minute) ;;
   match bucket_lookup check_bucket buckets2 with
   | None => Ok None
   | Some bucket2_logs =>
       bucket1_errors <- filter_r (level_is "error") bucket1_logs ;;
       bucket2_errors <- filter_r (level_is "error") bucket2_logs ;;
       match bucket1_errors, bucket2_errors with
       | _ :: _, _ :: _ =>
           Ok (Some (mkTimeline bucket_time
                       (List.length bucket1_logs) (List.length bucket2_logs)
                       (List.length bucket1_errors) (List.length bucket2_errors)
                       minutes_offset))
       | _, _ => Ok None
       end
   end)%py.

Fixpoint offsets_loop (buckets2 : list (datetime * list LogRecord))
    (bucket_time : datetime) (bucket1_logs : list LogRecord)
    (offsets : list Z) (correlations : list TimelineCorrelation)
    : result (list TimelineCorrelation) :=
  match offsets with
  | [] => Ok correlations
  | minutes_offset :: rest =>
      (c <- correlate_at buckets2 bucket_time bucket1_logs minutes_offset ;;
       offsets_loop buckets2 bucket_time bucket1_logs rest
         (match c with
          | Some x => correlations ++ [x]
          | None => correlations
          end))%py
  end.

Fixpoint buckets_loop (buckets2 : list (datetime * list LogRecord))
    (time_window_int : Z) (buckets1 : list (datetime * list LogRecord))
    (correlations : list TimelineCorrelation)
    : result (list TimelineCorrelation) :=
  match buckets1 with
  | [] => Ok correlations
  | (bucket_time, bucket1_logs) :: rest =>
      (cs <- offsets_loop buckets2 bucket_time bucket1_logs
               (py_range (- time_window_int) (time_window_int + 1)) correlations ;;
       buckets_loop buckets2 time_window_int rest cs)%py
  end.

Definition find_timeline_correlations (logs1 logs2 : list LogRecord)
    (time_window_minutes : Q) : result (list TimelineCorrelation) :=
  let time_window_int := py_int time_window_minutes in
  let buckets1 := fill_buckets logs1 [] in
  let buckets2 := fill_buckets logs2 [] in
  buckets_loop buckets2 time_window_int buckets1 [].

(** ** class ServerViewer: filters *)

(** the Tk variables [apply_filters] reads *)
Record FilterVars : Set := mkFilter {
  component_var : string;
  level_var : string;
  file_var : string;
  search_var : string;
  start_time_var : string;
  end_time_var : string
}.

Section Filters.
Context {lib : PyLib}.

(** the two nested [try] blocks that parse a time bound; a string that
    neither parser accepts leaves the bound at [None] *)
Definition parse_time_filter (s : string) : option datetime :=
  if String.eqb s EmptyString then None
  else
    match fromisoformat (replace_Z s) with
    | Some t => Some t
    | None => strptime s
    end.

(** [(log['full_message'] + ' ' + json.dumps(log['raw'])).lower()] *)
Definition searchable_text (log : LogRecord) : result string :=
  match full_message log with
  | JStr m => Ok (lower (m ++ " " ++ json_dumps (raw log))%string)
  | _ => Raise TypeError
  end.

(** the body of the loop over the logs: [true] when the log is appended
    to [filtered_logs] *)
Definition passes_filters (f : FilterVars) (start_time end_time : option datetime)
    (log : LogRecord) : result bool :=
  if negb (String.eqb (component_var f) "All")
     && negb (is_str (component_var f) (component log)) then Ok false
  else if negb (String.eqb (level_var f) "All")
          && negb (is_str (level_var f) (level log)) then Ok false
  else if negb (String.eqb (file_var f) "All")
          && negb (String.eqb (file_name log) (file_var f)) then Ok false
  else
    (too_early <- match start_time with
                  | Some t => dt_ltb (parsed_timestamp log) t
                  | None => Ok false
                  end ;;
     if too_early then Ok false
     else
       too_late <- match end_time with
                   | Some t => dt_gtb (parsed_timestamp log) t
                   | None => Ok false
                   end ;;
       if too_late then Ok false
       else
         let search_term := lower (search_var f) in
         if negb (String.eqb search_term EmptyString) then
           text <- searchable_text log ;;
           Ok (contains search_term text)
         else Ok true)%py.

(** the loop body with the bounds [apply_filters] parses *)
Definition record_passes (f : FilterVars) (log : LogRecord) : result bool :=
  let start_time := parse_time_filter (start_time_var f) in
  let end_time := parse_time_filter (end_time_var f) in
  passes_filters f start_time end_time log.

Definition apply_filters (f : FilterVars) (logs : list LogRecord)
    : result (list LogRecord) :=
  filter_r (record_passes f) logs.
End Filters.

(** ** class ServerViewer: health analysis *)

Record Metrics : Type := mkMetrics {
  cpu_values : list Q;
  memory_values : list Q;
  load_values : list Q;
  goroutine_counts : list Q;
  event_counts : list Q;
  error_rates : list Q
}.

(** [k1 in m and k2 in m[k1]] *)
Definition has_path2 (m : json) (k1 k2 : string) : result bool :=
  (b <- py_in k1 m ;;
   if b then (x <- py_getitem m k1 ;; py_in k2 x) else Ok false)%py.

(** [v = holder.get(key, 0)] followed by [if v > 0: acc.append(scale(v))] *)
Definition append_if_positive (holder : json) (key : string) (scale : Q -> Q)
    (acc : list Q) : result (list Q) :=
  (v <- py_get holder key (JNum 0) ;;
   n <- as_number v ;;
   Ok (if Qltb 0 n then acc ++ [scale n] else acc))%py.

Definition extract_cpu (metrics : json) (acc : list Q) : result (list Q) :=
  (has <- has_path2 metrics "beat" "cpu" ;;
   if has then
     beat <- py_getitem metrics "beat" ;;
     cpu <- py_getitem beat "cpu" ;;
     total <- py_get cpu "total" (JDict []) ;;
     append_if_positive total "value" (fun x => x) acc
   else Ok acc)%py.

Definition extract_memory (metrics : json) (acc : list Q) : result (list Q) :=
  (has <- has_path2 metrics "beat" "memstats" ;;
   if has then
     beat <- py_getitem metrics "beat" ;;
     memstats <- py_getitem beat "memstats" ;;
     append_if_positive memstats "memory_alloc" (fun x => x / 1024 / 1024)%Q acc
   else Ok acc)%py.

Definition extract_load (metrics : json) (acc : list Q) : result (list Q) :=
  (has <- has_path2 metrics "system" "load" ;;
   if has then
     system <- py_getitem metrics "system" ;;
     load <- py_getitem system "load" ;;
     append_if_positive load "1" (fun x => x) acc
   else Ok acc)%py.

Definition extract_goroutines (metrics : json) (acc : list Q) : result (list Q) :=
  (has <- has_path2 metrics "beat" "runtime" ;;
   if has then
     beat <- py_getitem metrics "beat" ;;
     runtime <- py_getitem beat "runtime" ;;
     append_if_positive runtime "goroutines" (fun x => x) acc
   else Ok acc)%py.

(** [max(0, x)] *)
Definition max0 (x : Q) : Q := if Qltb 0 x then x else 0%Q.

Definition extract_events (metrics : json) (counts rates : list Q)
    : result (list Q * list Q) :=
  (has <- has_path2 metrics "libbeat" "output" ;;
   has' <- (if has then
              libbeat <- py_getitem metrics "libbeat" ;;
              output <- py_getitem libbeat "output" ;;
              py_in "events" output
            else Ok false) ;;
   if has' then
     libbeat <- py_getitem metrics "libbeat" ;;
     output <- py_getitem libbeat "output" ;;
     events <- py_getitem output "events" ;;
     acked <- py_get events "acked" (JNum 0) ;;
     total <- py_get events "total" (JNum 0) ;;
     t <- as_number total ;;
     if Qltb 0 t then
       a <- as_number acked ;;
       Ok (counts ++ [a], rates ++ [max0 ((t - a) / t * 100)%Q])
     else Ok (counts, rates)
   else Ok (counts, rates))%py.

(** the body of the loop that collects the samples of one log *)
Definition collect_metrics (m : Metrics) (log : LogRecord) : result Metrics :=
  (has <- has_path2 (raw log) "monitoring" "metrics" ;;
   if has then
     monitoring <- py_getitem (raw log) "monitoring" ;;
     metrics <- py_getitem monitoring "metrics" ;;
     cpu <- extract_cpu metrics (cpu_values m) ;;
     mem <- extract_memory metrics (memory_values m) ;;
     load <- extract_load metrics (load_values m) ;;
     gor <- extract_goroutines metrics (goroutine_counts m) ;;
     ev <- extract_events metrics (event_counts m) (error_rates m) ;;
     Ok (mkMetrics cpu mem load gor (fst ev) (snd ev))
   else Ok m)%py.

Fixpoint collect_all (m : Metrics) (logs : list LogRecord) : result Metrics :=
  match logs with
  | [] => Ok m
  | log :: rest => (m' <- collect_metrics m log ;; collect_all m' rest)%py
  end.

(** [statistics.mean] of a non-empty list *)
Definition mean (values : list Q) : Q :=
  (fold_right Qplus 0 values / inject_Z (Z.of_nat (List.length values)))%Q.

(** [analyze_metric]: the warning line it writes after the figures, if
    any. The figures themselves are not modelled, and the text of a line is
    kept without its warning sign and indentation. *)
Definition analyze_metric (values : list Q) (name : string) : list string :=
  match values with
  | [] => []
  | _ =>
      let avg_val := mean values in
      if String.eqb name "Memory Usage" && Qltb 500 avg_val
      then ["High memory usage detected"]
      else if String.eqb name "System Load (1m)" && Qltb 2 avg_val
      then ["High system load detected"]
      else if String.eqb name "Goroutines" && Qltb 200 avg_val
      then ["High goroutine count detected"]
      else []
  end.

Definition nonempty {A : Type} (l : list A) : bool :=
  match l with [] => false | _ => true end.

(** the list [issues] of the health assessment, each test as in the
    source: a non-empty sample list whose mean is strictly above the limit *)
Definition health_issues (m : Metrics) : list string :=
  (if nonempty (memory_values m) && Qltb 500 (mean (memory_values m))
   then ["High memory usage"] else [])
  ++ (if nonempty (load_values m) && Qltb 2 (mean (load_values m))
      then ["High system load"] else [])
  ++ (if nonempty (error_rates m) && Qltb 5 (mean (error_rates m))
      then ["High event error rate"] else [])
  ++ (if nonempty (goroutine_counts m) && Qltb 200 (mean (goroutine_counts m))
      then ["High goroutine count"] else []).

Record HealthReport : Set := mkHealth {
  metric_warnings : list string;
  issues : list string
}.

(** [run_health_analysis]; [None] is the "No logs loaded" dialog *)
Definition run_health_analysis (logs : list LogRecord) : result (option HealthReport) :=
  match logs with
  | [] => Ok None
  | _ =>
      (m <- collect_all (mkMetrics [] [] [] [] [] []) logs ;;
       Ok (Some (mkHealth
                   (analyze_metric (memory_values m) "Memory Usage"
                    ++ analyze_metric (load_values m) "System Load (1m)"
                    ++ analyze_metric (goroutine_counts m) "Goroutines"
                    ++ analyze_metric (event_counts m) "Events Processed"
                    ++ analyze_metric (error_rates m) "Event Error Rate")
                   (health_issues m))))%py
  end.

(** ** class ServerViewer: component analysis *)

Record ComponentStats : Set := mkCStats {
  first_seen : option datetime;
  last_seen : option datetime;
  cs_total_logs : nat;
  error_count : nat;
  warning_count : nat;
  info_count : nat;
  status_changes : list (string * datetime)
}.

(** the value the [defaultdict] makes for a new component *)
Definition empty_stats : ComponentStats := mkCStats None None 0 0 0 0 [].

(** [component_stats[component]]: the entry of the key, made at the end of
    the dict when missing *)
Fixpoint stats_get (c : json) (d : list (json * ComponentStats)) : ComponentStats :=
  match d with
  | [] => empty_stats
  | (k, s) :: rest => if hashable_eqb k c then s else stats_get c rest
  end.

Fixpoint stats_put (c : json) (s : ComponentStats) (d : list (json * ComponentStats))
    : list (json * ComponentStats) :=
  match d with
  | [] => [(c, s)]
  | (k, s') :: rest =>
      if hashable_eqb k c then (k, s) :: rest else (k, s') :: stats_put c s rest
  end.

(** the status a message announces *)
Definition status_of (message : string) : option string :=
  if contains "started" message || contains "starting" message then Some "started"
  else if contains "stopped" message || contains "stopping" message then Some "stopped"
  else if contains "failed" message || contains "error" message then Some "error"
  else None.

(** the body of the loop over the logs *)
Definition track_log (d : list (json * ComponentStats)) (log : LogRecord)
    : result (list (json * ComponentStats)) :=
  let component := component log in
  let timestamp := parsed_timestamp log in
  (level <- py_lower (level log) ;;
   stats <- (if hashable component then Ok (stats_get component d)
             else Raise TypeError) ;;
   seen <-
     (if negb (dt_eqb timestamp datetime_min) then
        first <- match first_seen stats with
                 | None => Ok timestamp
                 | Some f => b <- dt_ltb timestamp f ;; Ok (if b then timestamp else f)
                 end ;;
        last <- match last_seen stats with
                | None => Ok timestamp
                | Some l => b <- dt_gtb timestamp l ;; Ok (if b then timestamp else l)
                end ;;
        Ok (Some first, Some last)
      else Ok (first_seen stats, last_seen stats)) ;;
   let is_error := String.eqb level "error" in
   let is_warning := existsb (String.eqb level) ["warn"; "warning"] in
   let is_info := String.eqb level "info" in
   message <- py_lower (full_message log) ;;
   Ok (stats_put component
         (mkCStats (fst seen) (snd seen) (S (cs_total_logs stats))
            (if is_error then S (error_count stats) else error_count stats)
            (if negb is_error && is_warning
             then S (warning_count stats) else warning_count stats)
            (if negb is_error && negb is_warning && is_info
             then S (info_count stats) else info_count stats)
            (match status_of message with
             | Some st => status_changes stats ++ [(st, timestamp)]
             | None => status_changes stats
             end))
         d))%py.

Fixpoint track_all (d : list (json * ComponentStats)) (logs : list LogRecord)
    : result (list (json * ComponentStats)) :=
  match logs with
  | [] => Ok d
  | log :: rest => (d' <- track_log d log ;; track_all d' rest)%py
  end.

(** [x < y] on tuples [(status, timestamp)]: the first components that
    differ decide *)
Definition status_change_ltb (x y : string * datetime) : result bool :=
  if negb (String.eqb (fst x) (fst y)) then Ok (String.ltb (fst x) (fst y))
  else if negb (dt_eqb (snd x) (snd y)) then dt_ltb (snd x) (snd y)
  else Ok false.

(** [l[-n:]] *)
Definition last_n {A : Type} (n : nat) (l : list A) : list A :=
  skipn (List.length l - n) l.

(** [x < y] on the keys of [component_stats] *)
Definition key_ltb (x y : json) : result bool :=
  match x, y with
  | JStr s, JStr t => Ok (String.ltb s t)
  | JStr _, _ | _, JStr _ => Raise TypeError
  | _, _ => (p <- as_number x ;; q <- as_number y ;; Ok (Qltb p q))%py
  end.

(** what the report shows for one component *)
Record ComponentReport : Type := mkCReport {
  rc_component : json;
  rc_total_logs : nat;
  rc_active_period : option (datetime * datetime * Z);
  rc_levels : option (nat * nat * nat);
  rc_status_changes : list (datetime * string)
}.

Section ComponentAnalysis.
Variable selected_tz : string.

(** the lines under "Status Changes": the last five of the sorted
    tuples, those with the sentinel timestamp left out, each with its
    converted time *)
Fixpoint status_lines (l : list (string * datetime)) : result (list (datetime * string)) :=
  match l with
  | [] => Ok []
  | (status, timestamp) :: rest =>
      if negb (dt_eqb timestamp datetime_min) then
        (local_time <- convert_timezone selected_tz timestamp ;;
         r <- status_lines rest ;;
         Ok ((local_time, status) :: r))%py
      else status_lines rest
  end.

Definition reported_status_changes (changes : list (string * datetime))
    : result (list (datetime * string)) :=
  match changes with
  | [] => Ok []
  | _ => (sorted <- sort_by status_change_ltb changes ;;
          status_lines (last_n 5 sorted))%py
  end.

Definition report_component (component : json) (stats : ComponentStats)
    : result ComponentReport :=
  (period <- match first_seen stats, last_seen stats with
             | Some f, Some l =>
                 first_local <- convert_timezone selected_tz f ;;
                 last_local <- convert_timezone selected_tz l ;;
                 duration <- dt_sub l f ;;
                 Ok (Some (first_local, last_local, duration))
             | _, _ => Ok None
             end ;;
   let total_messages :=
     (error_count stats + warning_count stats + info_count stats)%nat in
   changes <- reported_status_changes (status_changes stats) ;;
   Ok (mkCReport component (cs_total_logs stats) period
         (if (0 <? total_messages)%nat
          then Some (info_count stats, warning_count stats, error_count stats)
          else None)
         changes))%py.

Fixpoint report_all (d : list (json * ComponentStats)) (keys : list json)
    : result (list ComponentReport) :=
  match keys with
  | [] => Ok []
  | k :: rest =>
      (r <- report_component k (stats_get k d) ;;
       rs <- report_all d rest ;;
       Ok (r :: rs))%py
  end.

(** [run_component_analysis]; [None] is the "No logs loaded" dialog *)
Definition run_component_analysis (logs : list LogRecord)
    : result (option (list ComponentReport)) :=
  match logs with
  | [] => Ok None
  | _ =>
      (d <- track_all [] logs ;;
       keys <- sort_by key_ltb (map fst d) ;;
       rs <- report_all d keys ;;
       Ok (Some rs))%py
  end.
End ComponentAnalysis.

(** ** A reference instance of the library functions

    The parsers of the instance accept the fixed-width forms
    [YYYY-MM-DD?HH:MM:SS], with any separator character, and
    [YYYY-MM-DD?HH:MM:SS+HH:MM] (or [-HH:MM]); on these every version of
    [datetime.fromisoformat] agrees. Other strings are rejected. The
    serializer covers null, booleans, integers, strings without escapes,
    lists and dicts. The instance is used for the worked examples only. *)

Module Reference.

Definition digit (c : ascii) : option Z :=
  let n := nat_of_ascii c in
  if ((48 <=? n) && (n <=? 57))%nat then Some (Z.of_nat (n - 48)) else None.

(** read exactly [n] decimal digits *)
Fixpoint digits (n : nat) (acc : Z) (s : string) : option (Z * string) :=
  match n with
  | O => Some (acc, s)
  | S n' =>
      match s with
      | String c s' =>
          match digit c with
          | Some d => digits n' (10 * acc + d) s'
          | None => None
          end
      | EmptyString => None
      end
  end.

Definition expect (c : ascii) (s : string) : option string :=
  match s with
  | String c' s' => if Ascii.eqb c c' then Some s' else None
  | EmptyString => None
  end.

Definition is_leap (y : Z) : bool :=
  (y mod 4 =? 0) && (negb (y mod 100 =? 0) || (y mod 400 =? 0)).

Definition days_in_month (y m : Z) : Z :=
  if m =? 2 then (if is_leap y then 29 else 28)
  else if (m =? 4) || (m =? 6) || (m =? 9) || (m =? 11) then 30
  else 31.

Definition days_before_year (y : Z) : Z :=
  let p := y - 1 in p * 365 + p / 4 - p / 100 + p / 400.

Definition days_before_month (y m : Z) : Z :=
  fold_right Z.add 0
    (map (days_in_month y) (map Z.of_nat (seq 1 (Z.to_nat (m - 1))))).

Definition opt_bind {A B : Type} (o : option A) (k : A -> option B) : option B :=
  match o with Some a => k a | None => None end.

Notation "' p <- c ;;; k" := (opt_bind c (fun p => k))
  (at level 61, p pattern, c at next level, right associativity).

(** the date and time fields, as a wall-clock reading, and the rest of
    the string *)
Definition parse_fields (s : string) : option (Z * string) :=
  ' (y, s) <- digits 4 0 s ;;;
  ' s <- expect "-" s ;;;
  ' (m, s) <- digits 2 0 s ;;;
  ' s <- expect "-" s ;;;
  ' (d, s) <- digits 2 0 s ;;;
  ' s <- match s with String _ s' => Some s' | EmptyString => None end ;;;
  ' (hh, s) <- digits 2 0 s ;;;
  ' s <- expect ":" s ;;;
  ' (mi, s) <- digits 2 0 s ;;;
  ' s <- expect ":" s ;;;
  ' (ss, s) <- digits 2 0 s ;;;
  if (1 <=? y) && (1 <=? m) && (m <=? 12) && (1 <=? d)
     && (d <=? days_in_month y m) && (hh <? 24) && (mi <? 60) && (ss <? 60)
  then
    Some ((days_before_year y + days_before_month y m + d - 1) * us_per_day
          + hh * us_per_hour + mi * us_per_minute + ss * 1000000, s)
  else None.

Definition parse_offset (s : string) : option Z :=
  ' (sign, s) <- match s with
                 | String "+" s' => Some (1, s')
                 | String "-" s' => Some (-1, s')
                 | _ => None
                 end ;;;
  ' (hh, s) <- digits 2 0 s ;;;
  ' s <- expect ":" s ;;;
  ' (mi, s) <- digits 2 0 s ;;;
  match s with
  | EmptyString =>
      if (hh <? 24) && (mi <? 60)
      then Some (sign * (hh * us_per_hour + mi * us_per_minute))
      else None
  | _ => None
  end.

Definition fromisoformat (s : string) : option datetime :=
  ' (w, s) <- parse_fields s ;;;
  match s with
  | EmptyString => Some (mkdt w None)
  | _ => ' off <- parse_offset s ;;; Some (mkdt w (Some off))
  end.

(** [strptime(s, '%Y-%m-%d %H:%M:%S')] on the fixed-width form *)
Definition strptime (s : string) : option datetime :=
  match fromisoformat s with
  | Some t =>
      match utcoffset t, get 10 s with
      | None, Some " "%char => Some t
      | _, _ => None
      end
  | None => None
  end.

Definition digit_char (d : nat) : ascii := ascii_of_nat (48 + d).

Fixpoint nat_digits (fuel n : nat) (acc : string) : string :=
  match fuel with
  | O => acc
  | S fuel' =>
      let acc' := String (digit_char (n mod 10)) acc in
      if (n / 10 =? 0)%nat then acc' else nat_digits fuel' (n / 10) acc'
  end.

Definition print_int (z : Z) : string :=
  let n := Z.to_nat (Z.abs z) in
  ((if (z <? 0)%Z then "-" else EmptyString) ++ nat_digits (S n) n EmptyString)%string.

Definition quote : string := String (ascii_of_nat 34) EmptyString.

Definition quoted (s : string) : string := (quote ++ s ++ quote)%string.

Fixpoint join (sep : string) (l : list string) : string :=
  match l with
  | [] => EmptyString
  | [x] => x
  | x :: rest => (x ++ sep ++ join sep rest)%string
  end.

Fixpoint json_dumps (v : json) : string :=
  match v with
  | JNull => "null"
  | JBool true => "true"
  | JBool false => "false"
  | JNum q => print_int (py_int q)
  | JStr s => quoted s
  | JList l => ("[" ++ join ", " (map json_dumps l) ++ "]")%string
  | JDict kv =>
      ("{" ++ join ", " (map (fun p => (quoted (fst p) ++ ": " ++ json_dumps (snd p))%string) kv)
           ++ "}")%string
  end.

Definition repr (v : json) : string :=
  match v with
  | JNull => "None"
  | JBool true => "True"
  | JBool false => "False"
  | _ => json_dumps v
  end.

Definition lib : PyLib := Build_PyLib fromisoformat strptime json_dumps repr.

End Reference.

(** ** Specification-level notions for the correlation theorems *)

(** the bucket [b] moved by a number of minutes, without a range check *)
Definition shift (b : datetime) (minutes : Z) : datetime :=
  mkdt (wall b + minutes * us_per_minute) (utcoffset b).

(** the record has a real timestamp and its bucket is [b] *)
Definition in_bucket (b : datetime) (log : LogRecord) : bool :=
  negb (dt_eqb (parsed_timestamp log) datetime_min)
  && dt_eqb (get_time_bucket (parsed_timestamp log)) b.

(** the level is "error", whatever the case *)
Definition is_error (log : LogRecord) : bool :=
  match level log with
  | JStr s => String.eqb (lower s) "error"
  | _ => false
  end.

(** the records of [logs] in bucket [b], when there are any: the entry
    the bucket dict has for [b] *)
Definition bucket_of (logs : list LogRecord) (b : datetime) : option (list LogRecord) :=
  match filter (in_bucket b) logs with
  | [] => None
  | ls => Some ls
  end.

(** some record of [logs] in bucket [b] is an error *)
Definition error_in (logs : list LogRecord) (b : datetime) : bool :=
  existsb (fun l => in_bucket b l && is_error l) logs.

(** the number of correlations emitted for bucket [b] and offset [o] *)
Definition emitted_at (b : datetime) (o : Z) (cs : list TimelineCorrelation) : nat :=
  List.length (filter (fun c => dt_eqb (time_bucket c) b && (time_offset_minutes c =? o)) cs).

(** the keys of a bucket dict are pairwise different *)
Fixpoint distinct_keys (bs : list (datetime * list LogRecord)) : Prop :=
  match bs with
  | [] => True
  | (k, _) :: rest => bucket_lookup k rest = None /\ distinct_keys rest
  end.

(** the correlation the loop body appends, as a list *)
Definition emit (buckets2 : list (datetime * list LogRecord))
    (bucket_time : datetime) (bucket1_logs : list LogRecord) (o : Z)
    : list TimelineCorrelation :=
  match correlate_at buckets2 bucket_time bucket1_logs o with
  | Ok (Some c) => [c]
  | _ => []
  end.

(** the loop body emits when both buckets hold an error *)
Definition fires (buckets2 : list (datetime * list LogRecord))
    (k : datetime) (ls : list LogRecord) (o : Z) : bool :=
  nonempty (filter is_error ls)
  && match bucket_lookup (shift k o) buckets2 with
     | Some ls2 => nonempty (filter is_error ls2)
     | None => false
     end.

(** records whose level is a string *)
Definition level_is_text (l : LogRecord) : Prop := exists s, level l = JStr s.

(** ** Specification-level notions for the matcher *)

(** the positions of [c] in [b], counted from [i], in ascending order *)
Fixpoint positions (c : ascii) (i : nat) (b : list ascii) : list nat :=
  match b with
  | [] => []
  | x :: b' =>
      if Ascii.eqb x c then i :: positions c (S i) b' else positions c (S i) b'
  end.

(** the element at position [i] of [a] is indexed in [b2j] (it is not
    "popular") *)
Definition indexed (a : list ascii) (b2j : list (ascii * list nat)) (i : nat) : bool :=
  match nth_error a i with
  | Some c => nonempty (SequenceMatcher.b2j_get c b2j)
  | None => false
  end.

(** the length of the run of indexed positions of [a] that ends at [i] *)
Fixpoint run_at (a : list ascii) (b2j : list (ascii * list nat)) (i : nat) : nat :=
  if indexed a b2j i then
    match i with
    | O => 1
    | S i' => S (run_at a b2j i')
    end
  else 0.

(** the run that ends just before position [i] *)
Definition run_before (a : list ascii) (b2j : list (ascii * list nat)) (i : nat) : nat :=
  match i with
  | O => 0
  | S i' => run_at a b2j i'
  end.

(** [j2len.get(j - 1, 0)] *)
Definition prev_len (j2len : list (nat * nat)) (j : nat) : nat :=
  match j with
  | O => 0
  | S j' => SequenceMatcher.j2len_get j2len j'
  end.

(** the invariants of the scan when a sequence is matched against
    itself: the dict of the previous row is bounded by the runs and exact
    on the diagonal *)
Definition prev_ok (a : list ascii) (b2j : list (ascii * list nat)) (i : nat)
    (j2len : list (nat * nat)) : Prop :=
  (forall j, prev_len j2len j <= run_before a b2j j)%nat /\
  (forall j, prev_len j2len j <= run_before a b2j i)%nat /\
  prev_len j2len i = run_before a b2j i.

(** the dict of the row being scanned, with [js] still to visit *)
Definition new_ok (a : list ascii) (b2j : list (ascii * list nat)) (i : nat)
    (js : list nat) (newj2len : list (nat * nat)) : Prop :=
  (forall j, SequenceMatcher.j2len_get newj2len j <= run_at a b2j j)%nat /\
  (forall j, SequenceMatcher.j2len_get newj2len j <= run_at a b2j i)%nat /\
  (In i js \/ SequenceMatcher.j2len_get newj2len i = run_at a b2j i).

(** the best match so far lies on the diagonal and is at least as long
    as every run seen *)
Definition best_ok (a : list ascii) (b2j : list (ascii * list nat)) (i : nat)
    (js : list nat) (d s : nat) : Prop :=
  (d + s <= S i)%nat /\
  (forall i', (i' < i)%nat -> (run_at a b2j i' <= s)%nat) /\
  (In i js \/ (run_at a b2j i <= s)%nat).

(** a match lies inside the window it was searched in *)
Definition in_bounds (alo ahi blo bhi : nat) (m : SequenceMatcher.Match) : Prop :=
  let '(i, j, k) := m in
  (alo <= i /\ i + k <= ahi /\ blo <= j /\ j + k <= bhi)%nat.

(** the entries of a row dict are bounded by the column and by [x] *)
Definition dict_bounded (blo x : nat) (j2len : list (nat * nat)) : Prop :=
  forall j, (SequenceMatcher.j2len_get j2len j <= j + 1 - blo)%nat
            /\ (SequenceMatcher.j2len_get j2len j <= x)%nat.

(** the measure that bounds the iterations of [get_matching_blocks] *)
Definition weight (q : nat * nat * nat * nat) : nat :=
  let '(alo, ahi, _, _) := q in (2 * (ahi - alo) + 1)%nat.

Definition total_weight (queue : list (nat * nat * nat * nat)) : nat :=
  fold_right (fun q s => (weight q + s)%nat) 0%nat queue.

Definition window_ok (q : nat * nat * nat * nat) : Prop :=
  let '(alo, ahi, blo, bhi) := q in (alo <= ahi /\ blo <= bhi)%nat.


(** * Further functions of the source *)

(** ** class ServerViewer: the rest of the filter panel *)

(** the values [clear_filters] gives the Tk variables *)
Definition cleared_filters : FilterVars :=
  mkFilter "All" "All" "All" EmptyString EmptyString EmptyString.

(** [clear_filters]: reset the variables, then [apply_filters] *)
Definition clear_filters {lib : PyLib} (logs : list LogRecord) : result (list LogRecord) :=
  apply_filters cleared_filters logs.

(** the loop of [on_log_select]: the first record with the line number
    and file name of the selected row *)
Fixpoint find_log (logs : list LogRecord) (line : nat) (file : string)
    : option LogRecord :=
  match logs with
  | [] => None
  | log :: rest =>
      if (line_number log =? line)%nat && String.eqb (file_name log) file
      then Some log
      else find_log rest line file
  end.

(** ** class MultiServerLogViewer: on_timezone_change *)

(** [log['timestamp'] = ...] *)
Definition set_timestamp (log : LogRecord) (ts : display_ts) : LogRecord :=
  mkLog (raw log) (line_number log) (file_name log) (server_name log) ts
        (parsed_timestamp log) (level log) (component log) (message log)
        (full_message log).

(** the body of the loop for one record; [!=] between a naive and an
    aware datetime is true *)
Definition retime (tz : string) (log : LogRecord) : result LogRecord :=
  if negb (dt_eqb (parsed_timestamp log) datetime_min) then
    (local_timestamp <- convert_timezone tz (parsed_timestamp log) ;;
     Ok (set_timestamp log (Formatted local_timestamp (get_timezone_name tz))))%py
  else Ok log.

(** the loop over the records of one server. The records are changed in
    place: when a conversion raises, the records before it keep their new
    rendering and the others their old one. *)
Fixpoint retime_logs (tz : string) (logs : list LogRecord)
    : list LogRecord * result unit :=
  match logs with
  | [] => ([], Ok tt)
  | log :: rest =>
      match retime tz log with
      | Raise e => (log :: rest, Raise e)
      | Ok log' =>
          let (rest', r) := retime_logs tz rest in (log' :: rest', r)
      end
  end.

Definition on_timezone_change (tz : string) (sg : ServerGroup)
    : ServerGroup * result unit :=
  let (l, r) := retime_logs tz (logs sg) in (set_logs sg l, r).

(** ** class ServerViewer: timeline analysis *)

(** [[log['parsed_timestamp'] for log in logs if
    log['parsed_timestamp'] != datetime.min]] *)
Definition real_timestamps (logs : list LogRecord) : list datetime :=
  map parsed_timestamp
    (filter (fun log => negb (dt_eqb (parsed_timestamp log) datetime_min)) logs).

(** [timedelta(minutes=n)] in microseconds *)
Definition minutes (n : Z) : Z := n * us_per_minute.

(** [component_timeline[component].append(t)] on a [defaultdict(list)]
    in insertion order *)
Fixpoint timeline_append (c : json) (t : datetime) (d : list (json * list datetime))
    : list (json * list datetime) :=
  match d with
  | [] => [(c, [t])]
  | (k, ts) :: rest =>
      if hashable_eqb k c then (k, ts ++ [t]) :: rest
      else (k, ts) :: timeline_append c t rest
  end.

Fixpoint timeline_get (c : json) (d : list (json * list datetime)) : list datetime :=
  match d with
  | [] => []
  | (k, ts) :: rest => if hashable_eqb k c then ts else timeline_get c rest
  end.

(** the first loop of [run_timeline_analysis] *)
Fixpoint collect_timeline (logs : list LogRecord) (component_timeline : list (json * list datetime))
    (all_timestamps : list datetime)
    : result (list (json * list datetime) * list datetime) :=
  match logs with
  | [] => Ok (component_timeline, all_timestamps)
  | log :: rest =>
      if negb (dt_eqb (parsed_timestamp log) datetime_min) then
        if hashable (component log) then
          collect_timeline rest
            (timeline_append (component log) (parsed_timestamp log) component_timeline)
            (all_timestamps ++ [parsed_timestamp log])
        else Raise TypeError
      else collect_timeline rest component_timeline all_timestamps
  end.

(** a line under "Logging Gaps": converted ends and the duration *)
Record Gap : Set := mkGap {
  gap_start : datetime;
  gap_end : datetime;
  gap_duration : Z
}.

(** a block under "Component Activity" *)
Record Activity : Type := mkActivity {
  act_component : json;
  act_first : datetime;
  act_last : datetime;
  act_count : nat
}.

Record TimelineReport : Type := mkTimelineReport {
  tl_start : datetime;
  tl_end : datetime;
  tl_duration : Z;
  tl_total_entries : nat;
  tl_gaps : list Gap;
  tl_activity : list Activity
}.

Section TimelineAnalysis.
Variable selected_tz : string.

(** the loop [for i in range(1, len(all_timestamps))] *)
Fixpoint logging_gaps (ts : list datetime) : result (list Gap) :=
  match ts with
  | previous :: (current :: _) as rest =>
      (gap <- dt_sub current previous ;;
       found <- (if minutes 2 <? gap then
                   gap_start <- convert_timezone selected_tz previous ;;
                   gap_end <- convert_timezone selected_tz current ;;
                   Ok [mkGap gap_start gap_end gap]
                 else Ok []) ;;
       more <- logging_gaps rest ;;
       Ok (found ++ more))%py
  | _ => Ok []
  end.

(** the loop over [sorted(component_timeline.keys())] *)
Fixpoint component_activity (d : list (json * list datetime)) (keys : list json)
    : result (list Activity) :=
  match keys with
  | [] => Ok []
  | component :: rest =>
      (timestamps <- sort_by dt_ltb (timeline_get component d) ;;
       block <- match timestamps with
                | [] => Ok []
                | first :: _ =>
                    comp_start <- convert_timezone selected_tz first ;;
                    comp_end <- convert_timezone selected_tz (last timestamps first) ;;
                    Ok [mkActivity component comp_start comp_end (List.length timestamps)]
                end ;;
       more <- component_activity d rest ;;
       Ok (block ++ more))%py
  end.

(** what [run_timeline_analysis] shows *)
Inductive timeline_outcome : Type :=
| NoLogsWarning
| NoValidTimestamps
| Timeline (r : TimelineReport).

Definition run_timeline_analysis (logs : list LogRecord) : result timeline_outcome :=
  match logs with
  | [] => Ok NoLogsWarning
  | _ =>
      (collected <- collect_timeline logs [] [] ;;
       let component_timeline := fst collected in
       match snd collected with
       | [] => Ok NoValidTimestamps
       | _ =>
           all_timestamps <- sort_by dt_ltb (snd collected) ;;
           let start_time := hd datetime_min all_timestamps in
           let end_time := last all_timestamps datetime_min in
           duration <- dt_sub end_time start_time ;;
           start_local <- convert_timezone selected_tz start_time ;;
           end_local <- convert_timezone selected_tz end_time ;;
           gaps <- logging_gaps all_timestamps ;;
           keys <- sort_by key_ltb (map fst component_timeline) ;;
           activity <- component_activity component_timeline keys ;;
           Ok (Timeline (mkTimelineReport start_local end_local duration
                           (List.length logs) gaps activity))
       end)%py
  end.

End TimelineAnalysis.

(** ** class ServerViewer: the executive summary of generate_report *)

Inductive overall_status : Set := Healthy | IssuesDetected | WarningsPresent.

Record ExecutiveSummary : Set := mkSummary {
  time_range : Z;
  components_active : nat;
  errors_found : nat;
  warnings_found : nat;
  potential_outages : nat;
  overall : overall_status
}.

(** the loop that counts the gaps of more than five minutes *)
Fixpoint significant_gaps (ts : list datetime) : result nat :=
  match ts with
  | previous :: (current :: _) as rest =>
      (gap <- dt_sub current previous ;;
       more <- significant_gaps rest ;;
       Ok (if minutes 5 <? gap then S more else more))%py
  | _ => Ok 0%nat
  end.

(** the summary block; [None] when no record has a timestamp, where the
    source writes no summary lines at all *)
Definition executive_summary (sg : ServerGroup) : result (option ExecutiveSummary) :=
  (errors <- filter_r (level_is "error") (logs sg) ;;
   warnings <- filter_r (level_in ["warn"; "warning"]) (logs sg) ;;
   let error_count := List.length errors in
   let warning_count := List.length warnings in
   let components := List.length (components sg) in
   match real_timestamps (logs sg) with
   | [] => Ok None
   | unsorted =>
       timestamps <- sort_by dt_ltb unsorted ;;
       duration <- dt_sub (last timestamps datetime_min) (hd datetime_min timestamps) ;;
       gaps <- significant_gaps timestamps ;;
       Ok (Some (mkSummary duration components error_count warning_count gaps
                   (if (error_count =? 0)%nat && (warning_count <? 10)%nat
                       && (gaps =? 0)%nat
                    then Healthy
                    else if (0 <? error_count)%nat || (0 <? gaps)%nat
                    then IssuesDetected
                    else WarningsPresent)))
   end)%py.

(** ** Specification-level notions for the further properties *)

(** a filter reduced to its component, level and file fields, and to its
    search and time fields *)
Definition attributes_only (f : FilterVars) : FilterVars :=
  mkFilter (component_var f) (level_var f) (file_var f)
           EmptyString EmptyString EmptyString.

Definition search_and_time_only (f : FilterVars) : FilterVars :=
  mkFilter "All" "All" "All" (search_var f) (start_time_var f) (end_time_var f).

(** the record has the component, level and file the filter asks for *)
Definition attributes_match (f : FilterVars) (log : LogRecord) : bool :=
  (String.eqb (component_var f) "All" || is_str (component_var f) (component log))
  && (String.eqb (level_var f) "All" || is_str (level_var f) (level log))
  && (String.eqb (file_var f) "All" || String.eqb (file_name log) (file_var f)).

(** the test of the filter loop as a boolean: raising counts as failing *)
Definition passes_b {lib : PyLib} (f : FilterVars) (log : LogRecord) : bool :=
  match record_passes f log with
  | Ok true => true
  | _ => false
  end.

(** the lines of a file that decode to a document *)
Definition is_document (l : line) : bool :=
  match l with Document _ => true | _ => false end.

(** a record comes from line [line_number] of the file [lines] *)
Definition from_file (file server : string) (lines : list line) (r : LogRecord) : Prop :=
  file_name r = file /\ server_name r = server /\
  (1 <= line_number r)%nat /\
  nth_error lines (line_number r - 1) = Some (Document (raw r)).

(** the collections the operations of the application can produce *)
Inductive reachable {lib : PyLib} : ServerGroup -> Prop :=
| reach_new (n : string) : reachable (new_group n)
| reach_clear (sg : ServerGroup) : reachable sg -> reachable (clear sg)
| reach_load (tz : string) (sg : ServerGroup) (file : string) (lines : list line) :
    reachable sg -> reachable (fst (load_file tz sg file lines))
| reach_add (tz : string) (sg : ServerGroup) (file : string) (lines : list line) :
    reachable sg -> reachable (fst (add_file tz sg file lines))
| reach_timezone (tz : string) (sg : ServerGroup) :
    reachable sg -> reachable (fst (on_timezone_change tz sg)).

(** the key [on_log_select] looks a record up by *)
Definition row_key (r : LogRecord) : nat * string := (line_number r, file_name r).

(** what the operations keep true of a collection: the file of every
    record is a loaded file, no two records share line number and file
    name, and every component and level seen belongs to some record *)
Definition group_ok (sg : ServerGroup) : Prop :=
  (forall r, In r (logs sg) -> In (file_name r) (loaded_files sg)) /\
  NoDup (map row_key (logs sg)) /\
  (forall c, In c (components sg) -> exists r, In r (logs sg) /\ component r = c) /\
  (forall l, In l (log_levels sg) -> exists r, In r (logs sg) /\ level r = l).

(** the records [read_lines] appends, seen from the line number [n] of
    the first line *)
Definition new_records_ok (file server : string) (n : nat) (lines : list line)
    (new : list LogRecord) : Prop :=
  Forall (fun r => file_name r = file /\ server_name r = server /\
                   exists i, nth_error lines i = Some (Document (raw r)) /\
                             line_number r = (n + i)%nat) new /\
  StronglySorted (fun x y => (line_number x < line_number y)%nat) new.

(** the number of matched characters [ratio] sums over the blocks *)
Definition matched (blocks : list SequenceMatcher.Match) : nat :=
  fold_right (fun t s => (snd t + s)%nat) 0%nat blocks.

(** the characters of the first and of the second sequence still to be
    searched *)
Definition width_a (queue : list (nat * nat * nat * nat)) : nat :=
  fold_right (fun q s => let '(alo, ahi, _, _) := q in (ahi - alo + s)%nat) 0%nat queue.

Definition width_b (queue : list (nat * nat * nat * nat)) : nat :=
  fold_right (fun q s => let '(_, _, blo, bhi) := q in (bhi - blo + s)%nat) 0%nat queue.

(** a record without its rendered timestamp *)
Definition unrendered (log : LogRecord) : LogRecord :=
  set_timestamp log (Verbatim JNull).

(** the keys of [component_stats] are pairwise different and each is
    equal to itself *)
Fixpoint keys_distinct (d : list (json * ComponentStats)) : Prop :=
  match d with
  | [] => True
  | (k, _) :: rest =>
      hashable_eqb k k = true /\
      Forall (fun p => hashable_eqb k (fst p) = false) rest /\
      keys_distinct rest
  end.

(** the records counted in [component_stats] *)
Definition counted (d : list (json * ComponentStats)) : nat :=
  list_sum (map (fun p => cs_total_logs (snd p)) d).

(** the counters of a component that has been seen *)
Definition stats_ok (s : ComponentStats) : Prop :=
  (1 <= cs_total_logs s)%nat /\
  (error_count s + warning_count s + info_count s <= cs_total_logs s)%nat.

(** what a section of the component report shows *)
Definition report_ok (r : ComponentReport) : Prop :=
  (1 <= rc_total_logs r)%nat /\
  match rc_levels r with
  | Some (i, w, e) => (1 <= i + w + e <= rc_total_logs r)%nat
  | None => True
  end /\
  (List.length (rc_status_changes r) <= 5)%nat.

(** the record belongs to the component [c], as the dict compares keys *)
Definition of_component (c : json) (l : LogRecord) : bool :=
  hashable_eqb c (component l).

(** the instant a datetime is ordered by among datetimes of its kind *)
Definition instant (t : datetime) : Z :=
  match utcoffset t with
  | Some o => wall t - o
  | None => wall t
  end.

(** both naive or both aware *)
Definition same_kind (x y : datetime) : Prop :=
  match utcoffset x, utcoffset y with
  | None, None | Some _, Some _ => True
  | _, _ => False
  end.

(** the time covered by the reported gaps *)
Definition total_gap (gs : list Gap) : Z :=
  fold_right Z.add 0 (map gap_duration gs).

(** the timestamps kept under the keys of [component_timeline] *)
Definition timeline_size (d : list (json * list datetime)) : nat :=
  list_sum (map (fun p => List.length (snd p)) d).

Fixpoint timeline_keys_distinct (d : list (json * list datetime)) : Prop :=
  match d with
  | [] => True
  | (k, _) :: rest =>
      hashable_eqb k k = true /\
      Forall (fun p => hashable_eqb k (fst p) = false) rest /\
      timeline_keys_distinct rest
  end.

(** what holds of the samples collected from [n] records: the gauges
    are positive, the error rates are not negative and pair up with the
    event counts, and no list has more samples than records were read *)
Definition samples_ok (n : nat) (m : Metrics) : Prop :=
  Forall (fun v => (0 < v)%Q) (cpu_values m) /\
  Forall (fun v => (0 < v)%Q) (memory_values m) /\
  Forall (fun v => (0 < v)%Q) (load_values m) /\
  Forall (fun v => (0 < v)%Q) (goroutine_counts m) /\
  Forall (fun v => (0 <= v)%Q) (error_rates m) /\
  List.length (event_counts m) = List.length (error_rates m) /\
  (List.length (cpu_values m) <= n /\ List.length (memory_values m) <= n /\
   List.length (load_values m) <= n /\ List.length (goroutine_counts m) <= n /\
   List.length (error_rates m) <= n)%nat.

(** ** Worked inputs

    Files and collections the examples below run the model on. Records are
    produced by the loader from decoded documents, with the reference
    library and the display zone "UTC". *)

Module Samples.

Definition load (file_name : string) (lines : list line) : ServerGroup * load_outcome :=
  load_file (lib := Reference.lib) "UTC" (new_group "A") file_name lines.

(** a record with a timestamp followed by one without *)
Definition mixed_file : list line :=
  [ Document (JDict [ ("@timestamp", JStr "2024-01-01T10:00:00Z");
                      ("log.level", JStr "info");
                      ("message", JStr "agent running") ]);
    Document (JDict [ ("log.level", JStr "error");
                      ("message", JStr "no timestamp on this line") ]) ].

Definition group_with_file : ServerGroup :=
  mkGroup "A" [] [] [] ["agent.ndjson"].

(** two records whose memory samples are 400 MB and 600 MB *)
Definition memory_doc (stamp : string) (bytes : Z) : line :=
  Document (JDict [ ("@timestamp", JStr stamp);
                    ("log.level", JStr "info");
                    ("message", JStr "Non-zero metrics in the last 30s");
                    ("monitoring",
                     JDict [ ("metrics",
                       JDict [ ("beat",
                         JDict [ ("memstats",
                           JDict [ ("memory_alloc", JNum (inject_Z bytes)) ]) ]) ]) ]) ]).

Definition memory_file : list line :=
  [ memory_doc "2024-01-01T10:00:00Z" 419430400;
    memory_doc "2024-01-01T10:00:30Z" 629145600 ].

Definition memory_logs : list LogRecord := logs (fst (load "metrics.ndjson" memory_file)).

(** six status changes of one component, one per minute: a stop at
    10:00, then five starts from 10:01 to 10:05 *)
Definition status_doc (stamp message : string) : line :=
  Document (JDict [ ("@timestamp", JStr stamp);
                    ("log.level", JStr "info");
                    ("component", JDict [ ("binary", JStr "filebeat") ]);
                    ("message", JStr message) ]).

Definition status_file : list line :=
  [ status_doc "2024-01-01T10:00:00Z" "Input stopped";
    status_doc "2024-01-01T10:01:00Z" "Harvester started";
    status_doc "2024-01-01T10:02:00Z" "Harvester started";
    status_doc "2024-01-01T10:03:00Z" "Harvester started";
    status_doc "2024-01-01T10:04:00Z" "Harvester started";
    status_doc "2024-01-01T10:05:00Z" "Harvester started" ].

Definition status_logs : list LogRecord := logs (fst (load "filebeat.ndjson" status_file)).

(** one record without a timestamp *)
Definition untimed_file : list line :=
  [ Document (JDict [ ("log.level", JStr "error");
                      ("message", JStr "no timestamp on this line") ]) ].

Definition untimed_logs : list LogRecord := logs (fst (load "agent.ndjson" untimed_file)).

(** a filter with an end bound only *)
Definition until_noon : FilterVars :=
  mkFilter "All" "All" "All" EmptyString EmptyString "2024-01-01 12:00:00".

(** a document whose message is a number *)
Definition numeric_message : json := JDict [ ("message", JNum 42) ].

(** the same error message on two servers, one minute apart, the level in
    different case *)
Definition refused_doc (stamp level message : string) : line :=
  Document (JDict [ ("@timestamp", JStr stamp);
                    ("log.level", JStr level);
                    ("message", JStr message) ]).

Definition refused_a : list LogRecord :=
  logs (fst (load "a.ndjson"
               [ refused_doc "2024-01-01T10:00:00Z" "error" "connection refused" ])).

Definition refused_b : list LogRecord :=
  logs (fst (load "b.ndjson"
               [ refused_doc "2024-01-01T10:01:00Z" "ERROR" "Connection refused" ])).

(** 2024-01-01T10:00:00+00:00 plus [m] minutes *)
Definition at_minute (m : Z) : datetime :=
  mkdt (63839700000000000 + m * us_per_minute) (Some 0).

End Samples.

(** ** Further worked inputs *)

Module MoreSamples.

(** a filter on one component *)
Definition only_filebeat : FilterVars :=
  mkFilter "filebeat" "All" "All" EmptyString EmptyString EmptyString.

(** the record of each of the two one-line files *)
Definition blank_record : LogRecord :=
  mkLog JNull 0 EmptyString EmptyString (Verbatim JNull) datetime_min
        JNull JNull JNull JNull.

Definition refused_x : LogRecord := hd blank_record Samples.refused_a.
Definition refused_y : LogRecord := hd blank_record Samples.refused_b.

(** the time between them, as the engine computes it *)
Definition refused_gap : Q :=
  Eval vm_compute in
    match minutes_between (parsed_timestamp refused_x) (parsed_timestamp refused_y) with
    | Ok d => d
    | Raise _ => 0
    end.

(** the collection after loading the status file *)
Definition status_group : ServerGroup :=
  fst (load_file (lib := Reference.lib) "UTC" (new_group "A") "filebeat.ndjson"
         Samples.status_file).

(** noon of 2024-01-01, UTC *)
Definition noon : datetime := Samples.at_minute 120.

(** three records of one component, the last nine minutes after the
    second *)
Definition gappy_file : list line :=
  [ Samples.status_doc "2024-01-01T10:00:00Z" "Harvester started";
    Samples.status_doc "2024-01-01T10:01:00Z" "Harvester started";
    Samples.status_doc "2024-01-01T10:10:00Z" "Input stopped" ].

Definition gappy_group : ServerGroup :=
  fst (load_file (lib := Reference.lib) "UTC" (new_group "A") "filebeat.ndjson"
         gappy_file).

End MoreSamples.

(** * Proofs *)

Unset Implicit Arguments.

(** ** The result monad *)

Lemma bind_ok {A B : Type} (c : result A) (k : A -> result B) (b : B) :
  bind c k = Ok b -> exists a, c = Ok a /\ k a = Ok b.
Proof.
  destruct c as [a|e]; simpl; intros H; [eauto | discriminate].
Qed.

Ltac bind_inv H :=
  let x := fresh "x" in
  let Hx := fresh "Hx" in
  apply bind_ok in H; destruct H as (x & Hx & H).

Lemma filter_r_ok {A : Type} (p : A -> result bool) (l r : list A) :
  filter_r p l = Ok r ->
  Forall (fun x => is_ok (p x) = true) l /\
  forall x, In x r <-> In x l /\ p x = Ok true.
Proof.
  revert r; induction l as [|y l IH]; simpl; intros r H.
  - inversion H; subst. split; [constructor | intros x; simpl; tauto].
  - bind_inv H. bind_inv H. inversion H; subst; clear H.
    destruct (IH _ Hx0) as [Hall Hin]. split.
    + constructor; [rewrite Hx; reflexivity | exact Hall].
    + intros z. destruct x; simpl; rewrite Hin.
      * split; [intros [->|]; [tauto|tauto] | intros [[->|] ?]; tauto].
      * split; [tauto | intros [[->|] ?]; [congruence | tauto]].
Qed.

Lemma filter_r_total {A : Type} (p : A -> result bool) (l : list A) :
  Forall (fun x => is_ok (p x) = true) l -> exists r, filter_r p l = Ok r.
Proof.
  induction 1 as [|y l Hy _ [r Hr]]; simpl; [eauto|].
  destruct (p y) as [b|]; [|discriminate]. simpl. rewrite Hr. simpl. eauto.
Qed.

(** ** Sorting *)

Section SortFacts.
Variable A : Type.
Variable ltb : A -> A -> result bool.

Lemma insert_by_perm (x : A) (l r : list A) :
  insert_by ltb x l = Ok r -> Permutation (x :: l) r.
Proof.
  revert r; induction l as [|y l IH]; simpl; intros r H.
  - inversion H; subst. apply Permutation_refl.
  - bind_inv H. destruct x0.
    + inversion H; subst. apply Permutation_refl.
    + bind_inv H. inversion H; subst.
      eapply perm_trans; [apply perm_swap|]. apply perm_skip. auto.
Qed.

Lemma sort_into_perm (l acc r : list A) :
  sort_into ltb acc l = Ok r -> Permutation (acc ++ l) r.
Proof.
  revert acc r; induction l as [|x l IH]; simpl; intros acc r H.
  - inversion H; subst. rewrite app_nil_r. apply Permutation_refl.
  - bind_inv H. apply IH in H. apply insert_by_perm in Hx.
    eapply perm_trans; [|exact H].
    eapply perm_trans; [apply Permutation_sym, Permutation_middle|].
    change (x :: acc ++ l) with ((x :: acc) ++ l).
    apply Permutation_app_tail. exact Hx.
Qed.

Lemma sort_by_perm (l r : list A) :
  sort_by ltb l = Ok r -> Permutation l r.
Proof. intros H. apply sort_into_perm in H. exact H. Qed.
End SortFacts.

(** ** Sets of file names *)

Lemma str_set_mem_In (v : string) (s : list string) :
  str_set_mem v s = true <-> In v s.
Proof.
  unfold str_set_mem. rewrite existsb_exists. split.
  - intros (x & Hin & Heq). apply String.eqb_eq in Heq. subst. exact Hin.
  - intros Hin. exists v. split; [exact Hin | apply String.eqb_refl].
Qed.

Lemma str_set_add_In (v : string) (s : list string) : In v (str_set_add v s).
Proof.
  unfold str_set_add. destruct (existsb (String.eqb v) s) eqn:E.
  - apply str_set_mem_In. exact E.
  - apply in_or_app. right. left. reflexivity.
Qed.

Lemma str_set_add_new (v : string) (s : list string) :
  str_set_mem v s = false -> List.length (str_set_add v s) = S (List.length s).
Proof.
  unfold str_set_mem, str_set_add. intros ->.
  rewrite length_app. simpl. lia.
Qed.

(** ** Loader *)

Lemma add_log_keeps_files (sg : ServerGroup) (p : LogRecord) :
  loaded_files (fst (add_log sg p)) = loaded_files sg.
Proof.
  unfold add_log. simpl.
  destruct (set_add (component p) (components sg)); simpl; [|reflexivity].
  destruct (set_add (level p) _); reflexivity.
Qed.

Section LoaderFacts.
Context {lib : PyLib}.
Variable tz : string.

Lemma read_lines_keeps_files (file server : string) (lines : list line) :
  forall (n : nat) (sg : ServerGroup) (k : nat),
    loaded_files (fst (read_lines tz file server n lines sg k)) = loaded_files sg.
Proof.
  induction lines as [|l lines IH]; intros n sg k; simpl; [reflexivity|].
  destruct l; try apply IH.
  destruct (process_log_entry tz entry n file server); [|reflexivity].
  pose proof (add_log_keeps_files sg a) as Hk.
  destruct (add_log sg a) as [sg' [u|e]]; simpl in *.
  - rewrite IH. exact Hk.
  - exact Hk.
Qed.

Lemma read_lines_malformed (file server : string) (lines : list line) :
  Forall (fun l => l = Malformed) lines ->
  forall (n : nat) (sg : ServerGroup) (k : nat),
    read_lines tz file server n lines sg k = (sg, Ok k).
Proof.
  induction 1 as [|l lines Hl _ IH]; intros n sg k; simpl; [reflexivity|].
  subst l. apply IH.
Qed.

Lemma load_records_file (sg : ServerGroup) (file : string) (lines : list line) :
  In file (loaded_files (fst (_load_file_thread tz sg file lines))).
Proof.
  unfold _load_file_thread.
  pose proof (read_lines_keeps_files file (name sg) lines 1
                (set_loaded_files sg (str_set_add file (loaded_files sg))) 0) as Hk.
  destruct (read_lines tz file (name sg) 1 lines _ 0) as [sg2 [n|e]]; simpl in *.
  - destruct (sort_logs (logs sg2)); simpl; rewrite Hk; apply str_set_add_In.
  - rewrite Hk. apply str_set_add_In.
Qed.
End LoaderFacts.

Lemma get_stats_counts (sg : ServerGroup) (st : Stats) :
  get_stats sg = Ok st ->
  files st = List.length (loaded_files sg) /\ total_logs st = List.length (logs sg).
Proof.
  unfold get_stats. intros H. bind_inv H. bind_inv H.
  inversion H; subst. simpl. auto.
Qed.

(** C5. An append whose file name is already in [loaded_files] is refused
    with the duplicate warning, and the collection (records, components
    seen, levels seen, loaded files) is left as it was. *)
Theorem add_file_duplicate_rejected :
  forall (lib : PyLib) (tz : string) (sg : ServerGroup) (file : string) (lines : list line),
    In file (loaded_files sg) ->
    snd (add_file tz sg file lines) = DuplicateFileWarning /\
    logs (fst (add_file tz sg file lines)) = logs sg /\
    components (fst (add_file tz sg file lines)) = components sg /\
    log_levels (fst (add_file tz sg file lines)) = log_levels sg /\
    loaded_files (fst (add_file tz sg file lines)) = loaded_files sg.
Proof.
  intros lib tz sg file lines Hin.
  apply str_set_mem_In in Hin. unfold add_file. rewrite Hin. simpl. tauto.
Qed.

Lemma add_file_duplicate_rejected_witness :
  In "agent.ndjson" (loaded_files Samples.group_with_file) /\
  snd (add_file (lib := Reference.lib) "UTC" Samples.group_with_file
         "agent.ndjson" Samples.mixed_file) = DuplicateFileWarning.
Proof.
  split.
  - simpl. left. reflexivity.
  - apply (add_file_duplicate_rejected Reference.lib "UTC" Samples.group_with_file
             "agent.ndjson" Samples.mixed_file).
    simpl. left. reflexivity.
Defined.

(** C10. [_load_file_thread] records the file name before it reads a
    line. So a file whose lines are all malformed adds no record, still
    counts as a loaded file, and is refused as a duplicate when added
    again. *)
Theorem malformed_file_recorded :
  forall (lib : PyLib) (tz : string) (sg : ServerGroup) (file : string) (lines : list line),
    ~ In file (loaded_files sg) ->
    Forall (fun l => l = Malformed) lines ->
    let sg' := fst (add_file tz sg file lines) in
    (forall any : list line,
        In file (loaded_files (fst (_load_file_thread tz sg file any)))) /\
    Permutation (logs sg) (logs sg') /\
    components sg' = components sg /\
    log_levels sg' = log_levels sg /\
    List.length (loaded_files sg') = S (List.length (loaded_files sg)) /\
    (forall st st' : Stats,
        get_stats sg = Ok st -> get_stats sg' = Ok st' ->
        files st' = S (files st) /\ total_logs st' = total_logs st) /\
    (forall again : list line,
        add_file tz sg' file again = (sg', DuplicateFileWarning)).
Proof.
  intros lib tz sg file lines Hnew Hbad sg'.
  assert (Hmem : str_set_mem file (loaded_files sg) = false).
  { destruct (str_set_mem file (loaded_files sg)) eqn:E; [|reflexivity].
    apply str_set_mem_In in E. contradiction. }
  pose proof (load_records_file tz sg file lines) as Hrec.
  assert (Hshape :
    Permutation (logs sg) (logs sg') /\ components sg' = components sg /\
    log_levels sg' = log_levels sg /\
    loaded_files sg' = str_set_add file (loaded_files sg) /\
    In file (loaded_files sg')).
  { subst sg'. unfold add_file. rewrite Hmem.
    destruct (_load_file_thread tz sg file lines) as [sg1 o] eqn:E. simpl in *.
    unfold _load_file_thread in E.
    rewrite (read_lines_malformed tz file (name sg) lines Hbad) in E.
    simpl in E. destruct (sort_logs (logs sg)) as [sorted|e] eqn:Es.
    - inversion E; subst; simpl. repeat split; auto.
      apply sort_by_perm in Es. exact Es.
    - inversion E; subst; simpl. repeat split; auto. }
  destruct Hshape as (Hp & Hc & Hl & Hf & Hin).
  split; [intros any; apply load_records_file|].
  split; [exact Hp|]. split; [exact Hc|]. split; [exact Hl|].
  split; [rewrite Hf; apply str_set_add_new; exact Hmem|].
  split.
  - intros st st' Hst Hst'.
    apply get_stats_counts in Hst. apply get_stats_counts in Hst'.
    destruct Hst as [-> ->], Hst' as [-> ->].
    rewrite Hf, (str_set_add_new _ _ Hmem). split; [reflexivity|].
    symmetry. apply Permutation_length. exact Hp.
  - intros again. unfold add_file.
    apply str_set_mem_In in Hin. rewrite Hin. reflexivity.
Qed.

Lemma malformed_file_recorded_witness :
  List.length (loaded_files
    (fst (add_file (lib := Reference.lib) "UTC" Samples.group_with_file
            "broken.ndjson" [Malformed; Malformed]))) = 2%nat.
Proof.
  assert (Hnew : ~ In "broken.ndjson" (loaded_files Samples.group_with_file)).
  { simpl. intros [E|[]]. discriminate E. }
  assert (Hbad : Forall (fun l => l = Malformed) [Malformed; Malformed])
    by (repeat constructor).
  exact (proj1 (proj2 (proj2 (proj2 (proj2
           (malformed_file_recorded Reference.lib "UTC" Samples.group_with_file
              "broken.ndjson" _ Hnew Hbad)))))).
Defined.

(** C1. Run on a file whose first record has a timestamp and whose second
    has none: the sort compares an aware datetime with the naive
    [datetime.min], [TypeError] is raised, the handler of
    [_load_file_thread] reports the failure, and the two records stay in
    file order, the sentinel record after the record with a real
    timestamp. *)
Theorem load_mixed_file_not_sorted :
  snd (Samples.load "agent.ndjson" Samples.mixed_file) = LoadFailed TypeError /\
  map parsed_timestamp (logs (fst (Samples.load "agent.ndjson" Samples.mixed_file)))
  = [Samples.at_minute 0; datetime_min].
Proof. vm_compute. split; reflexivity. Qed.

(** C9. Run on six status changes of one component, a stop at 10:00
    followed by five starts at 10:01 to 10:05: the tuples
    [(status, timestamp)] are sorted by status first, so the five reported
    lines end with the oldest change (the stop at 10:00) and leave out the
    start at 10:01, which is among the five most recent. *)
Theorem status_changes_ordered_by_status :
  exists r : ComponentReport,
    run_component_analysis "UTC" Samples.status_logs = Ok (Some [r]) /\
    rc_status_changes r =
      [ (Samples.at_minute 2, "started"); (Samples.at_minute 3, "started");
        (Samples.at_minute 4, "started"); (Samples.at_minute 5, "started");
        (Samples.at_minute 0, "stopped") ].
Proof. eexists. vm_compute. split; reflexivity. Qed.

(** ** Health analysis *)

Lemma Qltb_lt (x y : Q) : Qltb x y = true <-> (x < y)%Q.
Proof.
  unfold Qltb. rewrite negb_true_iff. split.
  - intros H. apply Qnot_le_lt. intros Hle.
    apply Qle_bool_iff in Hle. congruence.
  - intros H. destruct (Qle_bool y x) eqn:E; [|reflexivity].
    apply Qle_bool_iff in E. exfalso. exact (Qlt_not_le _ _ H E).
Qed.

Lemma nonempty_true {A : Type} (l : list A) : nonempty l = true <-> l <> [].
Proof. destruct l; simpl; split; congruence. Qed.

Lemma memory_issue_iff (m : Metrics) :
  In "High memory usage" (health_issues m) <->
  memory_values m <> [] /\ (500 < mean (memory_values m))%Q.
Proof.
  unfold health_issues. rewrite <- nonempty_true, <- Qltb_lt, <- andb_true_iff.
  destruct (nonempty (memory_values m) && Qltb 500 (mean (memory_values m))).
  - simpl. intuition auto.
  - split; [|discriminate]. intros H.
    repeat (apply in_app_or in H; destruct H as [H|H]);
      repeat match type of H with
             | In _ (if ?c then _ else _) => destruct c
             end;
      simpl in H; intuition discriminate.
Qed.

Lemma analyze_other_metric (values : list Q) (name : string) :
  String.eqb name "Memory Usage" = false ->
  ~ In "High memory usage detected" (analyze_metric values name).
Proof.
  intros Hn. unfold analyze_metric. rewrite Hn. destruct values; simpl; [tauto|].
  repeat match goal with
         | |- ~ In _ (if ?c then _ else _) => destruct c
         end; simpl; intuition discriminate.
Qed.

Lemma memory_warning_iff (values : list Q) :
  In "High memory usage detected" (analyze_metric values "Memory Usage") <->
  values <> [] /\ (500 < mean values)%Q.
Proof.
  unfold analyze_metric. destruct values as [|v vs].
  - simpl. split; [tauto | intros [H _]; congruence].
  - rewrite <- Qltb_lt. simpl String.eqb. cbv iota. simpl andb at 1.
    destruct (Qltb 500 (mean (v :: vs))).
    + simpl. split; [intros _; split; [discriminate | reflexivity] | auto].
    + simpl. split; [intros []| intros [_ H]; discriminate].
Qed.

(** C8, as amended. The health analysis flags high memory usage, in the
    warning after the memory figures and in the issue list, exactly when
    the mean of the memory samples is strictly greater than 500 MB. *)
Theorem high_memory_flag_iff :
  forall (logs : list LogRecord) (r : HealthReport),
    run_health_analysis logs = Ok (Some r) ->
    exists m : Metrics,
      collect_all (mkMetrics [] [] [] [] [] []) logs = Ok m /\
      (In "High memory usage" (issues r) <->
       memory_values m <> [] /\ (500 < mean (memory_values m))%Q) /\
      (In "High memory usage detected" (metric_warnings r) <->
       memory_values m <> [] /\ (500 < mean (memory_values m))%Q).
Proof.
  intros logs r H. unfold run_health_analysis in H.
  destruct logs as [|l logs]; [discriminate|].
  bind_inv H. inversion H; subst; clear H. exists x. split; [exact Hx|].
  simpl issues. simpl metric_warnings. split; [apply memory_issue_iff|].
  rewrite <- memory_warning_iff. rewrite in_app_iff. split; [|tauto].
  intros [H|H]; [exact H|]. exfalso.
  repeat (apply in_app_or in H; destruct H as [H|H]);
    revert H; apply analyze_other_metric; reflexivity.
Qed.

Lemma high_memory_flag_iff_witness :
  exists m : Metrics,
    collect_all (mkMetrics [] [] [] [] [] []) Samples.memory_logs = Ok m /\
    (In "High memory usage" [] <->
     memory_values m <> [] /\ (500 < mean (memory_values m))%Q).
Proof.
  destruct (high_memory_flag_iff Samples.memory_logs (mkHealth [] []))
    as (m & Hm & Hi & _).
  - vm_compute. reflexivity.
  - exists m. split; [exact Hm | exact Hi].
Defined.

(** C8, the claim as stated fails: with memory samples of 400 MB and
    600 MB the mean is exactly 500 and nothing is flagged. *)
Lemma memory_mean_500_not_flagged :
  exists (m : Metrics) (r : HealthReport),
    collect_all (mkMetrics [] [] [] [] [] []) Samples.memory_logs = Ok m /\
    Forall2 Qeq (memory_values m) [400%Q; 600%Q] /\
    (mean (memory_values m) == 500)%Q /\
    run_health_analysis Samples.memory_logs = Ok (Some r) /\
    ~ In "High memory usage" (issues r) /\
    ~ In "High memory usage detected" (metric_warnings r).
Proof.
  eexists. exists (mkHealth [] []).
  split; [vm_compute; reflexivity|].
  split; [repeat constructor; reflexivity|].
  split; [reflexivity|].
  split; [vm_compute; reflexivity|].
  simpl. tauto.
Qed.

(** ** Filters *)

Section FilterFacts.
Context {lib : PyLib}.

Lemma apply_filters_In (f : FilterVars) (logs r : list LogRecord) :
  apply_filters f logs = Ok r ->
  forall x, In x r <-> In x logs /\ record_passes f x = Ok true.
Proof. intros H. apply (filter_r_ok _ _ _ H). Qed.

Lemma sentinel_before_start (s : datetime) :
  0 < wall s -> dt_ltb datetime_min s <> Ok false.
Proof.
  intros Hs. unfold dt_ltb, dt_cmp_key. simpl.
  destruct (utcoffset s); simpl; [discriminate|].
  assert ((0 <? wall s) = true) as -> by (apply Z.ltb_lt; exact Hs).
  discriminate.
Qed.

Lemma sentinel_not_after_end (e : datetime) :
  utcoffset e = None -> 0 <= wall e -> dt_gtb datetime_min e = Ok false.
Proof.
  intros He Hw. unfold dt_gtb, dt_ltb, dt_cmp_key. rewrite He. simpl.
  assert ((wall e <? 0) = false) as -> by (apply Z.ltb_ge; exact Hw).
  reflexivity.
Qed.

End FilterFacts.

(** C3, as amended. For a record with the sentinel timestamp: under a
    start bound later than the minimum instant it never passes; without a
    start bound, an end bound without a zone does not exclude it, it passes
    exactly when it passes the filter with no time constraint. *)
Theorem sentinel_under_time_filter :
  forall (lib : PyLib) (f : FilterVars) (log : LogRecord),
    parsed_timestamp log = datetime_min ->
    (forall s : datetime,
        parse_time_filter (start_time_var f) = Some s -> 0 < wall s ->
        record_passes f log <> Ok true) /\
    (parse_time_filter (start_time_var f) = None ->
     (forall e : datetime,
         parse_time_filter (end_time_var f) = Some e ->
         utcoffset e = None /\ 0 <= wall e) ->
     record_passes f log = passes_filters f None None log).
Proof.
  intros lib f log Hts. unfold record_passes, passes_filters. rewrite Hts. split.
  - intros s -> Hs.
    destruct (negb (String.eqb (component_var f) "All") && _); [discriminate|].
    destruct (negb (String.eqb (level_var f) "All") && _); [discriminate|].
    destruct (negb (String.eqb (file_var f) "All") && _); [discriminate|].
    pose proof (sentinel_before_start s Hs) as Hlt.
    destruct (dt_ltb datetime_min s) as [[|]|]; simpl; congruence.
  - intros -> He.
    destruct (negb (String.eqb (component_var f) "All") && _); [reflexivity|].
    destruct (negb (String.eqb (level_var f) "All") && _); [reflexivity|].
    destruct (negb (String.eqb (file_var f) "All") && _); [reflexivity|].
    simpl bind at 1.
    destruct (parse_time_filter (end_time_var f)) as [e|]; [|reflexivity].
    destruct (He e eq_refl) as [Hn Hw].
    rewrite (sentinel_not_after_end e Hn Hw). reflexivity.
Qed.

Lemma sentinel_under_time_filter_witness :
  exists log : LogRecord,
    Samples.untimed_logs = [log] /\
    record_passes (lib := Reference.lib) Samples.until_noon log
    = passes_filters (lib := Reference.lib) Samples.until_noon None None log.
Proof.
  eexists. split; [vm_compute; reflexivity|].
  apply (sentinel_under_time_filter Reference.lib Samples.until_noon).
  - vm_compute. reflexivity.
  - vm_compute. reflexivity.
  - intros e He. vm_compute in He. inversion He; subst; clear He.
    split; [reflexivity | vm_compute; discriminate].
Defined.

(** C3, the claim as stated fails: under an end bound alone the record
    without a timestamp passes the filter. *)
Lemma sentinel_passes_end_bound :
  exists (log : LogRecord) (e : datetime),
    Samples.untimed_logs = [log] /\
    parsed_timestamp log = datetime_min /\
    parse_time_filter (lib := Reference.lib) (start_time_var Samples.until_noon) = None /\
    parse_time_filter (lib := Reference.lib) (end_time_var Samples.until_noon) = Some e /\
    apply_filters (lib := Reference.lib) Samples.until_noon Samples.untimed_logs = Ok [log].
Proof.
  do 2 eexists. vm_compute. repeat split; reflexivity.
Qed.

(** ** Normalizer *)

(** the component the resolution rule gives for the fields of a document *)
Lemma extract_component_dict {lib : PyLib} (kv : list (string * json)) :
  extract_component (JDict kv) =
  Ok match assoc "component" kv with
     | Some (JDict c) =>
         match assoc "binary" c with
         | Some v => v
         | None => match assoc "type" c with Some v => v | None => JStr "unknown" end
         end
     | Some v => JStr (py_str v)
     | None =>
         match assoc "service.name" kv with
         | Some v => v
         | None => JStr "unknown"
         end
     end.
Proof.
  unfold extract_component. simpl.
  destruct (assoc "component" kv) as [v|]; simpl.
  - destruct v; reflexivity.
  - destruct (assoc "service.name" kv); reflexivity.
Qed.

(** what [extract_timestamp] returns on a document, by the cases of its
    [@timestamp] field *)
Lemma extract_timestamp_dict {lib : PyLib} (tz : string) (kv : list (string * json)) :
  exists ts : display_ts * datetime,
    extract_timestamp tz (JDict kv) = Ok ts /\
    (assoc "@timestamp" kv = None ->
     snd ts = datetime_min /\ fst ts = Verbatim (JStr "N/A")) /\
    (forall v, assoc "@timestamp" kv = Some v -> truthy v = false ->
               snd ts = datetime_min /\ fst ts = Verbatim (JStr "N/A")) /\
    (forall v, assoc "@timestamp" kv = Some v -> truthy v = true ->
               is_ok (parse_timestamp tz v) = false ->
               snd ts = datetime_min /\ fst ts = Verbatim v) /\
    (forall v p, assoc "@timestamp" kv = Some v -> truthy v = true ->
                 parse_timestamp tz v = Ok p -> ts = p).
Proof.
  unfold extract_timestamp. simpl.
  destruct (assoc "@timestamp" kv) as [v|].
  - destruct (truthy v) eqn:Ht.
    + destruct (parse_timestamp tz v) as [p|e] eqn:Hp.
      * exists p. split; [reflexivity|]. split; [discriminate|]. split; [|split].
        -- intros v' Hv' Ht'. inversion Hv'; subst. congruence.
        -- intros v' Hv' _ Hbad. inversion Hv'; subst. rewrite Hp in Hbad. discriminate.
        -- intros v' p' Hv' _ Hp'. inversion Hv'; subst. congruence.
      * eexists. split; [reflexivity|]. split; [discriminate|]. split; [|split].
        -- intros v' Hv' Ht'. inversion Hv'; subst. congruence.
        -- intros v' Hv' _ _. inversion Hv'; subst. auto.
        -- intros v' p' Hv' _ Hp'. inversion Hv'; subst. congruence.
    + eexists. split; [reflexivity|]. split; [discriminate|]. split; [|split].
      * intros; auto.
      * intros v' Hv' Ht'. inversion Hv'; subst. congruence.
      * intros v' p' Hv' Ht'. inversion Hv'; subst. congruence.
  - eexists. split; [reflexivity|]. split; [auto|].
    split; [|split]; discriminate.
Qed.

(** C7, as amended. On a document whose [message] is absent or a string
    the normalizer returns a record. A missing, empty or unparsable
    [@timestamp] gives the sentinel, a parsable one is stored; a missing
    level, component or message takes its default, and a level or
    component that is present is kept whatever its type. *)
Theorem process_log_entry_returns :
  forall (lib : PyLib) (tz : string) (kv : list (string * json))
         (line_num : nat) (file server : string),
    (assoc "message" kv = None \/ exists s, assoc "message" kv = Some (JStr s)) ->
    exists r : LogRecord,
      process_log_entry tz (JDict kv) line_num file server = Ok r /\
      (assoc "@timestamp" kv = None ->
       parsed_timestamp r = datetime_min /\ timestamp r = Verbatim (JStr "N/A")) /\
      (forall v, assoc "@timestamp" kv = Some v -> truthy v = false ->
                 parsed_timestamp r = datetime_min /\
                 timestamp r = Verbatim (JStr "N/A")) /\
      (forall v, assoc "@timestamp" kv = Some v -> truthy v = true ->
                 is_ok (parse_timestamp tz v) = false ->
                 parsed_timestamp r = datetime_min /\ timestamp r = Verbatim v) /\
      (forall v p, assoc "@timestamp" kv = Some v -> truthy v = true ->
                   parse_timestamp tz v = Ok p ->
                   parsed_timestamp r = snd p /\ timestamp r = fst p) /\
      level r = match assoc "log.level" kv with
                | Some v => v
                | None => JStr "unknown"
                end /\
      extract_component (JDict kv) = Ok (component r) /\
      (assoc "component" kv = None -> assoc "service.name" kv = None ->
       component r = JStr "unknown") /\
      full_message r = match assoc "message" kv with
                       | Some v => v
                       | None => JStr EmptyString
                       end /\
      raw r = JDict kv /\ line_number r = line_num /\ file_name r = file.
Proof.
  intros lib tz kv line_num file server Hmsg.
  unfold process_log_entry.
  destruct (extract_timestamp_dict tz kv) as (ts & -> & Hnone & Hfalsy & Hbad & Hgood).
  simpl bind at 1. simpl py_get. simpl bind at 1.
  rewrite extract_component_dict. simpl bind at 1.
  set (comp := match assoc "component" kv with Some _ => _ | None => _ end).
  assert (Hlen : exists m, (match assoc "message" kv with
                            | Some v => v | None => JStr EmptyString end) = JStr m).
  { destruct Hmsg as [->|[s ->]]; eauto. }
  destruct Hlen as [m Hm]. rewrite Hm. simpl py_len. simpl bind at 1.
  assert (Hcomp : assoc "component" kv = None -> assoc "service.name" kv = None ->
                  comp = JStr "unknown").
  { intros Hc Hs. subst comp. rewrite Hc, Hs. reflexivity. }
  assert (Hgood' : forall v p, assoc "@timestamp" kv = Some v -> truthy v = true ->
                     parse_timestamp tz v = Ok p -> snd ts = snd p /\ fst ts = fst p).
  { intros v p Hv Ht Hp. rewrite (Hgood v p Hv Ht Hp). auto. }
  destruct (100 <? String.length m)%nat; simpl;
    (eexists; split; [reflexivity|]); simpl;
    (split; [exact Hnone|]); (split; [exact Hfalsy|]); (split; [exact Hbad|]);
    (split; [exact Hgood'|]); repeat split; auto.
Qed.

Lemma process_log_entry_returns_witness :
  exists r : LogRecord,
    process_log_entry (lib := Reference.lib) "UTC"
      (JDict [("log.level", JStr "error")]) 1 "agent.ndjson" "A" = Ok r /\
    parsed_timestamp r = datetime_min /\ component r = JStr "unknown".
Proof.
  destruct (process_log_entry_returns Reference.lib "UTC"
              [("log.level", JStr "error")] 1 "agent.ndjson" "A")
    as (r & Hr & Hts & _ & _ & _ & _ & _ & Hc & _).
  - left. reflexivity.
  - exists r. split; [exact Hr|]. split.
    + apply Hts. reflexivity.
    + apply Hc; reflexivity.
Defined.

(** C7, the claim as stated fails: a document whose [message] is a number
    makes the normalizer raise [TypeError], at [len(message)]. *)
Lemma numeric_message_raises :
  process_log_entry (lib := Reference.lib) "UTC" Samples.numeric_message
    1 "agent.ndjson" "A" = Raise TypeError.
Proof. vm_compute. reflexivity. Qed.

(** ** Sorted output of the stable insertion sort *)

Section SortSorted.
Variable A : Type.
Variable ltb : A -> A -> result bool.
Variable R : A -> A -> Prop.
Hypothesis ltb_true : forall x y, ltb x y = Ok true -> R x y.
Hypothesis ltb_false : forall x y, ltb x y = Ok false -> R y x.
Hypothesis R_trans : forall x y z, R x y -> R y z -> R x z.

Lemma insert_by_sorted (x : A) (l r : list A) :
  StronglySorted R l -> insert_by ltb x l = Ok r -> StronglySorted R r.
Proof.
  intros Hs; revert r; induction Hs as [|y l Hs IH Hy]; simpl; intros r H.
  - inversion H; subst. constructor; constructor.
  - bind_inv H. destruct x0.
    + inversion H; subst. constructor.
      * constructor; assumption.
      * constructor; [apply ltb_true; exact Hx|].
        eapply Forall_impl; [|exact Hy]. intros z Hz.
        eapply R_trans; [apply ltb_true; exact Hx | exact Hz].
    + bind_inv H. inversion H; subst. constructor; [apply IH; exact Hx0|].
      apply insert_by_perm in Hx0.
      eapply Permutation_Forall; [exact Hx0|].
      constructor; [apply ltb_false; exact Hx | exact Hy].
Qed.

Lemma sort_into_sorted (l acc r : list A) :
  StronglySorted R acc -> sort_into ltb acc l = Ok r -> StronglySorted R r.
Proof.
  revert acc r; induction l as [|x l IH]; simpl; intros acc r Hs H.
  - inversion H; subst. exact Hs.
  - bind_inv H. eapply IH; [|exact H]. eapply insert_by_sorted; eassumption.
Qed.

Lemma sort_by_sorted (l r : list A) :
  sort_by ltb l = Ok r -> StronglySorted R r.
Proof. apply sort_into_sorted. constructor. Qed.
End SortSorted.

Section SortTotal.
Variable A : Type.
Variable ltb : A -> A -> result bool.
Hypothesis ltb_total : forall x y, is_ok (ltb x y) = true.

Lemma insert_by_total (x : A) (l : list A) : exists r, insert_by ltb x l = Ok r.
Proof.
  induction l as [|y l [r Hr]]; simpl; [eauto|].
  specialize (ltb_total x y). destruct (ltb x y) as [[|]|]; try discriminate; simpl.
  - eauto.
  - rewrite Hr. simpl. eauto.
Qed.

Lemma sort_into_total (l acc : list A) : exists r, sort_into ltb acc l = Ok r.
Proof.
  revert acc; induction l as [|x l IH]; intros acc; simpl; [eauto|].
  destruct (insert_by_total x acc) as [r ->]. simpl. apply IH.
Qed.
End SortTotal.

(** ** Message similarity correlation *)

Lemma compare_pair_ok (thr win : Q) (l1 l2 : LogRecord) (c : SimilarityCorrelation) :
  compare_pair thr win l1 l2 = Ok (Some c) ->
  log1 c = l1 /\ log2 c = l2 /\
  dt_eqb (parsed_timestamp l2) datetime_min = false /\
  minutes_between (parsed_timestamp l1) (parsed_timestamp l2) = Ok (time_diff_minutes c) /\
  (time_diff_minutes c <= win)%Q /\
  (exists m1 m2, full_message l1 = JStr m1 /\ full_message l2 = JStr m2 /\
                 similarity c = calculate_similarity (lower m1) (lower m2)) /\
  (thr <= similarity c)%Q.
Proof.
  unfold compare_pair. intros H.
  destruct (dt_eqb (parsed_timestamp l2) datetime_min) eqn:E2; [discriminate|].
  bind_inv H. destruct (Qltb win x) eqn:Ew; [discriminate|].
  bind_inv H. bind_inv H.
  destruct (Qle_bool thr (calculate_similarity x0 x1)) eqn:Et; [|discriminate].
  inversion H; subst; clear H. simpl.
  destruct (full_message l1) as [| | |m1| |] eqn:M1; try discriminate.
  destruct (full_message l2) as [| | |m2| |] eqn:M2; try discriminate.
  simpl in Hx0, Hx1. inversion Hx0; inversion Hx1; subst.
  split; [reflexivity|]. split; [reflexivity|]. split; [reflexivity|].
  split; [exact Hx|]. split.
  { unfold Qltb in Ew. apply negb_false_iff in Ew. apply Qle_bool_iff. exact Ew. }
  split; [eauto|]. apply Qle_bool_iff. exact Et.
Qed.

Lemma inner_loop_ok (thr win : Q) (i1 i2 : list LogRecord) (l1 : LogRecord) :
  In l1 i1 -> dt_eqb (parsed_timestamp l1) datetime_min = false ->
  forall (rest : list LogRecord) (acc cs : list SimilarityCorrelation),
    (forall x, In x rest -> In x i2) ->
    Forall (similar_ok i1 i2 thr win) acc ->
    inner_loop thr win l1 rest acc = Ok cs ->
    Forall (similar_ok i1 i2 thr win) cs.
Proof.
  intros Hin1 Hne1. induction rest as [|l2 rest IH]; simpl; intros acc cs Hsub Hacc H.
  - inversion H; subst. exact Hacc.
  - bind_inv H. eapply IH; [| |exact H].
    + intros z Hz. apply Hsub. right. exact Hz.
    + destruct x as [c|]; [|exact Hacc].
      apply Forall_app. split; [exact Hacc|]. constructor; [|constructor].
      apply compare_pair_ok in Hx.
      destruct Hx as (E1 & E2 & Hne2 & Hd & Hw & Hm & Ht).
      unfold similar_ok. rewrite E1, E2.
      repeat split; auto; apply Hsub; left; reflexivity.
Qed.

Lemma outer_loop_ok (thr win : Q) (i1 i2 : list LogRecord) :
  forall (rest : list LogRecord) (acc cs : list SimilarityCorrelation),
    (forall x, In x rest -> In x i1) ->
    Forall (similar_ok i1 i2 thr win) acc ->
    outer_loop thr win rest i2 acc = Ok cs ->
    Forall (similar_ok i1 i2 thr win) cs.
Proof.
  induction rest as [|l1 rest IH]; simpl; intros acc cs Hsub Hacc H.
  - inversion H; subst. exact Hacc.
  - destruct (dt_eqb (parsed_timestamp l1) datetime_min) eqn:E1.
    + eapply IH; [|exact Hacc|exact H]. intros z Hz. apply Hsub. right. exact Hz.
    + bind_inv H. eapply IH; [| |exact H].
      * intros z Hz. apply Hsub. right. exact Hz.
      * eapply inner_loop_ok; [| exact E1 | | exact Hacc | exact Hx]; auto.
Qed.

Lemma level_in_total (ss : list string) (l : LogRecord) :
  text_record l -> is_ok (level_in ss l) = true.
Proof. intros [[s Hs] _]. unfold level_in. rewrite Hs. reflexivity. Qed.

Lemma compare_pair_total (thr win : Q) (l1 l2 : LogRecord) :
  text_record l1 -> text_record l2 ->
  (dt_eqb (parsed_timestamp l2) datetime_min = false ->
   is_ok (dt_sub (parsed_timestamp l1) (parsed_timestamp l2)) = true) ->
  is_ok (compare_pair thr win l1 l2) = true.
Proof.
  intros [_ [m1 M1]] [_ [m2 M2]] Hsub. unfold compare_pair.
  destruct (dt_eqb (parsed_timestamp l2) datetime_min); [reflexivity|].
  specialize (Hsub eq_refl). unfold minutes_between.
  destruct (dt_sub (parsed_timestamp l1) (parsed_timestamp l2)); [|discriminate].
  simpl. destruct (Qltb win _); [reflexivity|].
  rewrite M1, M2. simpl. destruct (Qle_bool thr _); reflexivity.
Qed.

Lemma inner_loop_total (thr win : Q) (l1 : LogRecord) (i2 : list LogRecord) :
  text_record l1 -> Forall text_record i2 ->
  Forall (fun l2 => dt_eqb (parsed_timestamp l2) datetime_min = false ->
                    is_ok (dt_sub (parsed_timestamp l1) (parsed_timestamp l2)) = true) i2 ->
  forall acc, exists cs, inner_loop thr win l1 i2 acc = Ok cs.
Proof.
  intros H1 H2 Hs. induction i2 as [|l2 i2 IH]; intros acc; simpl; [eauto|].
  inversion H2; subst. inversion Hs; subst.
  pose proof (compare_pair_total thr win _ _ H1 H3 H5) as Hc.
  destruct (compare_pair thr win l1 l2); [|discriminate]. simpl. apply IH; assumption.
Qed.

Lemma outer_loop_total (thr win : Q) (i1 i2 : list LogRecord) :
  Forall text_record i1 -> Forall text_record i2 ->
  (forall x y, In x i1 -> In y i2 ->
     dt_eqb (parsed_timestamp x) datetime_min = false ->
     dt_eqb (parsed_timestamp y) datetime_min = false ->
     is_ok (dt_sub (parsed_timestamp x) (parsed_timestamp y)) = true) ->
  forall acc, exists cs, outer_loop thr win i1 i2 acc = Ok cs.
Proof.
  intros H1 H2. induction i1 as [|l1 i1 IH]; intros Hs acc; simpl; [eauto|].
  inversion H1; subst.
  assert (Hrest : forall x y, In x i1 -> In y i2 ->
     dt_eqb (parsed_timestamp x) datetime_min = false ->
     dt_eqb (parsed_timestamp y) datetime_min = false ->
     is_ok (dt_sub (parsed_timestamp x) (parsed_timestamp y)) = true).
  { intros x y Hx. apply Hs. right. exact Hx. }
  destruct (dt_eqb (parsed_timestamp l1) datetime_min) eqn:E1.
  - apply IH; assumption.
  - destruct (inner_loop_total thr win l1 i2 H3 H2) with (acc := acc) as [cs Hcs].
    + apply Forall_forall. intros y Hy Hne. apply Hs; auto. left. reflexivity.
    + rewrite Hcs. simpl. apply IH; assumption.
Qed.

Lemma filter_r_sub {A : Type} (P : A -> Prop) (p : A -> result bool) (l r : list A) :
  Forall P l -> filter_r p l = Ok r -> Forall P r.
Proof.
  intros Hl H. apply filter_r_ok in H. destruct H as [_ Hin].
  apply Forall_forall. intros x Hx. apply Hin in Hx.
  rewrite Forall_forall in Hl. apply Hl. tauto.
Qed.

(** C6. Every correlation that [find_similar_messages] returns pairs a
    record of the first input with a record of the second, both of level
    error, warn or warning (case-insensitive), both with a timestamp that
    is not the sentinel, at most [time_window_minutes] apart, with
    similarity at least the threshold; the list is in descending order of
    similarity. The function returns (does not raise) when levels and
    messages are strings and the timestamps compared can be subtracted. *)
Theorem find_similar_messages_sound :
  forall (logs1 logs2 : list LogRecord) (thr win : Q),
    (forall cs : list SimilarityCorrelation,
        find_similar_messages logs1 logs2 thr win = Ok cs ->
        Forall (fun c =>
                  In (log1 c) logs1 /\ In (log2 c) logs2 /\
                  level_in important_levels (log1 c) = Ok true /\
                  level_in important_levels (log2 c) = Ok true /\
                  dt_eqb (parsed_timestamp (log1 c)) datetime_min = false /\
                  dt_eqb (parsed_timestamp (log2 c)) datetime_min = false /\
                  minutes_between (parsed_timestamp (log1 c)) (parsed_timestamp (log2 c))
                  = Ok (time_diff_minutes c) /\
                  (time_diff_minutes c <= win)%Q /\
                  (thr <= similarity c)%Q) cs /\
        StronglySorted (fun x y => (similarity y <= similarity x)%Q) cs) /\
    (Forall text_record logs1 -> Forall text_record logs2 ->
     (forall x y, In x logs1 -> In y logs2 ->
        dt_eqb (parsed_timestamp x) datetime_min = false ->
        dt_eqb (parsed_timestamp y) datetime_min = false ->
        is_ok (dt_sub (parsed_timestamp x) (parsed_timestamp y)) = true) ->
     exists cs, find_similar_messages logs1 logs2 thr win = Ok cs).
Proof.
  intros logs1 logs2 thr win. unfold find_similar_messages. split.
  - intros cs H. bind_inv H. bind_inv H. bind_inv H.
    rename x into i1, x0 into i2, x1 into found.
    pose proof (proj2 (filter_r_ok _ _ _ Hx)) as Hi1.
    pose proof (proj2 (filter_r_ok _ _ _ Hx0)) as Hi2.
    assert (Hfound : Forall (similar_ok i1 i2 thr win) found).
    { eapply outer_loop_ok; [| |exact Hx1]; [auto|constructor]. }
    split.
    + eapply Permutation_Forall; [apply (sort_by_perm _ _ _ _ H)|].
      eapply Forall_impl; [|exact Hfound].
      intros c (A1 & A2 & N1 & N2 & Hd & Hw & _ & Ht).
      apply Hi1 in A1. apply Hi2 in A2. tauto.
    + eapply sort_by_sorted; [| | |exact H].
      * intros x y E. unfold by_similarity_desc in E. inversion E as [E'].
        apply Qltb_lt in E'. apply Qlt_le_weak. exact E'.
      * intros x y E. unfold by_similarity_desc in E. inversion E as [E'].
        unfold Qltb in E'. apply negb_false_iff in E'. apply Qle_bool_iff. exact E'.
      * intros x y z Hxy Hyz. eapply Qle_trans; eassumption.
  - intros W1 W2 Hsub.
    destruct (filter_r_total (level_in important_levels) logs1) as [i1 Hi1].
    { eapply Forall_impl; [|exact W1]. intros l. apply level_in_total. }
    destruct (filter_r_total (level_in important_levels) logs2) as [i2 Hi2].
    { eapply Forall_impl; [|exact W2]. intros l. apply level_in_total. }
    rewrite Hi1, Hi2. simpl.
    destruct (outer_loop_total thr win i1 i2) with (acc := @nil SimilarityCorrelation)
      as [found Hf].
    + eapply filter_r_sub; [exact W1 | exact Hi1].
    + eapply filter_r_sub; [exact W2 | exact Hi2].
    + intros x y Hx Hy. apply Hsub.
      * apply (proj2 (filter_r_ok _ _ _ Hi1)) in Hx. tauto.
      * apply (proj2 (filter_r_ok _ _ _ Hi2)) in Hy. tauto.
    + rewrite Hf. simpl. apply sort_into_total. intros x y. reflexivity.
Qed.

Lemma find_similar_messages_sound_witness :
  exists cs : list SimilarityCorrelation,
    find_similar_messages Samples.refused_a Samples.refused_b (9 # 10) 5 = Ok cs /\
    Forall (fun c => (9 # 10 <= similarity c)%Q) cs.
Proof.
  destruct (find_similar_messages_sound Samples.refused_a Samples.refused_b (9 # 10) 5)
    as [Hsound Htotal].
  destruct Htotal as [cs Hcs].
  - vm_compute. repeat econstructor.
  - vm_compute. repeat econstructor.
  - intros x y Hx Hy _ _. vm_compute in Hx, Hy.
    destruct Hx as [<-|[]]. destruct Hy as [<-|[]]. vm_compute. reflexivity.
  - exists cs. split; [exact Hcs|].
    destruct (Hsound cs Hcs) as [Hall _].
    eapply Forall_impl; [|exact Hall]. intros c H. apply H.
Defined.

(** ** datetime comparison *)

Lemma dt_eqb_refl (x : datetime) : dt_eqb x x = true.
Proof. unfold dt_eqb. destruct (utcoffset x); apply Z.eqb_refl. Qed.

Lemma dt_eqb_sym (x y : datetime) : dt_eqb x y = dt_eqb y x.
Proof.
  unfold dt_eqb. destruct (utcoffset x), (utcoffset y); try reflexivity;
    apply Z.eqb_sym.
Qed.

Lemma dt_eqb_trans (x y z : datetime) :
  dt_eqb x y = true -> dt_eqb y z = true -> dt_eqb x z = true.
Proof.
  unfold dt_eqb. destruct (utcoffset x), (utcoffset y), (utcoffset z);
    try discriminate; rewrite !Z.eqb_eq; lia.
Qed.

Lemma dt_eqb_congr (x y z : datetime) :
  dt_eqb x y = true -> dt_eqb x z = dt_eqb y z.
Proof.
  intros H. destruct (dt_eqb y z) eqn:E.
  - eapply dt_eqb_trans; eassumption.
  - destruct (dt_eqb x z) eqn:E'; [|reflexivity].
    rewrite dt_eqb_sym in H. rewrite (dt_eqb_trans _ _ _ H E') in E. discriminate.
Qed.

Lemma dt_eqb_shift (x y : datetime) (o : Z) :
  dt_eqb x y = true -> dt_eqb (shift x o) (shift y o) = true.
Proof.
  unfold dt_eqb, shift. simpl. destruct (utcoffset x), (utcoffset y);
    try discriminate; rewrite !Z.eqb_eq; lia.
Qed.

Lemma dt_add_shift (k k' : datetime) (o : Z) :
  dt_add k (o * us_per_minute) = Ok k' -> k' = shift k o.
Proof.
  unfold dt_add, shift.
  destruct ((0 <=? wall k + o * us_per_minute) && _); intros H; inversion H.
  reflexivity.
Qed.

Lemma in_bucket_congr (b b' : datetime) (l : LogRecord) :
  dt_eqb b b' = true -> in_bucket b l = in_bucket b' l.
Proof.
  intros H. unfold in_bucket. f_equal.
  rewrite (dt_eqb_sym _ b), (dt_eqb_sym _ b'). apply dt_eqb_congr. exact H.
Qed.

(** ** Buckets *)

Lemma bucket_lookup_append (b k : datetime) (l : LogRecord)
    (bs : list (datetime * list LogRecord)) :
  bucket_lookup b (bucket_append k l bs) =
  if dt_eqb k b
  then Some (match bucket_lookup b bs with Some ls => ls ++ [l] | None => [l] end)
  else bucket_lookup b bs.
Proof.
  induction bs as [|[k' ls] bs IH]; simpl.
  - destruct (dt_eqb k b); reflexivity.
  - destruct (dt_eqb k' k) eqn:Ek; simpl.
    + rewrite (dt_eqb_congr _ _ b Ek). destruct (dt_eqb k b); reflexivity.
    + destruct (dt_eqb k' b) eqn:Eb.
      * destruct (dt_eqb k b) eqn:Ekb; [|reflexivity].
        rewrite dt_eqb_sym in Ekb. rewrite (dt_eqb_trans _ _ _ Eb Ekb) in Ek.
        discriminate.
      * exact IH.
Qed.

Lemma distinct_keys_append (k : datetime) (l : LogRecord)
    (bs : list (datetime * list LogRecord)) :
  distinct_keys bs -> distinct_keys (bucket_append k l bs).
Proof.
  induction bs as [|[k' ls] bs IH]; simpl.
  - auto.
  - intros [Hn Hd]. destruct (dt_eqb k' k) eqn:Ek; simpl.
    + auto.
    + split; [|auto]. rewrite bucket_lookup_append, Hn.
      rewrite dt_eqb_sym, Ek. reflexivity.
Qed.

Lemma filter_snoc {A : Type} (p : A -> bool) (l : list A) (x : A) :
  filter p (l ++ [x]) = filter p l ++ (if p x then [x] else []).
Proof. rewrite filter_app. reflexivity. Qed.

Lemma fill_buckets_spec (logs : list LogRecord) :
  forall (pre : list LogRecord) (bs : list (datetime * list LogRecord)),
    (forall b, bucket_lookup b bs = bucket_of pre b) -> distinct_keys bs ->
    (forall b, bucket_lookup b (fill_buckets logs bs) = bucket_of (pre ++ logs) b)
    /\ distinct_keys (fill_buckets logs bs).
Proof.
  induction logs as [|l logs IH]; intros pre bs Hb Hd; simpl.
  - rewrite app_nil_r. auto.
  - replace (pre ++ l :: logs) with ((pre ++ [l]) ++ logs)
      by (rewrite <- app_assoc; reflexivity).
    apply IH.
    + intros b. unfold bucket_of. rewrite filter_snoc. unfold in_bucket at 2.
      destruct (dt_eqb (parsed_timestamp l) datetime_min); simpl.
      * rewrite app_nil_r. apply Hb.
      * rewrite bucket_lookup_append, Hb. unfold bucket_of.
        destruct (dt_eqb (get_time_bucket (parsed_timestamp l)) b).
        -- destruct (filter (in_bucket b) pre); reflexivity.
        -- rewrite app_nil_r. reflexivity.
    + destruct (dt_eqb (parsed_timestamp l) datetime_min); simpl;
        [exact Hd | apply distinct_keys_append; exact Hd].
Qed.

Lemma make_buckets_spec (logs : list LogRecord) :
  (forall b, bucket_lookup b (fill_buckets logs []) = bucket_of logs b)
  /\ distinct_keys (fill_buckets logs []).
Proof.
  apply (fill_buckets_spec logs [] []); simpl; auto.
Qed.

Lemma bucket_lookup_In (b : datetime) (bs : list (datetime * list LogRecord))
    (ls : list LogRecord) :
  bucket_lookup b bs = Some ls -> exists k, In (k, ls) bs /\ dt_eqb k b = true.
Proof.
  induction bs as [|[k' ls'] bs IH]; simpl; [discriminate|].
  destruct (dt_eqb k' b) eqn:E.
  - intros H; inversion H; subst. eauto.
  - intros H. destruct (IH H) as (k & Hin & Hk). eauto.
Qed.

Lemma bucket_lookup_None (b : datetime) (bs : list (datetime * list LogRecord)) :
  bucket_lookup b bs = None -> forall k ls, In (k, ls) bs -> dt_eqb k b = false.
Proof.
  induction bs as [|[k' ls'] bs IH]; simpl; [tauto|].
  destruct (dt_eqb k' b) eqn:E; [discriminate|].
  intros H k ls [Heq|Hin]; [inversion Heq; subst; exact E | eauto].
Qed.

(** a key of the dict is the bucket of one of the records *)
Lemma bucket_append_keys (k : datetime) (l : LogRecord)
    (bs : list (datetime * list LogRecord)) (k0 : datetime) (ls0 : list LogRecord) :
  In (k0, ls0) (bucket_append k l bs) ->
  k0 = k \/ exists ls, In (k0, ls) bs.
Proof.
  induction bs as [|[k' ls] bs IH]; simpl.
  - intros [H|[]]. inversion H; auto.
  - destruct (dt_eqb k' k); simpl.
    + intros [H|H]; [inversion H; subst; eauto | eauto].
    + intros [H|H]; [inversion H; subst; eauto|].
      destruct (IH H) as [->|[ls' Hls]]; eauto.
Qed.

Lemma fill_buckets_keys (logs : list LogRecord) :
  forall (bs : list (datetime * list LogRecord)) (k : datetime) (ls : list LogRecord),
    In (k, ls) (fill_buckets logs bs) ->
    (exists ls', In (k, ls') bs) \/
    exists l, In l logs /\ dt_eqb (parsed_timestamp l) datetime_min = false /\
              k = get_time_bucket (parsed_timestamp l).
Proof.
  induction logs as [|l logs IH]; intros bs k ls H; simpl in H.
  - eauto.
  - apply IH in H. destruct H as [[ls' H]|(l' & Hl' & Hne & Hk)].
    + destruct (dt_eqb (parsed_timestamp l) datetime_min) eqn:E; simpl in H; [eauto|].
      apply bucket_append_keys in H. destruct H as [->|H]; [|eauto].
      right. exists l. split; [left; reflexivity|]. split; [exact E | reflexivity].
    + right. exists l'. split; [right; exact Hl' | auto].
Qed.

Lemma bucket_lookup_congr (x y : datetime) (bs : list (datetime * list LogRecord)) :
  dt_eqb x y = true -> bucket_lookup x bs = bucket_lookup y bs.
Proof.
  intros H. induction bs as [|[k ls] bs IH]; simpl; [reflexivity|].
  rewrite (dt_eqb_sym k x), (dt_eqb_sym k y), (dt_eqb_congr _ _ k H), IH.
  reflexivity.
Qed.

Lemma bucket_lookup_own (bs : list (datetime * list LogRecord)) :
  distinct_keys bs ->
  forall k ls, In (k, ls) bs -> bucket_lookup k bs = Some ls.
Proof.
  induction bs as [|[k' ls'] bs IH]; simpl; [tauto|].
  intros [Hn Hd] k ls [Heq|Hin].
  - inversion Heq; subst. rewrite dt_eqb_refl. reflexivity.
  - rewrite dt_eqb_sym, (bucket_lookup_None _ _ Hn _ _ Hin). apply IH; assumption.
Qed.

(** ** Timeline correlation *)

Lemma filter_r_errors (ls es : list LogRecord) :
  filter_r (level_is "error") ls = Ok es -> es = filter is_error ls.
Proof.
  revert es; induction ls as [|l ls IH]; simpl; intros es H.
  - inversion H. reflexivity.
  - bind_inv H. bind_inv H. inversion H; subst; clear H.
    rewrite <- (IH _ Hx0). unfold level_is in Hx. bind_inv Hx.
    unfold is_error. destruct (level l); try discriminate.
    simpl in Hx1. inversion Hx1; subst. inversion Hx; subst. reflexivity.
Qed.

Lemma correlate_at_inv (bs2 : list (datetime * list LogRecord)) (k : datetime)
    (ls : list LogRecord) (o : Z) (r : option TimelineCorrelation) :
  correlate_at bs2 k ls o = Ok r ->
  (if fires bs2 k ls o
   then exists c, r = Some c /\ time_bucket c = k /\ time_offset_minutes c = o
   else r = None).
Proof.
  unfold correlate_at, fires. intros H. bind_inv H.
  apply dt_add_shift in Hx. subst x.
  destruct (bucket_lookup (shift k o) bs2) as [ls2|].
  - bind_inv H. bind_inv H.
    apply filter_r_errors in Hx, Hx0. subst x x0.
    destruct (filter is_error ls), (filter is_error ls2); simpl;
      inversion H; subst; eauto.
  - rewrite andb_false_r. inversion H. reflexivity.
Qed.

Lemma emitted_at_app (b : datetime) (o : Z) (l1 l2 : list TimelineCorrelation) :
  emitted_at b o (l1 ++ l2) = (emitted_at b o l1 + emitted_at b o l2)%nat.
Proof. unfold emitted_at. rewrite filter_app, length_app. reflexivity. Qed.

Lemma emitted_at_emit (bs2 : list (datetime * list LogRecord)) (k : datetime)
    (ls : list LogRecord) (b : datetime) (o o' : Z) :
  is_ok (correlate_at bs2 k ls o') = true ->
  emitted_at b o (emit bs2 k ls o') =
  if dt_eqb k b && (o' =? o) && fires bs2 k ls o' then 1%nat else 0%nat.
Proof.
  unfold emit. destruct (correlate_at bs2 k ls o') as [r|] eqn:E; [|discriminate].
  intros _. apply correlate_at_inv in E. destruct (fires bs2 k ls o').
  - destruct E as (c & -> & Hk & Ho). unfold emitted_at. simpl.
    rewrite Hk, Ho, andb_true_r. destruct (dt_eqb k b && (o' =? o)); reflexivity.
  - subst r. rewrite andb_false_r. reflexivity.
Qed.

Lemma offsets_loop_spec (bs2 : list (datetime * list LogRecord)) (k : datetime)
    (ls : list LogRecord) (offs : list Z) :
  forall acc cs,
    offsets_loop bs2 k ls offs acc = Ok cs ->
    cs = acc ++ flat_map (emit bs2 k ls) offs /\
    Forall (fun o => is_ok (correlate_at bs2 k ls o) = true) offs.
Proof.
  induction offs as [|o offs IH]; simpl; intros acc cs H.
  - inversion H. rewrite app_nil_r. auto.
  - bind_inv H. apply IH in H. destruct H as [-> Hall]. split.
    + unfold emit at 2. rewrite Hx. destruct x; [rewrite <- app_assoc|]; reflexivity.
    + constructor; [rewrite Hx; reflexivity | exact Hall].
Qed.

Lemma buckets_loop_spec (bs2 : list (datetime * list LogRecord)) (n : Z)
    (bs1 : list (datetime * list LogRecord)) :
  forall acc cs,
    buckets_loop bs2 n bs1 acc = Ok cs ->
    cs = acc ++ flat_map (fun p => flat_map (emit bs2 (fst p) (snd p))
                                     (py_range (- n) (n + 1))) bs1 /\
    Forall (fun p => Forall (fun o => is_ok (correlate_at bs2 (fst p) (snd p) o) = true)
                       (py_range (- n) (n + 1))) bs1.
Proof.
  induction bs1 as [|[k ls] bs1 IH]; simpl; intros acc cs H.
  - inversion H. rewrite app_nil_r. auto.
  - bind_inv H. apply offsets_loop_spec in Hx. destruct Hx as [-> Hall].
    apply IH in H. destruct H as [-> Hrest]. split.
    + rewrite <- !app_assoc. reflexivity.
    + constructor; assumption.
Qed.

Lemma py_range_In (lo hi o : Z) : In o (py_range lo hi) <-> lo <= o < hi.
Proof.
  unfold py_range. rewrite in_map_iff. split.
  - intros (i & <- & Hi). apply in_seq in Hi. lia.
  - intros H. exists (Z.to_nat (o - lo)). split; [lia|]. apply in_seq. lia.
Qed.

Lemma py_range_NoDup (lo hi : Z) : NoDup (py_range lo hi).
Proof.
  unfold py_range. apply Finite.Injective_map_NoDup; [|apply seq_NoDup].
  intros i j H. lia.
Qed.

Lemma emitted_offsets (bs2 : list (datetime * list LogRecord)) (k : datetime)
    (ls : list LogRecord) (b : datetime) (o : Z) (offs : list Z) :
  NoDup offs ->
  Forall (fun o' => is_ok (correlate_at bs2 k ls o') = true) offs ->
  emitted_at b o (flat_map (emit bs2 k ls) offs) =
  if dt_eqb k b && fires bs2 k ls o && existsb (Z.eqb o) offs then 1%nat else 0%nat.
Proof.
  induction 1 as [|o' offs Hnot Hnd IH]; intros Hall; simpl.
  - rewrite andb_false_r. reflexivity.
  - inversion Hall; subst. rewrite emitted_at_app, (emitted_at_emit _ _ _ _ _ _ H1), (IH H2).
    rewrite (Z.eqb_sym o' o). destruct (o =? o') eqn:E.
    + apply Z.eqb_eq in E. subst o'.
      assert (existsb (Z.eqb o) offs = false) as ->.
      { destruct (existsb (Z.eqb o) offs) eqn:Ex; [|reflexivity].
        apply existsb_exists in Ex. destruct Ex as (z & Hz & Ez).
        apply Z.eqb_eq in Ez. subst z. contradiction. }
      destruct (dt_eqb k b), (fires bs2 k ls o); reflexivity.
    + destruct (dt_eqb k b), (fires bs2 k ls o), (fires bs2 k ls o'),
        (existsb (Z.eqb o) offs); reflexivity.
Qed.

Lemma in_window (n o : Z) :
  existsb (Z.eqb o) (py_range (- n) (n + 1)) = (- n <=? o) && (o <=? n).
Proof.
  destruct ((- n <=? o) && (o <=? n)) eqn:E.
  - apply andb_true_iff in E. destruct E as [E1 E2].
    apply Z.leb_le in E1, E2. apply existsb_exists. exists o.
    split; [apply py_range_In; lia | apply Z.eqb_refl].
  - destruct (existsb _ _) eqn:Ex; [|reflexivity].
    apply existsb_exists in Ex. destruct Ex as (z & Hz & Ez).
    apply Z.eqb_eq in Ez. subst z. apply py_range_In in Hz.
    apply andb_false_iff in E. destruct E as [E|E]; apply Z.leb_gt in E; lia.
Qed.

Lemma emitted_buckets (bs2 : list (datetime * list LogRecord)) (n : Z)
    (b : datetime) (o : Z) (bs1 : list (datetime * list LogRecord)) :
  distinct_keys bs1 ->
  Forall (fun p => Forall (fun o' => is_ok (correlate_at bs2 (fst p) (snd p) o') = true)
                     (py_range (- n) (n + 1))) bs1 ->
  emitted_at b o (flat_map (fun p => flat_map (emit bs2 (fst p) (snd p))
                                       (py_range (- n) (n + 1))) bs1) =
  match bucket_lookup b bs1 with
  | Some ls =>
      if fires bs2 b ls o && ((- n <=? o) && (o <=? n)) then 1%nat else 0%nat
  | None => 0%nat
  end.
Proof.
  induction bs1 as [|[k ls] bs1 IH]; simpl; [reflexivity|].
  intros [Hn Hd] Hall. inversion Hall as [|p l Hhead Hrest]; subst. simpl in Hhead.
  rewrite emitted_at_app, (IH Hd Hrest),
    (emitted_offsets _ _ _ _ _ _ (py_range_NoDup _ _) Hhead), in_window.
  destruct (dt_eqb k b) eqn:E; simpl.
  - rewrite <- (bucket_lookup_congr _ _ _ E), Hn, Nat.add_0_r.
    unfold fires. rewrite (bucket_lookup_congr _ _ _ (dt_eqb_shift _ _ o E)).
    reflexivity.
  - reflexivity.
Qed.

Lemma error_in_bucket (logs : list LogRecord) (b : datetime) :
  match bucket_of logs b with
  | Some ls => nonempty (filter is_error ls)
  | None => false
  end = error_in logs b.
Proof.
  unfold bucket_of, error_in.
  assert (H : nonempty (filter is_error (filter (in_bucket b) logs))
              = existsb (fun l => in_bucket b l && is_error l) logs).
  { induction logs as [|l logs IH]; simpl; [reflexivity|].
    destruct (in_bucket b l); simpl; [|exact IH].
    destruct (is_error l); simpl; [reflexivity | exact IH]. }
  rewrite <- H. destruct (filter (in_bucket b) logs); reflexivity.
Qed.

Lemma py_int_floor (w : Q) : (0 <= w)%Q -> py_int w = Qfloor w.
Proof.
  destruct w as [p q]. unfold Qle, py_int, Qfloor. simpl. intros H.
  apply Z.quot_div_nonneg; lia.
Qed.

Lemma filter_errors_total (ls : list LogRecord) :
  Forall level_is_text ls -> exists es, filter_r (level_is "error") ls = Ok es.
Proof.
  intros H. apply filter_r_total. eapply Forall_impl; [|exact H].
  intros l [s Hs]. unfold level_is. rewrite Hs. reflexivity.
Qed.

Lemma bucket_of_sub (P : LogRecord -> Prop) (logs ls : list LogRecord) (b : datetime) :
  Forall P logs -> bucket_of logs b = Some ls -> Forall P ls.
Proof.
  unfold bucket_of. intros H E.
  assert (ls = filter (in_bucket b) logs) as ->
    by (destruct (filter (in_bucket b) logs); [discriminate | congruence]).
  apply Forall_forall. intros x Hx. apply filter_In in Hx.
  rewrite Forall_forall in H. apply H. tauto.
Qed.

Lemma correlate_at_total (logs2 : list LogRecord) (k : datetime)
    (ls : list LogRecord) (o : Z) :
  Forall level_is_text logs2 -> Forall level_is_text ls ->
  is_ok (dt_add k (o * us_per_minute)) = true ->
  is_ok (correlate_at (fill_buckets logs2 []) k ls o) = true.
Proof.
  intros H2 H1 Hadd. unfold correlate_at.
  destruct (dt_add k (o * us_per_minute)) as [c|]; [|discriminate]. simpl.
  destruct (bucket_lookup c (fill_buckets logs2 [])) as [ls2|] eqn:E; [|reflexivity].
  rewrite (proj1 (make_buckets_spec logs2)) in E.
  destruct (filter_errors_total _ H1) as [es1 ->].
  destruct (filter_errors_total _ (bucket_of_sub _ _ _ _ H2 E)) as [es2 ->]. simpl.
  destruct es1, es2; reflexivity.
Qed.

Lemma offsets_loop_total (bs2 : list (datetime * list LogRecord)) (k : datetime)
    (ls : list LogRecord) (offs : list Z) :
  Forall (fun o => is_ok (correlate_at bs2 k ls o) = true) offs ->
  forall acc, exists cs, offsets_loop bs2 k ls offs acc = Ok cs.
Proof.
  induction 1 as [|o offs Ho _ IH]; intros acc; simpl; [eauto|].
  destruct (correlate_at bs2 k ls o); [|discriminate]. simpl. apply IH.
Qed.

Lemma buckets_loop_total (bs2 : list (datetime * list LogRecord)) (n : Z)
    (bs1 : list (datetime * list LogRecord)) :
  Forall (fun p => Forall (fun o => is_ok (correlate_at bs2 (fst p) (snd p) o) = true)
                     (py_range (- n) (n + 1))) bs1 ->
  forall acc, exists cs, buckets_loop bs2 n bs1 acc = Ok cs.
Proof.
  induction 1 as [|[k ls] bs1 Hp _ IH]; intros acc; simpl; [eauto|].
  simpl in Hp. destruct (offsets_loop_total _ _ _ _ Hp acc) as [cs ->]. simpl. apply IH.
Qed.

(** C4. For a window [w >= 0]: whenever [find_timeline_correlations]
    returns, it has emitted, for every bucket [b] and offset [o], exactly
    one correlation when [o] lies in [-floor w, floor w] and both the A
    bucket [b] and the B bucket [b + o] hold a record of level "error"
    (case-insensitive), and none otherwise; every qualifying offset of a
    bucket pair has its own entry. It returns when the levels are strings
    and the buckets moved by the offsets stay in the range of dates. *)
Theorem find_timeline_correlations_exact :
  forall (logs1 logs2 : list LogRecord) (w : Q),
    (0 <= w)%Q ->
    (forall cs : list TimelineCorrelation,
        find_timeline_correlations logs1 logs2 w = Ok cs ->
        forall (b : datetime) (o : Z),
          emitted_at b o cs =
          if (- Qfloor w <=? o) && (o <=? Qfloor w)
             && error_in logs1 b && error_in logs2 (shift b o)
          then 1%nat else 0%nat) /\
    (Forall level_is_text logs1 -> Forall level_is_text logs2 ->
     (forall l o, In l logs1 ->
        dt_eqb (parsed_timestamp l) datetime_min = false ->
        - Qfloor w <= o <= Qfloor w ->
        is_ok (dt_add (get_time_bucket (parsed_timestamp l)) (o * us_per_minute)) = true) ->
     exists cs, find_timeline_correlations logs1 logs2 w = Ok cs).
Proof.
  intros logs1 logs2 w Hw. unfold find_timeline_correlations.
  rewrite (py_int_floor _ Hw). set (n := Qfloor w).
  destruct (make_buckets_spec logs1) as [Hb1 Hd1].
  destruct (make_buckets_spec logs2) as [Hb2 _].
  split.
  - intros cs H b o. apply buckets_loop_spec in H. destruct H as [-> Hall].
    simpl app. rewrite (emitted_buckets _ _ b o _ Hd1 Hall), Hb1.
    rewrite <- (error_in_bucket logs1 b), <- (error_in_bucket logs2 (shift b o)).
    unfold fires. rewrite Hb2.
    destruct (bucket_of logs1 b) as [ls|]; [|rewrite andb_false_r; reflexivity].
    destruct (nonempty (filter is_error ls)),
      (match bucket_of logs2 (shift b o) with
       | Some ls2 => nonempty (filter is_error ls2) | None => false end),
      ((- n <=? o) && (o <=? n)); reflexivity.
  - intros T1 T2 Hrange. apply buckets_loop_total.
    apply Forall_forall. intros [k ls] Hin. simpl.
    apply Forall_forall. intros o Ho. apply py_range_In in Ho.
    apply correlate_at_total; [exact T2 | |].
    + apply (bucket_of_sub _ logs1 _ k); [exact T1|].
      rewrite <- Hb1. apply bucket_lookup_own; assumption.
    + destruct (fill_buckets_keys _ _ _ _ Hin) as [[ls' []]|(l & Hl & Hne & ->)].
      apply Hrange; [assumption | assumption | lia].
Qed.

Lemma find_timeline_correlations_exact_witness :
  exists cs : list TimelineCorrelation,
    find_timeline_correlations Samples.refused_a Samples.refused_b 2 = Ok cs /\
    emitted_at (Samples.at_minute 0) 1 cs = 1%nat /\
    emitted_at (Samples.at_minute 0) 0 cs = 0%nat.
Proof.
  destruct (find_timeline_correlations_exact Samples.refused_a Samples.refused_b 2)
    as [Hexact Htotal].
  - vm_compute. discriminate.
  - destruct Htotal as [cs Hcs].
    + vm_compute. repeat econstructor.
    + vm_compute. repeat econstructor.
    + intros l o Hl _ Ho. vm_compute in Hl. destruct Hl as [<-|[]].
      change (Qfloor 2) with 2 in Ho.
      assert (Hcases : o = -2 \/ o = -1 \/ o = 0 \/ o = 1 \/ o = 2) by lia.
      destruct Hcases as [->|[->|[->|[->| ->]]]]; vm_compute; reflexivity.
    + exists cs. split; [exact Hcs|].
      split; rewrite (Hexact cs Hcs); vm_compute; reflexivity.
Defined.

(** ** The matcher: the index [b2j] *)

Import SequenceMatcher.

Lemma b2j_get_setdefault (c elt : ascii) (i : nat) (b2j : list (ascii * list nat)) :
  b2j_get c (setdefault_append elt i b2j) =
  if Ascii.eqb elt c then b2j_get c b2j ++ [i] else b2j_get c b2j.
Proof.
  induction b2j as [|[e idxs] rest IH]; simpl.
  - destruct (Ascii.eqb elt c); reflexivity.
  - destruct (Ascii.eqb e elt) eqn:Ee; simpl.
    + apply Ascii.eqb_eq in Ee. subst e. destruct (Ascii.eqb elt c); reflexivity.
    + destruct (Ascii.eqb e c) eqn:Ec; [|exact IH].
      apply Ascii.eqb_eq in Ec. subst e.
      rewrite Ascii.eqb_sym, Ee. reflexivity.
Qed.

Lemma b2j_get_enumerate (c : ascii) (b : list ascii) :
  forall (i : nat) (b2j : list (ascii * list nat)),
    b2j_get c (enumerate_b i b b2j) = b2j_get c b2j ++ positions c i b.
Proof.
  induction b as [|x b IH]; intros i b2j; simpl.
  - rewrite app_nil_r. reflexivity.
  - rewrite IH, b2j_get_setdefault. destruct (Ascii.eqb x c).
    + rewrite <- app_assoc. reflexivity.
    + reflexivity.
Qed.

Lemma setdefault_keys (elt : ascii) (i : nat) (b2j : list (ascii * list nat)) :
  NoDup (map fst b2j) ->
  NoDup (map fst (setdefault_append elt i b2j)) /\
  forall e, In e (map fst (setdefault_append elt i b2j)) -> e = elt \/ In e (map fst b2j).
Proof.
  induction b2j as [|[e idxs] rest IH]; simpl; intros Hnd.
  - split; [repeat constructor; auto | intros e [->|[]]; auto].
  - inversion Hnd; subst. destruct (Ascii.eqb e elt) eqn:Ee; simpl.
    + split; [exact Hnd | auto].
    + destruct (IH H2) as [Hnd' Hin']. split.
      * constructor; [|exact Hnd']. intros Hin. apply Hin' in Hin.
        destruct Hin as [->|Hin]; [|contradiction].
        rewrite Ascii.eqb_refl in Ee. discriminate.
      * intros e0 [->|Hin]; [auto|]. destruct (Hin' _ Hin); auto.
Qed.

Lemma enumerate_keys (b : list ascii) :
  forall (i : nat) (b2j : list (ascii * list nat)),
    NoDup (map fst b2j) -> NoDup (map fst (enumerate_b i b b2j)).
Proof.
  induction b as [|x b IH]; intros i b2j H; simpl; [exact H|].
  apply IH. apply setdefault_keys. exact H.
Qed.

Lemma b2j_get_absent (c : ascii) (l : list (ascii * list nat)) :
  ~ In c (map fst l) -> b2j_get c l = [].
Proof.
  induction l as [|[e idxs] rest IH]; simpl; [reflexivity|].
  intros H. destruct (Ascii.eqb e c) eqn:E.
  - apply Ascii.eqb_eq in E. subst. exfalso. apply H. left. reflexivity.
  - apply IH. intros Hin. apply H. right. exact Hin.
Qed.

Lemma b2j_get_filter (f : ascii * list nat -> bool) (c : ascii)
    (l : list (ascii * list nat)) :
  NoDup (map fst l) ->
  b2j_get c (filter f l) = [] \/ b2j_get c (filter f l) = b2j_get c l.
Proof.
  induction l as [|[e idxs] rest IH]; simpl; intros Hnd; [auto|].
  inversion Hnd; subst. destruct (Ascii.eqb e c) eqn:E.
  - destruct (f (e, idxs)); simpl; [rewrite E; auto|].
    left. apply b2j_get_absent. apply Ascii.eqb_eq in E. subst e.
    intros Hin. apply H1. apply in_map_iff in Hin.
    destruct Hin as (p & Hp & Hin). apply filter_In in Hin.
    apply in_map_iff. exists p. tauto.
  - destruct (f (e, idxs)); simpl; [rewrite E|]; apply IH; exact H2.
Qed.

(** what the matcher needs of its index: the entry of an element is
    empty or lists all its positions *)
Lemma chain_b_get (c : ascii) (b : list ascii) :
  b2j_get c (chain_b b) = [] \/ b2j_get c (chain_b b) = positions c 0 b.
Proof.
  unfold chain_b.
  assert (Hall : b2j_get c (enumerate_b 0 b []) = positions c 0 b)
    by (rewrite b2j_get_enumerate; reflexivity).
  destruct (200 <=? List.length b)%nat.
  - destruct (b2j_get_filter
                (fun p => negb (List.length b / 100 + 1 <? List.length (snd p))%nat)
                c (enumerate_b 0 b [])) as [H|H].
    + apply enumerate_keys. constructor.
    + left. exact H.
    + right. rewrite H. exact Hall.
  - right. exact Hall.
Qed.

Lemma positions_In (c : ascii) (b : list ascii) :
  forall i j, In j (positions c i b) <-> (i <= j)%nat /\ nth_error b (j - i) = Some c.
Proof.
  induction b as [|x b IH]; intros i j; simpl.
  - split; [tauto|]. intros [_ H]. destruct (j - i)%nat; discriminate.
  - assert (Hrec : In j (positions c (S i) b) <->
                   (i < j)%nat /\ nth_error (x :: b) (j - i) = Some c).
    { rewrite IH. split; intros [H1 H2]; (split; [lia|]).
      - replace (j - i)%nat with (S (j - S i)) by lia. exact H2.
      - replace (j - i)%nat with (S (j - S i)) in H2 by lia. exact H2. }
    destruct (Ascii.eqb x c) eqn:E.
    + apply Ascii.eqb_eq in E. subst x. simpl. rewrite Hrec. split.
      * intros [->|[H1 H2]]; [|split; [lia|exact H2]].
        split; [lia|]. rewrite Nat.sub_diag. reflexivity.
      * intros [H1 H2]. destruct (Nat.eq_dec i j) as [->|Hne]; [auto|].
        right. split; [lia|exact H2].
    + rewrite Hrec. split; [intros [H1 H2]; split; [lia|exact H2]|].
      intros [H1 H2]. split; [|exact H2].
      destruct (Nat.eq_dec i j) as [->|Hne]; [|lia].
      rewrite Nat.sub_diag in H2. simpl in H2. inversion H2; subst.
      rewrite Ascii.eqb_refl in E. discriminate.
Qed.

Lemma positions_sorted (c : ascii) (b : list ascii) :
  forall i, StronglySorted lt (positions c i b).
Proof.
  induction b as [|x b IH]; intros i; simpl; [constructor|].
  destruct (Ascii.eqb x c); [|apply IH].
  constructor; [apply IH|]. apply Forall_forall. intros j Hj.
  apply positions_In in Hj. lia.
Qed.

(** ** The matcher on a sequence and itself *)

Section SameSequence.
Variable a : list ascii.
Variable b2j : list (ascii * list nat).
Hypothesis b2j_entries :
  forall c, b2j_get c b2j = [] \/ b2j_get c b2j = positions c 0 a.

Lemma run_at_le (i : nat) : (run_at a b2j i <= S i)%nat.
Proof.
  induction i as [|i IH]; simpl.
  - destruct (indexed a b2j 0); lia.
  - destruct (indexed a b2j (S i)); lia.
Qed.

Lemma run_at_indexed (i : nat) :
  indexed a b2j i = true -> run_at a b2j i = S (run_before a b2j i).
Proof. intros H. destruct i; simpl; rewrite H; reflexivity. Qed.

Lemma run_at_not_indexed (i : nat) :
  indexed a b2j i = false -> run_at a b2j i = 0%nat.
Proof. intros H. destruct i; simpl; rewrite H; reflexivity. Qed.

Lemma j2len_get_cons (j k j' : nat) (d : list (nat * nat)) :
  j2len_get ((j, k) :: d) j' = if (j =? j')%nat then k else j2len_get d j'.
Proof. reflexivity. Qed.

Lemma scan_row_same (i n : nat) (c : ascii) (prev : list (nat * nat)) :
  List.length a = n ->
  nonempty (b2j_get c b2j) = true ->
  nth_error a i = Some c ->
  prev_ok a b2j i prev ->
  forall (js : list nat) (new : list (nat * nat)) (d s : nat),
    StronglySorted lt js ->
    (forall j, In j js -> nth_error a j = Some c) ->
    new_ok a b2j i js new ->
    best_ok a b2j i js d s ->
    exists new' d' s',
      scan_row i 0 n prev js new (d, d, s) = (new', (d', d', s')) /\
      new_ok a b2j i [] new' /\ best_ok a b2j i [] d' s'.
Proof.
  intros Hlen Hc Hi (P1 & P2 & P3).
  assert (Hrun_i : run_at a b2j i = S (run_before a b2j i)).
  { apply run_at_indexed. unfold indexed. rewrite Hi. exact Hc. }
  induction js as [|j js IH]; intros new d s Hsorted Hjs Hnew Hbest.
  - simpl. eauto 6.
  - assert (Hj : nth_error a j = Some c) by (apply Hjs; left; reflexivity).
    assert (Hjn : (j < n)%nat).
    { rewrite <- Hlen. apply nth_error_Some. rewrite Hj. discriminate. }
    assert (Hrun_j : run_at a b2j j = S (run_before a b2j j)).
    { apply run_at_indexed. unfold indexed. rewrite Hj. exact Hc. }
    inversion Hsorted as [|x l Hs' Hlt]; subst x l.
    destruct Hnew as (N1 & N2 & N3). destruct Hbest as (B1 & B2 & B3).
    simpl scan_row.
    assert ((n <=? j)%nat = false) as -> by (apply Nat.leb_gt; exact Hjn).
    fold (prev_len prev j). set (k := (prev_len prev j + 1)%nat).
    assert (Hk1 : (k <= run_at a b2j j)%nat) by (subst k; specialize (P1 j); lia).
    assert (Hk2 : (k <= run_at a b2j i)%nat) by (subst k; specialize (P2 j); lia).
    assert (Hnew' : new_ok a b2j i js ((j, k) :: new)).
    { split; [|split].
      - intros j'. rewrite j2len_get_cons. destruct (Nat.eqb_spec j j'); [subst|]; auto.
      - intros j'. rewrite j2len_get_cons. destruct (j =? j')%nat; auto.
      - rewrite j2len_get_cons. destruct (Nat.eqb_spec j i) as [->|Hne].
        + right. subst k. rewrite P3. lia.
        + destruct N3 as [[Hji|Hin]|Heq]; [contradiction | auto | auto]. }
    destruct (s <? k)%nat eqn:Esk.
    + apply Nat.ltb_lt in Esk.
      assert (Hji : j = i).
      { destruct (Nat.lt_trichotomy j i) as [Hlt'|[Heq|Hgt]]; [|exact Heq|].
        - specialize (B2 j Hlt'). lia.
        - destruct B3 as [[Heq|Hin]|Hle]; [lia| |lia].
          rewrite Forall_forall in Hlt. specialize (Hlt i Hin). lia. }
      subst j. apply IH; auto.
      * intros j' Hj'. apply Hjs. right. exact Hj'.
      * pose proof (run_at_le i). split; [lia|]. split.
        -- intros i' Hi'. specialize (B2 i' Hi'). lia.
        -- right. subst k. rewrite Hrun_i, P3. lia.
    + apply Nat.ltb_ge in Esk. apply IH; auto.
      * intros j' Hj'. apply Hjs. right. exact Hj'.
      * split; [exact B1|]. split; [exact B2|].
        destruct B3 as [[Heq|Hin]|Hle]; [|auto|auto].
        right. subst j k. rewrite Hrun_i, <- P3. lia.
Qed.

Lemma scan_rows_same (n : nat) :
  List.length a = n ->
  forall (cnt i : nat) (prev : list (nat * nat)) (d s : nat),
    (i + cnt = n)%nat ->
    prev_ok a b2j i prev ->
    (d + s <= i)%nat ->
    (forall i', (i' < i)%nat -> (run_at a b2j i' <= s)%nat) ->
    exists d' s',
      scan_rows a b2j cnt i 0 n prev (d, d, s) = (d', d', s') /\ (d' + s' <= n)%nat.
Proof.
  intros Hlen. induction cnt as [|cnt IH]; intros i prev d s Hi Hprev Hds Hruns.
  - simpl. exists d, s. split; [reflexivity | lia].
  - simpl scan_rows.
    destruct (nth_error a i) as [c|] eqn:Hc.
    2:{ apply nth_error_None in Hc. lia. }
    assert (Hrow : exists new' d' s',
               scan_row i 0 n prev (b2j_get c b2j) [] (d, d, s) = (new', (d', d', s')) /\
               new_ok a b2j i [] new' /\ best_ok a b2j i [] d' s').
    { destruct (nonempty (b2j_get c b2j)) eqn:Hne.
      - assert (Hpos : b2j_get c b2j = positions c 0 a).
        { destruct (b2j_entries c) as [H|H]; [|exact H].
          rewrite H in Hne. discriminate. }
        assert (Hin : In i (b2j_get c b2j)).
        { rewrite Hpos. apply positions_In. rewrite Nat.sub_0_r. split; [lia|exact Hc]. }
        apply (scan_row_same i n c prev Hlen Hne Hc Hprev).
        + rewrite Hpos. apply positions_sorted.
        + intros j Hj. rewrite Hpos in Hj. apply positions_In in Hj.
          rewrite Nat.sub_0_r in Hj. tauto.
        + split; [|split]; simpl; auto; lia.
        + split; [lia|]. split; [exact Hruns | auto].
      - assert (Hnil : b2j_get c b2j = []) by (destruct (b2j_get c b2j); [reflexivity|discriminate]).
        assert (Hrun : run_at a b2j i = 0%nat).
        { apply run_at_not_indexed. unfold indexed. rewrite Hc. exact Hne. }
        rewrite Hnil. exists [], d, s. split; [reflexivity|]. split.
        + split; [|split]; simpl; auto; lia.
        + split; [lia|]. split; [exact Hruns|]. right. lia. }
    destruct Hrow as (new' & d' & s' & -> & (N1 & N2 & N3) & (B1 & B2 & B3)).
    apply IH.
    + lia.
    + split; [|split].
      * intros [|j]; simpl; [lia | apply N1].
      * intros [|j]; simpl; [lia | apply N2].
      * simpl. destruct N3 as [[]|H]. exact H.
    + exact B1.
    + intros i' Hi'. destruct (Nat.eq_dec i' i) as [->|Hne].
      * destruct B3 as [[]|H]. exact H.
      * apply B2. lia.
Qed.

Lemma same_elt_diag (i : nat) : (i < List.length a)%nat -> same_elt a a i i = true.
Proof.
  intros H. unfold same_elt. destruct (nth_error a i) eqn:E.
  - apply Ascii.eqb_refl.
  - apply nth_error_None in E. lia.
Qed.

Lemma extend_left_same (ok : ascii -> bool) :
  (forall y, ok y = true) ->
  forall d s, (d + s <= List.length a)%nat ->
    extend_left a a d ok 0 0 (d, d, s) = (0, 0, s + d)%nat.
Proof.
  intros Hok. induction d as [|d IH]; intros s H.
  - simpl. rewrite Nat.add_0_r. reflexivity.
  - simpl extend_left. rewrite Nat.sub_0_r.
    rewrite (same_elt_diag d) by lia.
    destruct (nth_error a d) eqn:E.
    2:{ apply nth_error_None in E. lia. }
    rewrite Hok. simpl. rewrite IH by lia. f_equal. lia.
Qed.

Lemma extend_right_same (ok : ascii -> bool) :
  (forall y, ok y = true) ->
  forall steps m, (m + steps = List.length a)%nat ->
    extend_right a a steps ok (List.length a) (List.length a) (0, 0, m)%nat
    = (0, 0, List.length a)%nat.
Proof.
  intros Hok. induction steps as [|steps IH]; intros m H.
  - simpl. rewrite Nat.add_0_r in H. subst m. reflexivity.
  - simpl extend_right.
    assert ((m <? List.length a)%nat = true) as -> by (apply Nat.ltb_lt; lia).
    rewrite (same_elt_diag m) by lia.
    destruct (nth_error a m) eqn:E.
    2:{ apply nth_error_None in E. lia. }
    rewrite Hok. simpl. apply IH. lia.
Qed.

Lemma find_longest_match_same :
  find_longest_match a a b2j 0 (List.length a) 0 (List.length a)
  = (0, 0, List.length a)%nat.
Proof.
  unfold find_longest_match. rewrite Nat.sub_0_r.
  destruct (scan_rows_same (List.length a) eq_refl (List.length a) 0 [] 0 0)
    as (d & s & -> & Hds).
  - reflexivity.
  - split; [|split]; [intros [|j]; simpl; lia | intros [|j]; simpl; lia | reflexivity].
  - lia.
  - intros i' Hi'. lia.
  - assert (Hok : forall y, negb (isbjunk y) = true) by reflexivity.
    pose proof (extend_left_same (fun y => negb (isbjunk y)) Hok d s) as Hl.
    pose proof (extend_right_same (fun y => negb (isbjunk y)) Hok
                  (List.length a - (s + d)) (s + d)) as Hr.
    unfold extend. cbn [fst snd]. rewrite !Nat.sub_0_r.
    rewrite !Hl by lia. cbn [fst snd Nat.add].
    rewrite !Hr by lia. cbn [fst snd Nat.add].
    rewrite Nat.sub_diag. reflexivity.
Qed.

End SameSequence.

Lemma matching_blocks_same (a : list ascii) :
  get_matching_blocks a a =
  (if (List.length a =? 0)%nat then [] else [(0, 0, List.length a)%nat])
  ++ [(List.length a, List.length a, 0)%nat].
Proof.
  unfold get_matching_blocks.
  replace (2 * List.length a + 2)%nat with (S (2 * List.length a + 1)) by lia.
  simpl blocks_loop.
  rewrite (find_longest_match_same a (chain_b a) (fun c => chain_b_get c a)).
  destruct (List.length a) as [|n] eqn:E.
  - reflexivity.
  - simpl Nat.eqb. cbv iota.
    assert ((S n <? S n)%nat = false) as Hlt by (apply Nat.ltb_irrefl).
    simpl Nat.add. rewrite Hlt. simpl. reflexivity.
Qed.

(** C2, as amended. The similarity of a string with itself is 1. *)
Theorem calculate_similarity_reflexive :
  forall a : string, (calculate_similarity a a == 1)%Q.
Proof.
  intros a. unfold calculate_similarity, ratio.
  rewrite matching_blocks_same.
  set (n := List.length (list_ascii_of_string a)).
  unfold _calculate_ratio. destruct n as [|n]; [reflexivity|].
  simpl fold_right. rewrite Nat.add_0_r.
  replace (S n + S n =? 0)%nat with false by reflexivity.
  rewrite Nat2Z.inj_add, inject_Z_plus.
  assert (Hpos : ~ (inject_Z (Z.of_nat (S n)) == 0)%Q).
  { unfold Qeq. simpl. lia. }
  field. intros H. apply Hpos.
  setoid_replace (inject_Z (Z.of_nat (S n))) with
    ((inject_Z (Z.of_nat (S n)) + inject_Z (Z.of_nat (S n))) / 2)%Q by field.
  rewrite H. reflexivity.
Qed.

(** C2, the claim as stated fails: the similarity is not symmetric. The
    matcher gives 0.25 for ("tide", "diet") and 0.5 for ("diet", "tide"). *)
Lemma calculate_similarity_not_symmetric :
  (calculate_similarity "tide" "diet" == 1 # 4)%Q /\
  (calculate_similarity "diet" "tide" == 1 # 2)%Q /\
  ~ (calculate_similarity "tide" "diet" == calculate_similarity "diet" "tide")%Q.
Proof.
  split; [vm_compute; reflexivity|]. split; [vm_compute; reflexivity|].
  vm_compute. discriminate.
Qed.

(** ** The matcher terminates within its bound *)

Section MatcherBounds.
Variables a b : list ascii.
Variable b2j : list (ascii * list nat).

Lemma scan_row_bounds (i alo ahi blo bhi : nat) (prev : list (nat * nat)) :
  (alo <= i < ahi)%nat ->
  dict_bounded blo (i - alo) prev ->
  forall (js : list nat) (new : list (nat * nat)) (best : Match),
    dict_bounded blo (i + 1 - alo) new ->
    in_bounds alo ahi blo bhi best ->
    dict_bounded blo (i + 1 - alo) (fst (scan_row i blo bhi prev js new best)) /\
    in_bounds alo ahi blo bhi (snd (scan_row i blo bhi prev js new best)).
Proof.
  intros Hi Hprev. induction js as [|j js IH]; intros new best Hnew Hbest.
  - simpl. auto.
  - simpl scan_row. destruct (j <? blo)%nat eqn:E1; [apply IH; assumption|].
    destruct (bhi <=? j)%nat eqn:E2; [simpl; auto|].
    apply Nat.ltb_ge in E1. apply Nat.leb_gt in E2.
    fold (prev_len prev j). set (k := (prev_len prev j + 1)%nat).
    assert (Hk : (k <= j + 1 - blo /\ k <= i + 1 - alo)%nat).
    { subst k. destruct j as [|j']; cbn [prev_len].
      - lia.
      - destruct (Hprev j'). lia. }
    destruct best as [[bi bj] bs]. apply IH.
    + intros j'. rewrite j2len_get_cons.
      destruct (Nat.eqb_spec j j'); [subst; exact Hk | apply Hnew].
    + destruct (bs <? k)%nat; [|exact Hbest]. simpl. lia.
Qed.

Lemma scan_rows_bounds (alo ahi blo bhi : nat) :
  forall (cnt i : nat) (prev : list (nat * nat)) (best : Match),
    (alo <= i)%nat -> (i + cnt <= ahi)%nat ->
    dict_bounded blo (i - alo) prev ->
    in_bounds alo ahi blo bhi best ->
    in_bounds alo ahi blo bhi (scan_rows a b2j cnt i blo bhi prev best).
Proof.
  induction cnt as [|cnt IH]; intros i prev best Hlo Hhi Hprev Hbest.
  - exact Hbest.
  - simpl scan_rows.
    set (js := match nth_error a i with Some elt => b2j_get elt b2j | None => [] end).
    destruct (scan_row_bounds i alo ahi blo bhi prev ltac:(lia) Hprev js [] best)
      as [Hd Hb].
    + intros j. simpl. lia.
    + exact Hbest.
    + destruct (scan_row i blo bhi prev js [] best) as [new best'].
      apply IH; [lia | lia | | exact Hb].
      replace (S i - alo)%nat with (i + 1 - alo)%nat by lia. exact Hd.
Qed.

Lemma extend_left_bounds (ok : ascii -> bool) (alo ahi blo bhi : nat) :
  forall (steps : nat) (best : Match),
    in_bounds alo ahi blo bhi best ->
    in_bounds alo ahi blo bhi (extend_left a b steps ok alo blo best).
Proof.
  induction steps as [|steps IH]; intros [[bi bj] bs] H; [exact H|].
  simpl extend_left.
  destruct (alo <? bi)%nat eqn:E1; [|exact H].
  destruct (blo <? bj)%nat eqn:E2; [|exact H].
  destruct (_ && same_elt a b (bi - 1) (bj - 1)); [|exact H].
  apply Nat.ltb_lt in E1, E2. apply IH. simpl in *. lia.
Qed.

Lemma extend_right_bounds (ok : ascii -> bool) (alo ahi blo bhi : nat) :
  forall (steps : nat) (best : Match),
    in_bounds alo ahi blo bhi best ->
    in_bounds alo ahi blo bhi (extend_right a b steps ok ahi bhi best).
Proof.
  induction steps as [|steps IH]; intros [[bi bj] bs] H; [exact H|].
  simpl extend_right.
  destruct (bi + bs <? ahi)%nat eqn:E1; [|exact H].
  destruct (bj + bs <? bhi)%nat eqn:E2; [|exact H].
  destruct (_ && same_elt a b (bi + bs) (bj + bs)); [|exact H].
  apply Nat.ltb_lt in E1, E2. apply IH. simpl in *. lia.
Qed.

Lemma find_longest_match_bounds (alo ahi blo bhi : nat) :
  (alo <= ahi)%nat -> (blo <= bhi)%nat ->
  in_bounds alo ahi blo bhi (find_longest_match a b b2j alo ahi blo bhi).
Proof.
  intros Ha Hb. unfold find_longest_match, extend.
  repeat first [apply extend_right_bounds | apply extend_left_bounds].
  apply scan_rows_bounds; [lia | lia | |simpl; lia].
  intros j. simpl. lia.
Qed.

Lemma blocks_loop_total :
  forall (fuel : nat) (queue : list (nat * nat * nat * nat)) (found : list Match),
    Forall window_ok queue ->
    (total_weight queue <= fuel)%nat ->
    exists l, blocks_loop a b b2j fuel queue found = Some l.
Proof.
  induction fuel as [|fuel IH]; intros queue found Hq Hw.
  - destruct queue as [|[[[alo ahi] blo] bhi] queue]; simpl; [eauto|].
    simpl in Hw. lia.
  - destruct queue as [|[[[alo ahi] blo] bhi] queue]; simpl; [eauto|].
    inversion Hq as [|q l Hwin Hrest]; subst. simpl in Hwin. destruct Hwin as [Ha Hb].
    pose proof (find_longest_match_bounds alo ahi blo bhi Ha Hb) as Hm.
    destruct (find_longest_match a b b2j alo ahi blo bhi) as [[i j] k].
    simpl in Hm, Hw. destruct (Nat.eqb_spec k 0) as [->|Hk].
    + apply IH; [exact Hrest | lia].
    + apply IH.
      * destruct ((i + k <? ahi)%nat && (j + k <? bhi)%nat);
          destruct ((alo <? i)%nat && (blo <? j)%nat);
          repeat constructor; simpl; try lia; exact Hrest.
      * destruct ((i + k <? ahi)%nat && (j + k <? bhi)%nat);
          destruct ((alo <? i)%nat && (blo <? j)%nat); simpl; lia.
Qed.

End MatcherBounds.

(** the bound on the iterations of [get_matching_blocks] is never
    reached *)
Lemma get_matching_blocks_total (a b : list ascii) :
  exists l,
    blocks_loop a b (chain_b b) (2 * List.length a + 2)
      [(0, List.length a, 0, List.length b)%nat] [] = Some l.
Proof.
  apply blocks_loop_total.
  - repeat constructor; lia.
  - simpl. lia.
Qed.

(** ** The loader sorts when every comparison succeeds *)

Lemma dt_ltb_true_leb (x y : datetime) :
  dt_ltb x y = Ok true -> dt_leb x y = Ok true.
Proof.
  unfold dt_ltb, dt_leb. destruct (dt_cmp_key x y) as [[p q]|]; simpl; [|discriminate].
  intros H. injection H as E. apply Z.ltb_lt in E.
  f_equal. apply Z.leb_le. lia.
Qed.

Lemma dt_ltb_false_leb (x y : datetime) :
  dt_ltb x y = Ok false -> dt_leb y x = Ok true.
Proof.
  unfold dt_ltb, dt_leb, dt_cmp_key.
  destruct (utcoffset x), (utcoffset y); simpl; try discriminate;
    intros H; injection H as E; apply Z.ltb_ge in E;
    f_equal; apply Z.leb_le; lia.
Qed.

Lemma dt_leb_trans (x y z : datetime) :
  dt_leb x y = Ok true -> dt_leb y z = Ok true -> dt_leb x z = Ok true.
Proof.
  unfold dt_leb, dt_cmp_key.
  destruct (utcoffset x), (utcoffset y), (utcoffset z); simpl; try discriminate;
    intros H1 H2; injection H1 as E1; injection H2 as E2;
    apply Z.leb_le in E1, E2; f_equal; apply Z.leb_le; lia.
Qed.

(** When [_load_file_thread] reports success, the records are in
    ascending order of [parsed_timestamp]. *)
Lemma load_sorted_when_loaded {lib : PyLib} (tz : string) (sg sg' : ServerGroup)
    (file : string) (lines : list line) (n : nat) :
  _load_file_thread tz sg file lines = (sg', Loaded n) ->
  StronglySorted
    (fun x y => dt_leb (parsed_timestamp x) (parsed_timestamp y) = Ok true) (logs sg').
Proof.
  unfold _load_file_thread.
  destruct (read_lines tz file (name sg) 1 lines _ 0) as [sg2 [k|e]]; [|discriminate].
  destruct (sort_logs (logs sg2)) as [sorted|e] eqn:Es; [|discriminate].
  intros H. inversion H; subst. simpl.
  unfold sort_logs in Es.
  eapply (sort_by_sorted _ _
            (fun x y => dt_leb (parsed_timestamp x) (parsed_timestamp y) = Ok true));
    [| | |exact Es].
  - intros x y. apply dt_ltb_true_leb.
  - intros x y. apply dt_ltb_false_leb.
  - intros x y z. apply dt_leb_trans.
Qed.

(** * Further properties *)

(** ** Filters *)

Section MoreFilterFacts.
Context {lib : PyLib}.

Lemma cleared_passes (log : LogRecord) : record_passes cleared_filters log = Ok true.
Proof. reflexivity. Qed.

Lemma filter_r_all {A : Type} (p : A -> result bool) (l : list A) :
  (forall x, In x l -> p x = Ok true) -> filter_r p l = Ok l.
Proof.
  induction l as [|x l IH]; intros H; simpl; [reflexivity|].
  rewrite (H x) by (left; reflexivity). simpl.
  rewrite IH by (intros y Hy; apply H; right; exact Hy). reflexivity.
Qed.

Lemma filter_r_filter {A : Type} (p : A -> result bool) (l r : list A) :
  filter_r p l = Ok r ->
  r = filter (fun x => match p x with Ok true => true | _ => false end) l.
Proof.
  revert r; induction l as [|x l IH]; simpl; intros r H.
  - inversion H. reflexivity.
  - bind_inv H. bind_inv H. inversion H; subst; clear H.
    rewrite Hx, <- (IH _ Hx0). destruct x0; reflexivity.
Qed.

End MoreFilterFacts.

(** X1. With the filters cleared, the filter returns every record of the
    collection, in order, whatever the records hold. *)
Theorem clear_filters_returns_all :
  forall (lib : PyLib) (logs : list LogRecord), clear_filters logs = Ok logs.
Proof.
  intros lib logs. unfold clear_filters, apply_filters.
  apply filter_r_all. intros x _. apply cleared_passes.
Qed.

(** X2. When [apply_filters] returns, its result is the list of the
    records that pass, in collection order; it is never longer than the
    collection, and filtering it again with the same settings gives it
    back. *)
Theorem apply_filters_selects :
  forall (lib : PyLib) (f : FilterVars) (logs r : list LogRecord),
    apply_filters f logs = Ok r ->
    r = filter (passes_b f) logs /\
    (List.length r <= List.length logs)%nat /\
    apply_filters f r = Ok r.
Proof.
  intros lib f logs r H.
  pose proof (filter_r_filter _ _ _ H) as Hr. split; [exact Hr|]. split.
  - rewrite Hr. apply filter_length_le.
  - unfold apply_filters. apply filter_r_all. intros x Hx.
    apply (apply_filters_In f logs r H) in Hx. tauto.
Qed.

Lemma apply_filters_selects_witness :
  apply_filters (lib := Reference.lib) MoreSamples.only_filebeat Samples.status_logs
  = Ok Samples.status_logs.
Proof.
  assert (H : apply_filters (lib := Reference.lib) MoreSamples.only_filebeat
                Samples.status_logs = Ok Samples.status_logs)
    by (vm_compute; reflexivity).
  exact (proj2 (proj2 (apply_filters_selects Reference.lib MoreSamples.only_filebeat
                         Samples.status_logs Samples.status_logs H))).
Defined.

Section TwoPasses.
Context {lib : PyLib}.
Variable f : FilterVars.

Lemma attributes_only_passes (x : LogRecord) :
  record_passes (attributes_only f) x = Ok (attributes_match f x).
Proof.
  unfold record_passes, passes_filters, attributes_only, attributes_match. simpl.
  destruct (String.eqb (component_var f) "All"), (is_str (component_var f) (component x)),
    (String.eqb (level_var f) "All"), (is_str (level_var f) (level x)),
    (String.eqb (file_var f) "All"), (String.eqb (file_name x) (file_var f));
    reflexivity.
Qed.

Lemma record_passes_split (x : LogRecord) :
  record_passes f x =
  if attributes_match f x then record_passes (search_and_time_only f) x else Ok false.
Proof.
  unfold record_passes, passes_filters, search_and_time_only, attributes_match. simpl.
  destruct (String.eqb (component_var f) "All"), (is_str (component_var f) (component x)),
    (String.eqb (level_var f) "All"), (is_str (level_var f) (level x)),
    (String.eqb (file_var f) "All"), (String.eqb (file_name x) (file_var f));
    reflexivity.
Qed.

Lemma attributes_only_filter (logs : list LogRecord) :
  apply_filters (attributes_only f) logs = Ok (filter (attributes_match f) logs).
Proof.
  unfold apply_filters. induction logs as [|x logs IH]; simpl; [reflexivity|].
  rewrite attributes_only_passes, IH. simpl. reflexivity.
Qed.

Lemma bind_ret {A : Type} (c : result A) : bind c (fun r => Ok r) = c.
Proof. destruct c; reflexivity. Qed.

End TwoPasses.

(** X3. Filtering by component, level and file and then filtering the
    outcome by search text and time range is the same as one pass with all
    the settings, also in what it raises. *)
Theorem apply_filters_in_two_passes :
  forall (lib : PyLib) (f : FilterVars) (logs : list LogRecord),
    apply_filters f logs =
    bind (apply_filters (attributes_only f) logs)
         (fun kept => apply_filters (search_and_time_only f) kept).
Proof.
  intros lib f logs. rewrite attributes_only_filter. simpl.
  unfold apply_filters. induction logs as [|x logs IH]; simpl; [reflexivity|].
  rewrite record_passes_split. destruct (attributes_match f x); simpl.
  - rewrite IH. reflexivity.
  - rewrite IH. apply bind_ret.
Qed.

(** ** Loader: counts and provenance *)

Section MoreLoaderFacts.
Context {lib : PyLib}.
Variable tz : string.

Lemma process_log_entry_fields (entry : json) (n : nat) (file server : string)
    (r : LogRecord) :
  process_log_entry tz entry n file server = Ok r ->
  raw r = entry /\ line_number r = n /\ file_name r = file /\ server_name r = server.
Proof.
  unfold process_log_entry. intros H.
  repeat (let x := fresh "x" in let Hx := fresh "Hx" in
          apply bind_ok in H; destruct H as (x & Hx & H)).
  inversion H; subst. simpl. auto.
Qed.

Lemma add_log_shape (sg : ServerGroup) (p : LogRecord) :
  logs (fst (add_log sg p)) = logs sg ++ [p] /\
  (forall c, In c (components (fst (add_log sg p))) ->
             In c (components sg) \/ c = component p) /\
  (forall l, In l (log_levels (fst (add_log sg p))) ->
             In l (log_levels sg) \/ l = level p).
Proof.
  unfold add_log, set_add. simpl.
  destruct (hashable (component p)); simpl; [|auto].
  destruct (hashable (level p)); simpl.
  - split; [reflexivity|]. split.
    + intros c Hc. destruct (existsb _ (components sg)); [auto|].
      apply in_app_or in Hc. destruct Hc as [Hc|[Hc|[]]]; auto.
    + intros l Hl. destruct (existsb _ (log_levels sg)); [auto|].
      apply in_app_or in Hl. destruct Hl as [Hl|[Hl|[]]]; auto.
  - split; [reflexivity|]. split; [|auto].
    intros c Hc. destruct (existsb _ (components sg)); [auto|].
    apply in_app_or in Hc. destruct Hc as [Hc|[Hc|[]]]; auto.
Qed.

Lemma read_lines_new (file server : string) (lines : list line) :
  forall (n : nat) (sg : ServerGroup) (k : nat),
    exists new : list LogRecord,
      logs (fst (read_lines tz file server n lines sg k)) = logs sg ++ new /\
      new_records_ok file server n lines new /\
      Forall (fun r => (n <= line_number r)%nat) new /\
      (List.length new <= List.length (filter is_document lines))%nat /\
      (forall k', snd (read_lines tz file server n lines sg k) = Ok k' ->
                  k' = (k + List.length (filter is_document lines))%nat /\
                  List.length new = List.length (filter is_document lines)) /\
      (forall c, In c (components (fst (read_lines tz file server n lines sg k))) ->
                 In c (components sg) \/ exists r, In r new /\ component r = c) /\
      (forall l, In l (log_levels (fst (read_lines tz file server n lines sg k))) ->
                 In l (log_levels sg) \/ exists r, In r new /\ level r = l).
Proof.
  induction lines as [|l lines IH]; intros n sg k.
  - exists []. simpl. rewrite app_nil_r.
    split; [reflexivity|]. split; [split; constructor|].
    split; [constructor|]. split; [lia|].
    split; [intros k' H; inversion H; lia|]. split; auto.
  - assert (Hskip : forall new,
              new_records_ok file server (S n) lines new ->
              Forall (fun r => (S n <= line_number r)%nat) new ->
              new_records_ok file server n (l :: lines) new /\
              Forall (fun r => (n <= line_number r)%nat) new).
    { intros new [Hf Hs] Hge. split; [split; [|exact Hs]|].
      - eapply Forall_impl; [|exact Hf].
        intros r (H1 & H2 & i & Hi & Hn). split; [exact H1|]. split; [exact H2|].
        exists (S i). split; [exact Hi | lia].
      - eapply Forall_impl; [|exact Hge]. intros r Hr. simpl in Hr. lia. }
    destruct l as [| |entry].
    + destruct (IH (S n) sg k) as (new & Hl & Hok & Hge & Hlen & Hk & Hc & Hv).
      exists new. simpl. destruct (Hskip new Hok Hge) as [Hs1 Hs2].
      split; [exact Hl|]. split; [exact Hs1|]. split; [exact Hs2|].
      split; [exact Hlen|]. split; [exact Hk|]. split; [exact Hc | exact Hv].
    + destruct (IH (S n) sg k) as (new & Hl & Hok & Hge & Hlen & Hk & Hc & Hv).
      exists new. simpl. destruct (Hskip new Hok Hge) as [Hs1 Hs2].
      split; [exact Hl|]. split; [exact Hs1|]. split; [exact Hs2|].
      split; [exact Hlen|]. split; [exact Hk|]. split; [exact Hc | exact Hv].
    + simpl read_lines. simpl filter. simpl List.length.
      destruct (process_log_entry tz entry n file server) as [p|e] eqn:Hp.
      2:{ exists []. simpl. rewrite app_nil_r.
          split; [reflexivity|]. split; [split; constructor|].
          split; [constructor|]. split; [lia|].
          split; [intros k' H; discriminate|]. split; auto. }
      apply process_log_entry_fields in Hp. destruct Hp as (P1 & P2 & P3 & P4).
      destruct (add_log_shape sg p) as (A1 & A2 & A3).
      assert (Hhead : new_records_ok file server n (Document entry :: lines) [p] /\
                      (n <= line_number p)%nat).
      { split; [split|lia].
        - constructor; [|constructor]. split; [exact P3|]. split; [exact P4|].
          exists 0%nat. simpl. rewrite P1. split; [reflexivity|lia].
        - constructor; constructor. }
      destruct (add_log sg p) as [sg1 [u|e]] eqn:Ea; simpl in A1, A2, A3.
      2:{ exists [p]. simpl. destruct Hhead as [Hh1 Hh2].
          split; [exact A1|]. split; [exact Hh1|].
          split; [constructor; [exact Hh2|constructor]|].
          split; [lia|]. split; [intros k' H; discriminate|].
          split.
          - intros c Hc. destruct (A2 c Hc) as [H| ->]; [auto|].
            right. exists p. split; [left|]; reflexivity.
          - intros l Hl. destruct (A3 l Hl) as [H| ->]; [auto|].
            right. exists p. split; [left|]; reflexivity. }
      destruct (IH (S n) sg1 (S k)) as (new & Hl & Hok & Hge & Hlen & Hk & Hc & Hv).
      destruct (Hskip new Hok Hge) as [[Hf Hs] Hge'].
      exists (p :: new). split; [rewrite Hl, A1, <- app_assoc; reflexivity|].
      destruct Hhead as [[Hpf _] Hpn]. split; [split|].
      * constructor; [inversion Hpf; assumption | exact Hf].
      * constructor; [exact Hs|]. eapply Forall_impl; [|exact Hge].
        intros r Hr. simpl in Hr. lia.
      * split; [constructor; assumption|]. split; [simpl; lia|].
        split; [intros k' H; destruct (Hk k' H); simpl; lia|]. split.
        -- intros c Hcin. destruct (Hc c Hcin) as [H|(r & Hr & Hrc)].
           ++ destruct (A2 c H) as [H'| ->]; [auto|].
              right. exists p. split; [left|]; reflexivity.
           ++ right. exists r. split; [right; exact Hr | exact Hrc].
        -- intros l Hlin. destruct (Hv l Hlin) as [H|(r & Hr & Hrl)].
           ++ destruct (A3 l H) as [H'| ->]; [auto|].
              right. exists p. split; [left|]; reflexivity.
           ++ right. exists r. split; [right; exact Hr | exact Hrl].
Qed.

(** what [_load_file_thread] does to a collection *)
Lemma load_shape (sg : ServerGroup) (file : string) (lines : list line) :
  exists new : list LogRecord,
    Permutation (logs sg ++ new) (logs (fst (_load_file_thread tz sg file lines))) /\
    new_records_ok file (name sg) 1 lines new /\
    Forall (fun r => (1 <= line_number r)%nat) new /\
    (List.length new <= List.length (filter is_document lines))%nat /\
    (forall n, snd (_load_file_thread tz sg file lines) = Loaded n ->
               n = List.length (filter is_document lines) /\ List.length new = n) /\
    loaded_files (fst (_load_file_thread tz sg file lines))
    = str_set_add file (loaded_files sg) /\
    (forall c, In c (components (fst (_load_file_thread tz sg file lines))) ->
               In c (components sg) \/ exists r, In r new /\ component r = c) /\
    (forall l, In l (log_levels (fst (_load_file_thread tz sg file lines))) ->
               In l (log_levels sg) \/ exists r, In r new /\ level r = l).
Proof.
  unfold _load_file_thread.
  set (sg1 := set_loaded_files sg (str_set_add file (loaded_files sg))).
  destruct (read_lines_new file (name sg) lines 1 sg1 0)
    as (new & Hl & Hok & Hge & Hlen & Hk & Hc & Hv).
  pose proof (read_lines_keeps_files tz file (name sg) lines 1 sg1 0) as Hfiles.
  exists new.
  destruct (read_lines tz file (name sg) 1 lines sg1 0) as [sg2 [k|e]];
    simpl in Hl, Hk, Hc, Hv, Hfiles.
  - assert (Hn : forall n, Loaded k = Loaded n ->
                 n = List.length (filter is_document lines) /\ List.length new = n).
    { intros n H. injection H as <-. destruct (Hk k eq_refl). lia. }
    destruct (sort_logs (logs sg2)) as [sorted|e] eqn:Es; simpl.
    + apply sort_by_perm in Es. rewrite Hl in Es.
      split; [exact Es|]. split; [exact Hok|]. split; [exact Hge|].
      split; [exact Hlen|]. split; [exact Hn|].
      split; [exact Hfiles|]. split; [exact Hc | exact Hv].
    + rewrite Hl.
      split; [apply Permutation_refl|]. split; [exact Hok|]. split; [exact Hge|].
      split; [exact Hlen|]. split; [intros n H; discriminate|].
      split; [exact Hfiles|]. split; [exact Hc | exact Hv].
  - simpl. rewrite Hl.
    split; [apply Permutation_refl|]. split; [exact Hok|]. split; [exact Hge|].
    split; [exact Hlen|]. split; [intros n H; discriminate|].
    split; [exact Hfiles|]. split; [exact Hc | exact Hv].
Qed.

End MoreLoaderFacts.

(** X4. A load never adds more records than the file has decodable
    lines; when it reports success, the count it reports is the number of
    decodable lines, and the collection has grown by exactly that many
    records. *)
Theorem load_counts :
  forall (lib : PyLib) (tz : string) (sg : ServerGroup) (file : string)
         (lines : list line),
    (List.length (logs (fst (_load_file_thread tz sg file lines)))
     <= List.length (logs sg) + List.length (filter is_document lines))%nat /\
    (forall n, snd (_load_file_thread tz sg file lines) = Loaded n ->
               n = List.length (filter is_document lines) /\
               List.length (logs (fst (_load_file_thread tz sg file lines)))
               = (List.length (logs sg) + n)%nat).
Proof.
  intros lib tz sg file lines.
  destruct (load_shape tz sg file lines) as (new & Hp & _ & _ & Hlen & Hn & _).
  apply Permutation_length in Hp. rewrite length_app in Hp. split; [lia|].
  intros n H. destruct (Hn n H). lia.
Qed.

Lemma load_counts_witness :
  List.length (logs (fst (_load_file_thread (lib := Reference.lib) "UTC"
                            (new_group "A") "filebeat.ndjson" Samples.status_file)))
  = 6%nat.
Proof.
  apply (proj2 (load_counts Reference.lib "UTC" (new_group "A") "filebeat.ndjson"
                  Samples.status_file) 6%nat).
  vm_compute. reflexivity.
Defined.

(** X5. After [load_file], also when the load failed part-way, every
    record of the collection comes from the file just read: it carries the
    file name and the server name, and its raw document is the document on
    the line its line number gives, lines counted from 1 with blank and
    malformed lines included. *)
Theorem load_file_provenance :
  forall (lib : PyLib) (tz : string) (sg : ServerGroup) (file : string)
         (lines : list line) (r : LogRecord),
    In r (logs (fst (load_file tz sg file lines))) ->
    from_file file (name sg) lines r.
Proof.
  intros lib tz sg file lines r Hin. unfold load_file in Hin.
  destruct (load_shape tz (clear sg) file lines) as (new & Hp & [Hf _] & Hge & _).
  simpl in Hp. apply Permutation_sym in Hp.
  apply (Permutation_in _ Hp) in Hin.
  rewrite Forall_forall in Hf, Hge.
  destruct (Hf r Hin) as (H1 & H2 & i & Hi & Hn). specialize (Hge r Hin).
  unfold from_file. simpl in H2. repeat split; auto.
  replace (line_number r - 1)%nat with i by lia. exact Hi.
Qed.

Lemma load_file_provenance_witness :
  exists r : LogRecord,
    In r Samples.untimed_logs /\
    from_file "agent.ndjson" "A" Samples.untimed_file r.
Proof.
  assert (H : exists r, In r Samples.untimed_logs)
    by (vm_compute; eexists; left; reflexivity).
  destruct H as [r Hr]. exists r. split; [exact Hr|].
  apply (load_file_provenance Reference.lib "UTC" (new_group "A") "agent.ndjson"
           Samples.untimed_file r Hr).
Defined.

(** ** What every reachable collection satisfies *)

Lemma sorted_lines_NoDup (file : string) (new : list LogRecord) :
  StronglySorted (fun x y => (line_number x < line_number y)%nat) new ->
  NoDup (map row_key new).
Proof.
  induction 1 as [|x l Hs IH Hx]; simpl; constructor; [|exact IH].
  intros Hin. apply in_map_iff in Hin. destruct Hin as (y & Hy & Hin).
  rewrite Forall_forall in Hx. specialize (Hx y Hin).
  unfold row_key in Hy. injection Hy as Hn _. lia.
Qed.

Lemma retime_attrs (tz : string) (r r' : LogRecord) :
  retime tz r = Ok r' ->
  row_key r' = row_key r /\ component r' = component r /\ level r' = level r /\
  parsed_timestamp r' = parsed_timestamp r /\ raw r' = raw r /\
  server_name r' = server_name r /\ message r' = message r /\
  full_message r' = full_message r.
Proof.
  unfold retime. destruct (negb _).
  - intros H. apply bind_ok in H. destruct H as (l & _ & H).
    injection H as <-. repeat split.
  - intros H. injection H as <-. repeat split.
Qed.

Lemma retime_logs_attrs (tz : string) (l : list LogRecord) :
  map row_key (fst (retime_logs tz l)) = map row_key l /\
  map component (fst (retime_logs tz l)) = map component l /\
  map level (fst (retime_logs tz l)) = map level l /\
  map parsed_timestamp (fst (retime_logs tz l)) = map parsed_timestamp l.
Proof.
  induction l as [|r l IH]; simpl; [auto|].
  destruct (retime tz r) as [r'|e] eqn:E; [|auto].
  apply retime_attrs in E. destruct E as (E1 & E2 & E3 & E4 & _).
  destruct (retime_logs tz l) as [l' res]. simpl in *.
  destruct IH as (I1 & I2 & I3 & I4).
  rewrite E1, E2, E3, E4, I1, I2, I3, I4. auto.
Qed.

Section ReachableFacts.
Context {lib : PyLib}.

Lemma group_ok_new (n : string) : group_ok (new_group n).
Proof.
  unfold group_ok. simpl. split; [intros r []|]. split; [constructor|].
  split; intros x [].
Qed.

Lemma load_keeps_ok (tz : string) (sg : ServerGroup) (file : string)
    (lines : list line) :
  group_ok sg -> ~ In file (loaded_files sg) ->
  group_ok (fst (_load_file_thread tz sg file lines)).
Proof.
  intros (G1 & G2 & G3 & G4) Hfresh.
  destruct (load_shape tz sg file lines)
    as (new & Hp & [Hf Hs] & _ & _ & _ & Hfiles & Hc & Hv).
  rewrite Forall_forall in Hf.
  assert (Hin : forall r, In r (logs (fst (_load_file_thread tz sg file lines))) <->
                          In r (logs sg) \/ In r new).
  { intros r. rewrite <- in_app_iff. split; apply Permutation_in;
      [apply Permutation_sym|]; exact Hp. }
  split; [|split; [|split]].
  - intros r Hr. rewrite Hfiles. apply Hin in Hr. destruct Hr as [Hr|Hr].
    + specialize (G1 r Hr). unfold str_set_add.
      destruct (existsb _ _); [exact G1 | apply in_or_app; left; exact G1].
    + destruct (Hf r Hr) as (-> & _). apply str_set_add_In.
  - eapply Permutation_NoDup; [apply Permutation_map; exact Hp|].
    rewrite map_app. apply NoDup_app; [exact G2 | eapply sorted_lines_NoDup; eauto |].
    intros k Hk Hk'. apply in_map_iff in Hk. destruct Hk as (r & <- & Hr).
    apply in_map_iff in Hk'. destruct Hk' as (r' & Heq & Hr').
    destruct (Hf r' Hr') as (Hfile & _). unfold row_key in Heq.
    injection Heq as _ Hname. apply Hfresh. rewrite <- Hfile, Hname. apply G1, Hr.
  - intros c Hcin. destruct (Hc c Hcin) as [H|(r & Hr & Hrc)].
    + destruct (G3 c H) as (r & Hr & Hrc). exists r. split; [apply Hin; auto | exact Hrc].
    + exists r. split; [apply Hin; auto | exact Hrc].
  - intros l Hlin. destruct (Hv l Hlin) as [H|(r & Hr & Hrl)].
    + destruct (G4 l H) as (r & Hr & Hrl). exists r. split; [apply Hin; auto | exact Hrl].
    + exists r. split; [apply Hin; auto | exact Hrl].
Qed.

Lemma timezone_keeps_ok (tz : string) (sg : ServerGroup) :
  group_ok sg -> group_ok (fst (on_timezone_change tz sg)).
Proof.
  intros (G1 & G2 & G3 & G4). unfold on_timezone_change.
  destruct (retime_logs_attrs tz (logs sg)) as (A1 & A2 & A3 & _).
  destruct (retime_logs tz (logs sg)) as [l res]. simpl in *.
  unfold group_ok. simpl. split; [|split; [|split]].
  - intros r Hr.
    assert (Hk : In (row_key r) (map row_key (logs sg)))
      by (rewrite <- A1; apply in_map; exact Hr).
    apply in_map_iff in Hk. destruct Hk as (r0 & Hk & Hr0).
    unfold row_key in Hk. injection Hk as _ Hname. rewrite <- Hname. apply G1, Hr0.
  - rewrite A1. exact G2.
  - intros c Hc. destruct (G3 c Hc) as (r & Hr & Hrc).
    assert (Hk : In c (map component l))
      by (rewrite A2, <- Hrc; apply in_map; exact Hr).
    apply in_map_iff in Hk. destruct Hk as (r' & Hk & Hr'). exists r'. auto.
  - intros v Hv. destruct (G4 v Hv) as (r & Hr & Hrl).
    assert (Hk : In v (map level l))
      by (rewrite A3, <- Hrl; apply in_map; exact Hr).
    apply in_map_iff in Hk. destruct Hk as (r' & Hk & Hr'). exists r'. auto.
Qed.

Lemma reachable_ok (sg : ServerGroup) : reachable sg -> group_ok sg.
Proof.
  induction 1 as [n|sg _ _|tz sg file lines _ IH|tz sg file lines _ IH|tz sg _ IH].
  - apply group_ok_new.
  - apply group_ok_new.
  - unfold load_file. apply load_keeps_ok; [apply group_ok_new | intros []].
  - unfold add_file. destruct (str_set_mem file (loaded_files sg)) eqn:E; [exact IH|].
    pose proof (load_keeps_ok tz sg file lines IH) as Hk.
    destruct (_load_file_thread tz sg file lines) as [sg' o]. simpl in *.
    apply Hk. intros Hin. apply str_set_mem_In in Hin. congruence.
  - apply timezone_keeps_ok, IH.
Qed.

Lemma find_log_unique (l : list LogRecord) (r : LogRecord) :
  NoDup (map row_key l) -> In r l ->
  find_log l (line_number r) (file_name r) = Some r.
Proof.
  induction l as [|x l IH]; intros Hnd Hin; [destruct Hin|].
  simpl in Hnd. inversion Hnd as [|k ks Hnot Hnd']; subst. simpl.
  destruct Hin as [->|Hin].
  - rewrite Nat.eqb_refl, String.eqb_refl. reflexivity.
  - destruct ((line_number x =? line_number r)%nat && String.eqb (file_name x) (file_name r))
      eqn:E; [|apply IH; assumption].
    apply andb_true_iff in E. destruct E as [E1 E2].
    apply Nat.eqb_eq in E1. apply String.eqb_eq in E2.
    exfalso. apply Hnot. apply in_map_iff. exists r. split; [|exact Hin].
    unfold row_key. rewrite E1, E2. reflexivity.
Qed.

End ReachableFacts.

(** X6. In a collection built by loading, adding, clearing and changing
    the time zone, no two records share line number and file name, so the
    look-up of [on_log_select] by the line number and file name of a
    record finds that very record. *)
Theorem on_log_select_finds_record :
  forall (lib : PyLib) (sg : ServerGroup) (r : LogRecord),
    reachable sg -> In r (logs sg) ->
    find_log (logs sg) (line_number r) (file_name r) = Some r.
Proof.
  intros lib sg r Hreach Hin.
  destruct (reachable_ok sg Hreach) as (_ & Hnd & _).
  apply find_log_unique; assumption.
Qed.

Lemma on_log_select_finds_record_witness :
  exists r : LogRecord,
    In r Samples.status_logs /\
    find_log Samples.status_logs (line_number r) (file_name r) = Some r.
Proof.
  assert (H : exists r, In r Samples.status_logs)
    by (vm_compute; eexists; right; left; reflexivity).
  destruct H as [r Hr]. exists r. split; [exact Hr|].
  apply (on_log_select_finds_record Reference.lib
           (fst (load_file "UTC" (new_group "A") "filebeat.ndjson" Samples.status_file)) r).
  - apply reach_load, reach_new.
  - exact Hr.
Defined.

(** X7. In such a collection the file of every record is among the
    loaded files, and every component and every level offered by the
    filter panel is the component, or the level, of some record. *)
Theorem reachable_sets_cover_records :
  forall (lib : PyLib) (sg : ServerGroup),
    reachable sg ->
    (forall r, In r (logs sg) -> In (file_name r) (loaded_files sg)) /\
    (forall c, In c (components sg) -> exists r, In r (logs sg) /\ component r = c) /\
    (forall l, In l (log_levels sg) -> exists r, In r (logs sg) /\ level r = l).
Proof.
  intros lib sg Hreach.
  destruct (reachable_ok sg Hreach) as (G1 & _ & G3 & G4). auto.
Qed.

Lemma reachable_sets_cover_records_witness :
  (forall r, In r (logs MoreSamples.status_group) ->
             In (file_name r) (loaded_files MoreSamples.status_group)) /\
  (forall c, In c (components MoreSamples.status_group) ->
             exists r, In r (logs MoreSamples.status_group) /\ component r = c) /\
  (forall l, In l (log_levels MoreSamples.status_group) ->
             exists r, In r (logs MoreSamples.status_group) /\ level r = l).
Proof.
  apply (reachable_sets_cover_records Reference.lib MoreSamples.status_group).
  unfold MoreSamples.status_group. apply reach_load, reach_new.
Defined.

(** ** The similarity is a ratio between 0 and 1 *)

Lemma matched_cons (x : Match) (l : list Match) :
  matched (x :: l) = (snd x + matched l)%nat.
Proof. reflexivity. Qed.

Lemma matched_app (l1 l2 : list Match) :
  matched (l1 ++ l2) = (matched l1 + matched l2)%nat.
Proof.
  induction l1 as [|x l1 IH]; [reflexivity|].
  rewrite <- app_comm_cons, !matched_cons, IH. lia.
Qed.

Lemma matched_insert (x : Match) (l : list Match) :
  matched (insert_match x l) = (snd x + matched l)%nat.
Proof.
  induction l as [|y l IH]; [reflexivity|]. cbn [insert_match].
  destruct (match_ltb x y); [reflexivity|].
  rewrite !matched_cons, IH. lia.
Qed.

Lemma matched_sort (l : list Match) : matched (sort_matches l) = matched l.
Proof.
  unfold sort_matches.
  assert (H : forall acc, matched (fold_left (fun acc x => insert_match x acc) l acc)
                          = (matched acc + matched l)%nat).
  { induction l as [|x l IH]; intros acc; cbn [fold_left].
    - change (matched []) with 0%nat. lia.
    - rewrite IH, matched_insert, matched_cons. lia. }
  rewrite H. reflexivity.
Qed.

Lemma matched_collapse (l : list Match) :
  forall (cur : Match) (non_adjacent : list Match),
    matched (collapse cur l non_adjacent)
    = (matched non_adjacent + snd cur + matched l)%nat.
Proof.
  induction l as [|[[i2 j2] k2] l IH]; intros [[i1 j1] k1] na; cbn [collapse snd].
  - change (matched []) with 0%nat.
    destruct (Nat.eqb_spec k1 0) as [->|Hk]; [lia|].
    rewrite matched_app, matched_cons. cbn [snd]. change (matched []) with 0%nat. lia.
  - rewrite matched_cons. cbn [snd].
    destruct ((i1 + k1 =? i2) && (j1 + k1 =? j2))%nat.
    + rewrite IH. cbn [snd]. lia.
    + rewrite IH. cbn [snd].
      destruct (Nat.eqb_spec k1 0) as [->|Hk]; [lia|].
      rewrite matched_app, matched_cons. cbn [snd]. change (matched []) with 0%nat. lia.
Qed.

Section MatchedBound.
Variables a b : list ascii.
Variable b2j : list (ascii * list nat).

Lemma blocks_loop_matched :
  forall (fuel : nat) (queue : list (nat * nat * nat * nat)) (found l : list Match),
    Forall window_ok queue ->
    blocks_loop a b b2j fuel queue found = Some l ->
    (matched l <= matched found + width_a queue)%nat /\
    (matched l <= matched found + width_b queue)%nat.
Proof.
  induction fuel as [|fuel IH]; intros queue found l Hq Hl.
  - destruct queue as [|[[[alo ahi] blo] bhi] queue]; simpl in Hl; [|discriminate].
    injection Hl as <-. simpl. lia.
  - destruct queue as [|[[[alo ahi] blo] bhi] queue]; simpl in Hl.
    { injection Hl as <-. simpl. lia. }
    inversion Hq as [|q q' Hwin Hrest]; subst. simpl in Hwin. destruct Hwin as [Ha Hb].
    pose proof (find_longest_match_bounds a b b2j alo ahi blo bhi Ha Hb) as Hm.
    destruct (find_longest_match a b b2j alo ahi blo bhi) as [[i j] k].
    simpl in Hm. destruct Hm as (M1 & M2 & M3 & M4).
    cbn [width_a width_b fold_right].
    destruct (k =? 0)%nat eqn:Hk.
    + apply IH in Hl; [|exact Hrest]. fold (width_a queue) (width_b queue). lia.
    + apply Nat.eqb_neq in Hk. apply IH in Hl.
      * rewrite matched_app, matched_cons in Hl. cbn [snd] in Hl.
        change (matched []) with 0%nat in Hl.
        fold (width_a queue) (width_b queue).
        destruct ((i + k <? ahi)%nat && (j + k <? bhi)%nat);
          destruct ((alo <? i)%nat && (blo <? j)%nat);
          cbn [width_a width_b fold_right] in Hl;
          fold (width_a queue) (width_b queue) in Hl; lia.
      * destruct ((i + k <? ahi)%nat && (j + k <? bhi)%nat);
          destruct ((alo <? i)%nat && (blo <? j)%nat);
          repeat constructor; simpl; try lia; exact Hrest.
Qed.

End MatchedBound.

Lemma get_matching_blocks_matched (a b : list ascii) :
  (matched (get_matching_blocks a b) <= List.length a)%nat /\
  (matched (get_matching_blocks a b) <= List.length b)%nat.
Proof.
  unfold get_matching_blocks.
  rewrite matched_app, matched_collapse, matched_sort, matched_cons.
  cbn [snd]. change (matched []) with 0%nat.
  destruct (blocks_loop a b (chain_b b) (2 * List.length a + 2)
              [(0, List.length a, 0, List.length b)%nat] []) as [l|] eqn:E.
  - apply blocks_loop_matched in E; [|repeat constructor; lia].
    cbn [width_a width_b fold_right] in E. change (matched []) with 0%nat in E. lia.
  - change (matched []) with 0%nat. lia.
Qed.

Lemma ratio_range (a b : list ascii) : (0 <= ratio a b)%Q /\ (ratio a b <= 1)%Q.
Proof.
  unfold ratio.
  destruct (get_matching_blocks_matched a b) as [Ha Hb].
  fold (matched (get_matching_blocks a b)).
  set (m := matched (get_matching_blocks a b)) in *.
  unfold _calculate_ratio.
  destruct (Nat.eqb_spec (List.length a + List.length b) 0) as [E|E].
  - split; discriminate.
  - clearbody m.
    assert (Hn : (0 < inject_Z (Z.of_nat (List.length a + List.length b)))%Q).
    { unfold Qlt, inject_Z. cbn [Qnum Qden]. lia. }
    split.
    + apply Qle_shift_div_l; [exact Hn|]. rewrite Qmult_0_l.
      unfold Qle, Qmult, inject_Z. cbn [Qnum Qden]. lia.
    + apply Qle_shift_div_r; [exact Hn|]. rewrite Qmult_1_l.
      unfold Qle, Qmult, inject_Z. cbn [Qnum Qden]. lia.
Qed.

(** X8. The similarity of any two strings lies between 0 and 1: the
    matching blocks never cover more characters than either string has. *)
Theorem calculate_similarity_range :
  forall s1 s2 : string,
    (0 <= calculate_similarity s1 s2)%Q /\ (calculate_similarity s1 s2 <= 1)%Q.
Proof. intros s1 s2. apply ratio_range. Qed.

(** ** find_similar_messages: nothing that qualifies is left out *)

Section SimilarComplete.
Variables thr win : Q.

Lemma compare_pair_complete (x y : LogRecord) (d : Q) (m1 m2 : string) :
  dt_eqb (parsed_timestamp y) datetime_min = false ->
  minutes_between (parsed_timestamp x) (parsed_timestamp y) = Ok d ->
  (d <= win)%Q ->
  full_message x = JStr m1 -> full_message y = JStr m2 ->
  (thr <= calculate_similarity (lower m1) (lower m2))%Q ->
  compare_pair thr win x y
  = Ok (Some (mkSimilar x y (calculate_similarity (lower m1) (lower m2)) d)).
Proof.
  intros Hy Hd Hw M1 M2 Hs. unfold compare_pair. rewrite Hy, Hd. simpl.
  apply Qle_bool_iff in Hw. unfold Qltb. rewrite Hw. simpl.
  rewrite M1, M2. simpl. apply Qle_bool_iff in Hs. rewrite Hs. reflexivity.
Qed.

Lemma inner_loop_mono (l1 : LogRecord) (rest : list LogRecord) :
  forall (acc cs : list SimilarityCorrelation),
    inner_loop thr win l1 rest acc = Ok cs -> forall c, In c acc -> In c cs.
Proof.
  induction rest as [|l2 rest IH]; simpl; intros acc cs H c Hc.
  - injection H as <-. exact Hc.
  - bind_inv H. eapply IH; [exact H|].
    destruct x; [apply in_or_app; left|]; exact Hc.
Qed.

Lemma outer_loop_mono (i2 rest : list LogRecord) :
  forall (acc cs : list SimilarityCorrelation),
    outer_loop thr win rest i2 acc = Ok cs -> forall c, In c acc -> In c cs.
Proof.
  induction rest as [|l1 rest IH]; simpl; intros acc cs H c Hc.
  - injection H as <-. exact Hc.
  - destruct (dt_eqb (parsed_timestamp l1) datetime_min).
    + eapply IH; eassumption.
    + bind_inv H. eapply IH; [exact H|]. eapply inner_loop_mono; eassumption.
Qed.

Lemma inner_loop_complete (x y : LogRecord) (c : SimilarityCorrelation)
    (rest : list LogRecord) :
  compare_pair thr win x y = Ok (Some c) ->
  In y rest ->
  forall (acc cs : list SimilarityCorrelation),
    inner_loop thr win x rest acc = Ok cs -> In c cs.
Proof.
  intros Hc. induction rest as [|l2 rest IH]; simpl; intros Hin acc cs H; [destruct Hin|].
  bind_inv H. destruct Hin as [->|Hin].
  - rewrite Hc in Hx. injection Hx as <-.
    eapply inner_loop_mono; [exact H|]. apply in_or_app. right. left. reflexivity.
  - eapply IH; eassumption.
Qed.

Lemma outer_loop_complete (x y : LogRecord) (c : SimilarityCorrelation)
    (i2 rest : list LogRecord) :
  compare_pair thr win x y = Ok (Some c) ->
  dt_eqb (parsed_timestamp x) datetime_min = false ->
  In y i2 -> In x rest ->
  forall (acc cs : list SimilarityCorrelation),
    outer_loop thr win rest i2 acc = Ok cs -> In c cs.
Proof.
  intros Hc Hx Hy. induction rest as [|l1 rest IH]; simpl; intros Hin acc cs H;
    [destruct Hin|].
  destruct Hin as [->|Hin].
  - rewrite Hx in H. bind_inv H. eapply outer_loop_mono; [exact H|].
    eapply inner_loop_complete; eassumption.
  - destruct (dt_eqb (parsed_timestamp l1) datetime_min).
    + eapply IH; eassumption.
    + bind_inv H. eapply IH; eassumption.
Qed.

End SimilarComplete.

(** X9. [find_similar_messages] leaves out no pair that qualifies: when
    it returns, every pair of a record of the first input and a record of
    the second, both of an important level, both with a real timestamp, at
    most the window apart and with messages at least as similar as the
    threshold, is in the result with its similarity and time difference. *)
Theorem find_similar_messages_complete :
  forall (logs1 logs2 : list LogRecord) (thr win : Q)
         (cs : list SimilarityCorrelation) (x y : LogRecord) (d : Q) (m1 m2 : string),
    find_similar_messages logs1 logs2 thr win = Ok cs ->
    In x logs1 -> In y logs2 ->
    level_in important_levels x = Ok true ->
    level_in important_levels y = Ok true ->
    dt_eqb (parsed_timestamp x) datetime_min = false ->
    dt_eqb (parsed_timestamp y) datetime_min = false ->
    minutes_between (parsed_timestamp x) (parsed_timestamp y) = Ok d ->
    (d <= win)%Q ->
    full_message x = JStr m1 -> full_message y = JStr m2 ->
    (thr <= calculate_similarity (lower m1) (lower m2))%Q ->
    In (mkSimilar x y (calculate_similarity (lower m1) (lower m2)) d) cs.
Proof.
  intros logs1 logs2 thr win cs x y d m1 m2 H Hx Hy Lx Ly Tx Ty Hd Hw M1 M2 Hs.
  unfold find_similar_messages in H. bind_inv H. bind_inv H. bind_inv H.
  rename x0 into i1, x1 into i2, x2 into found.
  apply (Permutation_in _ (sort_by_perm _ _ _ _ H)).
  eapply (outer_loop_complete thr win x y); [| | | |exact Hx2].
  - apply compare_pair_complete; assumption.
  - exact Tx.
  - apply (proj2 (filter_r_ok _ _ _ Hx1)). auto.
  - apply (proj2 (filter_r_ok _ _ _ Hx0)). auto.
Qed.

Lemma find_similar_messages_complete_witness :
  exists cs : list SimilarityCorrelation,
    find_similar_messages Samples.refused_a Samples.refused_b (9 # 10) 5 = Ok cs /\
    In (mkSimilar MoreSamples.refused_x MoreSamples.refused_y
          (calculate_similarity (lower "connection refused") (lower "Connection refused"))
          MoreSamples.refused_gap) cs.
Proof.
  destruct (find_similar_messages Samples.refused_a Samples.refused_b (9 # 10) 5)
    as [cs|e] eqn:E; [|vm_compute in E; discriminate].
  exists cs. split; [reflexivity|].
  apply (find_similar_messages_complete Samples.refused_a Samples.refused_b (9 # 10) 5 cs
           MoreSamples.refused_x MoreSamples.refused_y MoreSamples.refused_gap
           "connection refused" "Connection refused" E).
  - vm_compute. left. reflexivity.
  - vm_compute. left. reflexivity.
  - vm_compute. reflexivity.
  - vm_compute. reflexivity.
  - vm_compute. reflexivity.
  - vm_compute. reflexivity.
  - vm_compute. reflexivity.
  - vm_compute. discriminate.
  - vm_compute. reflexivity.
  - vm_compute. reflexivity.
  - vm_compute. discriminate.
Defined.

(** ** find_similar_messages: parameters that admit nothing *)

Lemma minutes_between_nonneg (t1 t2 : datetime) (d : Q) :
  minutes_between t1 t2 = Ok d -> (0 <= d)%Q.
Proof.
  unfold minutes_between. intros H. bind_inv H. injection H as <-.
  apply Qle_shift_div_l; [reflexivity|]. rewrite Qmult_0_l.
  unfold Qle. cbn [Qnum Qden]. lia.
Qed.

(** X10. With a negative time window, or a threshold above 1,
    [find_similar_messages] finds nothing: a time difference is never
    negative and a similarity never exceeds 1. *)
Theorem find_similar_messages_nothing :
  forall (logs1 logs2 : list LogRecord) (thr win : Q) (cs : list SimilarityCorrelation),
    (win < 0)%Q \/ (1 < thr)%Q ->
    find_similar_messages logs1 logs2 thr win = Ok cs ->
    cs = [].
Proof.
  intros logs1 logs2 thr win cs Hpar H.
  unfold find_similar_messages in H. bind_inv H. bind_inv H. bind_inv H.
  rename x into i1, x0 into i2, x1 into found.
  assert (Hfound : Forall (similar_ok i1 i2 thr win) found).
  { eapply outer_loop_ok; [| |exact Hx1]; [auto|constructor]. }
  destruct found as [|c found].
  - apply sort_by_perm in H. apply Permutation_nil in H. exact H.
  - exfalso. inversion Hfound as [|c' l' Hc _]; subst.
    destruct Hc as (_ & _ & _ & _ & Hd & Hw & (m1 & m2 & _ & _ & Hs) & Ht).
    destruct Hpar as [Hneg|Hbig].
    + apply minutes_between_nonneg in Hd.
      apply (Qlt_irrefl 0). eapply Qle_lt_trans; [exact Hd|].
      eapply Qle_lt_trans; [exact Hw | exact Hneg].
    + rewrite Hs in Ht. destruct (ratio_range (list_ascii_of_string (lower m1))
                                    (list_ascii_of_string (lower m2))) as [_ Hle].
      apply (Qlt_irrefl 1). eapply Qlt_le_trans; [exact Hbig|].
      eapply Qle_trans; [exact Ht | exact Hle].
Qed.

Lemma find_similar_messages_nothing_witness :
  find_similar_messages Samples.refused_a Samples.refused_b (9 # 10) (-1) = Ok [].
Proof.
  destruct (find_similar_messages Samples.refused_a Samples.refused_b (9 # 10) (-1))
    as [cs|e] eqn:E; [|vm_compute in E; discriminate].
  f_equal.
  apply (find_similar_messages_nothing Samples.refused_a Samples.refused_b (9 # 10) (-1) cs);
    [left; reflexivity | exact E].
Defined.

(** ** find_timeline_correlations: the window, the fields, the two sides *)

Lemma py_int_inject (z : Z) : py_int (inject_Z z) = z.
Proof. unfold py_int. simpl. apply Z.quot_1_r. Qed.

Lemma py_int_below (w : Q) : (w <= -1)%Q -> py_int w <= -1.
Proof.
  destruct w as [p q]. unfold Qle, py_int. simpl. intros H.
  assert (Hq : p <= - Zpos q) by lia.
  rewrite <- (Z.opp_involutive p), Z.quot_opp_l by lia.
  assert (1 <= Z.quot (- p) (Zpos q)); [|lia].
  apply Z.quot_le_lower_bound; lia.
Qed.

Lemma py_range_empty (lo hi : Z) : hi <= lo -> py_range lo hi = [].
Proof.
  intros H. unfold py_range. replace (Z.to_nat (hi - lo)) with 0%nat by lia.
  reflexivity.
Qed.

Lemma buckets_loop_no_offsets (bs2 bs1 : list (datetime * list LogRecord)) (n : Z) :
  n <= -1 -> forall acc, buckets_loop bs2 n bs1 acc = Ok acc.
Proof.
  intros Hn. induction bs1 as [|[k ls] bs1 IH]; intros acc; simpl; [reflexivity|].
  rewrite py_range_empty by lia. simpl. apply IH.
Qed.

Lemma filter_filter {A : Type} (f g : A -> bool) (l : list A) :
  filter f (filter g l) = filter (fun x => g x && f x) l.
Proof.
  induction l as [|x l IH]; simpl; [reflexivity|].
  destruct (g x); simpl; [destruct (f x)|]; rewrite IH; reflexivity.
Qed.

Lemma filter_length_le {A : Type} (f : A -> bool) (l : list A) :
  (List.length (filter f l) <= List.length l)%nat.
Proof.
  induction l as [|x l IH]; simpl; [lia|]. destruct (f x); simpl; lia.
Qed.

Lemma bucket_of_Some (logs ls : list LogRecord) (b : datetime) :
  bucket_of logs b = Some ls -> ls = filter (in_bucket b) logs.
Proof.
  unfold bucket_of. destruct (filter (in_bucket b) logs); [discriminate|].
  intros H. injection H as <-. reflexivity.
Qed.

(** the correlation the loop body appends, field by field *)
Lemma correlate_at_fields (bs2 : list (datetime * list LogRecord)) (k : datetime)
    (ls : list LogRecord) (o : Z) (c : TimelineCorrelation) :
  correlate_at bs2 k ls o = Ok (Some c) ->
  exists ls2,
    bucket_lookup (shift k o) bs2 = Some ls2 /\
    c = mkTimeline k (List.length ls) (List.length ls2)
          (List.length (filter is_error ls)) (List.length (filter is_error ls2)) o /\
    (1 <= List.length (filter is_error ls))%nat /\
    (1 <= List.length (filter is_error ls2))%nat.
Proof.
  unfold correlate_at. intros H. bind_inv H.
  apply dt_add_shift in Hx. subst x.
  destruct (bucket_lookup (shift k o) bs2) as [ls2|]; [|discriminate].
  bind_inv H. bind_inv H.
  apply filter_r_errors in Hx, Hx0. subst x x0. exists ls2.
  destruct (filter is_error ls), (filter is_error ls2); try discriminate.
  injection H as <-. simpl. repeat split; lia.
Qed.

(** the number of correlations for a bucket and an offset, for any window *)
Lemma timeline_count (logs1 logs2 : list LogRecord) (w : Q)
    (cs : list TimelineCorrelation) :
  find_timeline_correlations logs1 logs2 w = Ok cs ->
  forall (b : datetime) (o : Z),
    emitted_at b o cs =
    if (- py_int w <=? o) && (o <=? py_int w)
       && error_in logs1 b && error_in logs2 (shift b o)
    then 1%nat else 0%nat.
Proof.
  unfold find_timeline_correlations. set (n := py_int w).
  destruct (make_buckets_spec logs1) as [Hb1 Hd1].
  destruct (make_buckets_spec logs2) as [Hb2 _].
  intros H b o. apply buckets_loop_spec in H. destruct H as [-> Hall].
  simpl app. rewrite (emitted_buckets _ _ b o _ Hd1 Hall), Hb1.
  rewrite <- (error_in_bucket logs1 b), <- (error_in_bucket logs2 (shift b o)).
  unfold fires. rewrite Hb2.
  destruct (bucket_of logs1 b) as [ls|]; [|rewrite andb_false_r; reflexivity].
  destruct (nonempty (filter is_error ls)),
    (match bucket_of logs2 (shift b o) with
     | Some ls2 => nonempty (filter is_error ls2) | None => false end),
    ((- n <=? o) && (o <=? n)); reflexivity.
Qed.

Lemma shift_back (b : datetime) (o : Z) : shift (shift b o) (- o) = b.
Proof.
  destruct b as [wl off]. unfold shift. simpl. f_equal. lia.
Qed.

(** X11. Only the integer part of the window counts:
    [find_timeline_correlations] gives for a window [w] what it gives
    for [int(w)], and for a window of -1 or less it returns the empty
    list whatever the records are. *)
Theorem find_timeline_correlations_window :
  forall (logs1 logs2 : list LogRecord) (w : Q),
    find_timeline_correlations logs1 logs2 w
    = find_timeline_correlations logs1 logs2 (inject_Z (py_int w)) /\
    ((w <= -1)%Q -> find_timeline_correlations logs1 logs2 w = Ok []).
Proof.
  intros logs1 logs2 w. unfold find_timeline_correlations. split.
  - rewrite py_int_inject. reflexivity.
  - intros Hw. apply buckets_loop_no_offsets. apply py_int_below. exact Hw.
Qed.

Lemma find_timeline_correlations_window_witness :
  find_timeline_correlations Samples.refused_a Samples.refused_b (-3 # 2) = Ok [].
Proof.
  apply (proj2 (find_timeline_correlations_window Samples.refused_a Samples.refused_b
                  (-3 # 2))).
  vm_compute. discriminate.
Defined.

(** X12. Every correlation [find_timeline_correlations] returns
    describes its two buckets: the event counts are the numbers of
    records of each input in the bucket and in the bucket moved by the
    offset, the error counts are the numbers of error records among them
    and are at least 1, and the offset is within the integer window. *)
Theorem find_timeline_correlations_fields :
  forall (logs1 logs2 : list LogRecord) (w : Q) (cs : list TimelineCorrelation)
         (c : TimelineCorrelation),
    find_timeline_correlations logs1 logs2 w = Ok cs ->
    In c cs ->
    let b1 := time_bucket c in
    let b2 := shift (time_bucket c) (time_offset_minutes c) in
    server1_events c = List.length (filter (in_bucket b1) logs1) /\
    server2_events c = List.length (filter (in_bucket b2) logs2) /\
    server1_errors c
    = List.length (filter (fun l => in_bucket b1 l && is_error l) logs1) /\
    server2_errors c
    = List.length (filter (fun l => in_bucket b2 l && is_error l) logs2) /\
    (1 <= server1_errors c <= server1_events c)%nat /\
    (1 <= server2_errors c <= server2_events c)%nat /\
    - py_int w <= time_offset_minutes c <= py_int w.
Proof.
  intros logs1 logs2 w cs c H Hin. unfold find_timeline_correlations in H.
  destruct (make_buckets_spec logs1) as [Hb1 Hd1].
  destruct (make_buckets_spec logs2) as [Hb2 _].
  apply buckets_loop_spec in H. destruct H as [-> _]. simpl in Hin.
  apply in_flat_map in Hin. destruct Hin as ([k ls] & Hk & Hin). simpl in Hin.
  apply in_flat_map in Hin. destruct Hin as (o & Ho & Hin).
  apply py_range_In in Ho. unfold emit in Hin.
  destruct (correlate_at (fill_buckets logs2 []) k ls o) as [[c'|]|] eqn:E;
    try destruct Hin.
  2:{ destruct H. }
  subst c'. apply correlate_at_fields in E.
  destruct E as (ls2 & Hl2 & -> & E1 & E2). simpl.
  rewrite Hb2 in Hl2. apply bucket_of_Some in Hl2.
  pose proof (bucket_lookup_own _ Hd1 k ls Hk) as Hl1.
  rewrite Hb1 in Hl1. apply bucket_of_Some in Hl1.
  split; [rewrite Hl1; reflexivity|]. split; [rewrite Hl2; reflexivity|].
  split; [rewrite Hl1, filter_filter; reflexivity|].
  split; [rewrite Hl2, filter_filter; reflexivity|].
  pose proof (filter_length_le is_error ls).
  pose proof (filter_length_le is_error ls2). lia.
Qed.

Lemma find_timeline_correlations_fields_witness :
  exists (cs : list TimelineCorrelation) (c : TimelineCorrelation),
    find_timeline_correlations Samples.refused_a Samples.refused_b 2 = Ok cs /\
    In c cs /\ (1 <= server1_errors c <= server1_events c)%nat.
Proof.
  destruct (find_timeline_correlations Samples.refused_a Samples.refused_b 2)
    as [cs|e] eqn:E; [|vm_compute in E; discriminate].
  assert (Hc : exists c, In c cs).
  { destruct cs as [|c cs]; [vm_compute in E; discriminate|].
    exists c. left. reflexivity. }
  destruct Hc as [c Hc]. exists cs, c. split; [reflexivity|]. split; [exact Hc|].
  apply (find_timeline_correlations_fields Samples.refused_a Samples.refused_b 2 cs c E Hc).
Defined.

(** X13. The timeline correlation treats the two inputs alike: when it
    returns for both orders of the inputs, a correlation for bucket [b]
    and offset [o] is found exactly when, with the inputs swapped, one is
    found for the bucket [b] moved by [o] and the offset [-o]. *)
Theorem find_timeline_correlations_swap :
  forall (logs1 logs2 : list LogRecord) (w : Q) (cs cs' : list TimelineCorrelation)
         (b : datetime) (o : Z),
    find_timeline_correlations logs1 logs2 w = Ok cs ->
    find_timeline_correlations logs2 logs1 w = Ok cs' ->
    emitted_at b o cs = emitted_at (shift b o) (- o) cs'.
Proof.
  intros logs1 logs2 w cs cs' b o H H'.
  rewrite (timeline_count _ _ _ _ H b o), (timeline_count _ _ _ _ H' (shift b o) (- o)).
  rewrite shift_back.
  replace ((- py_int w <=? - o) && (- o <=? py_int w))
    with ((- py_int w <=? o) && (o <=? py_int w)).
  - destruct (error_in logs1 b), (error_in logs2 (shift b o));
      rewrite ?andb_true_r, ?andb_false_r; reflexivity.
  - destruct (Z.leb_spec (- py_int w) o), (Z.leb_spec o (py_int w)),
      (Z.leb_spec (- py_int w) (- o)), (Z.leb_spec (- o) (py_int w));
      simpl; try reflexivity; lia.
Qed.

Lemma find_timeline_correlations_swap_witness :
  exists cs cs' : list TimelineCorrelation,
    find_timeline_correlations Samples.refused_a Samples.refused_b 2 = Ok cs /\
    find_timeline_correlations Samples.refused_b Samples.refused_a 2 = Ok cs' /\
    emitted_at (Samples.at_minute 0) 1 cs
    = emitted_at (shift (Samples.at_minute 0) 1) (- (1)) cs'.
Proof.
  destruct (find_timeline_correlations Samples.refused_a Samples.refused_b 2)
    as [cs|e] eqn:E; [|vm_compute in E; discriminate].
  destruct (find_timeline_correlations Samples.refused_b Samples.refused_a 2)
    as [cs'|e] eqn:E'; [|vm_compute in E'; discriminate].
  exists cs, cs'. split; [reflexivity|]. split; [reflexivity|].
  apply (find_timeline_correlations_swap Samples.refused_a Samples.refused_b 2 cs cs'
           (Samples.at_minute 0) 1 E E').
Defined.

(** ** Time zones *)

Lemma dt_add_inv (x y : datetime) (d : Z) :
  dt_add x d = Ok y ->
  y = mkdt (wall x + d) (utcoffset x) /\ 0 <= wall x + d <= max_wall.
Proof.
  unfold dt_add. destruct ((0 <=? wall x + d) && (wall x + d <=? max_wall)) eqn:E;
    [|discriminate].
  intros H. injection H as <-. apply andb_true_iff in E. destruct E as [E1 E2].
  apply Z.leb_le in E1, E2. auto.
Qed.

Lemma dt_add_in_range (x : datetime) (d : Z) :
  0 <= wall x + d <= max_wall -> dt_add x d = Ok (mkdt (wall x + d) (utcoffset x)).
Proof.
  intros [H1 H2]. unfold dt_add.
  apply Z.leb_le in H1, H2. rewrite H1, H2. reflexivity.
Qed.

(** the offset and the label of a selection: the label is "UTC" exactly
    when the offset is 0, and no offset is positive or below -8 *)
Lemma tz_tables (tz : string) :
  exists h : Z,
    match assoc tz tz_map with Some h => h | None => 0 end = h /\
    -8 <= h <= 0 /\
    (get_timezone_name tz = "UTC" <-> h = 0).
Proof.
  unfold get_timezone_name, tz_map, tz_names. cbn [assoc].
  repeat match goal with
         | |- context [String.eqb tz ?k] => destruct (String.eqb tz k)
         end;
    eexists; (split; [reflexivity|]); (split; [lia|]);
    split; intros H; try reflexivity; discriminate.
Qed.

(** X14. [convert_timezone] moves the wall clock back by a whole number
    of hours between 0 and 8 and keeps the zone information of its
    argument; it returns the argument unchanged exactly when the label of
    the selection is "UTC", which includes every unknown selection. It
    returns whenever the argument is at least eight hours after the
    first representable instant. *)
Theorem convert_timezone_shift :
  forall (tz : string) (utc : datetime),
    (8 * us_per_hour <= wall utc <= max_wall ->
     is_ok (convert_timezone tz utc) = true) /\
    (forall local : datetime,
        convert_timezone tz utc = Ok local ->
        utcoffset local = utcoffset utc /\
        (exists h, -8 <= h <= 0 /\ wall local = wall utc + h * us_per_hour) /\
        (get_timezone_name tz = "UTC" <-> local = utc)).
Proof.
  intros tz utc. unfold convert_timezone.
  destruct (tz_tables tz) as (h & -> & Hh & Hname). split.
  - intros Hr. rewrite dt_add_in_range; [reflexivity|].
    unfold us_per_hour in *. lia.
  - intros local H. apply dt_add_inv in H. destruct H as [-> Hr]. simpl.
    split; [reflexivity|]. split; [exists h; auto|].
    rewrite Hname. destruct utc as [w o]. simpl. split.
    + intros ->. f_equal. lia.
    + intros H. injection H as H. unfold us_per_hour in H. lia.
Qed.

Lemma convert_timezone_shift_witness :
  is_ok (convert_timezone "Pacific (PST)" MoreSamples.noon) = true.
Proof.
  apply (proj1 (convert_timezone_shift "Pacific (PST)" MoreSamples.noon)).
  vm_compute. split; discriminate.
Defined.

(** ** on_timezone_change *)

Lemma retime_unrendered (tz : string) (r r' : LogRecord) :
  retime tz r = Ok r' -> unrendered r' = unrendered r.
Proof.
  unfold retime. destruct (negb _).
  - intros H. apply bind_ok in H. destruct H as (l & _ & H).
    injection H as <-. reflexivity.
  - intros H. injection H as <-. reflexivity.
Qed.

Lemma retime_logs_unrendered (tz : string) (l : list LogRecord) :
  map unrendered (fst (retime_logs tz l)) = map unrendered l.
Proof.
  induction l as [|r l IH]; simpl; [reflexivity|].
  destruct (retime tz r) as [r'|e] eqn:E; [|reflexivity].
  apply retime_unrendered in E.
  destruct (retime_logs tz l) as [l' res]. simpl in *. rewrite E, IH. reflexivity.
Qed.

(** re-rendering looks at the parsed timestamp only and overwrites the
    rendering *)
Lemma retime_after (tz1 tz2 : string) (r r1 : LogRecord) :
  retime tz1 r = Ok r1 ->
  (forall r2, retime tz2 r = Ok r2 -> retime tz2 r1 = Ok r2) /\
  (forall e, retime tz2 r = Raise e -> retime tz2 r1 = Raise e).
Proof.
  unfold retime. destruct (negb (dt_eqb (parsed_timestamp r) datetime_min)) eqn:E.
  - intros H. apply bind_ok in H. destruct H as (l & _ & H). injection H as <-.
    simpl. rewrite E.
    destruct (convert_timezone tz2 (parsed_timestamp r)) as [l2|e2]; simpl; split;
      intros x Hx; try discriminate; exact Hx.
  - intros H. injection H as <-. rewrite E. auto.
Qed.

Lemma retime_logs_after (tz1 tz2 : string) (l : list LogRecord) :
  snd (retime_logs tz1 l) = Ok tt ->
  snd (retime_logs tz2 (fst (retime_logs tz1 l))) = snd (retime_logs tz2 l) /\
  (snd (retime_logs tz2 l) = Ok tt ->
   fst (retime_logs tz2 (fst (retime_logs tz1 l))) = fst (retime_logs tz2 l)).
Proof.
  induction l as [|r l IH]; simpl; [auto|].
  destruct (retime tz1 r) as [r1|e1] eqn:E1; [|discriminate].
  destruct (retime_after tz1 tz2 r r1 E1) as [Hok Hraise].
  destruct (retime_logs tz1 l) as [l1 res1]. simpl in *. intros H1.
  destruct (IH H1) as [IHs IHf].
  destruct (retime tz2 r) as [r2|e2] eqn:E2.
  - rewrite (Hok r2 eq_refl).
    destruct (retime_logs tz2 l1) as [l12 res12].
    destruct (retime_logs tz2 l) as [l2 res2]. simpl in *.
    split; [exact IHs|]. intros H2. rewrite (IHf H2). reflexivity.
  - rewrite (Hraise e2 eq_refl). simpl. split; [reflexivity | discriminate].
Qed.

(** X15. [on_timezone_change] changes nothing but the rendered
    timestamp of records: also when a conversion raises part-way, the
    records keep their number, order and every other field, and the
    group keeps its name, components, levels and files. *)
Theorem on_timezone_change_only_renders :
  forall (tz : string) (sg : ServerGroup),
    map unrendered (logs (fst (on_timezone_change tz sg))) = map unrendered (logs sg) /\
    name (fst (on_timezone_change tz sg)) = name sg /\
    components (fst (on_timezone_change tz sg)) = components sg /\
    log_levels (fst (on_timezone_change tz sg)) = log_levels sg /\
    loaded_files (fst (on_timezone_change tz sg)) = loaded_files sg.
Proof.
  intros tz sg. unfold on_timezone_change.
  pose proof (retime_logs_unrendered tz (logs sg)) as H.
  destruct (retime_logs tz (logs sg)) as [l res]. simpl in *. auto.
Qed.

(** X16. The rendering depends on the last selection only: after a
    change of zone that succeeded, a second change succeeds or raises as
    it would have without the first, and when it succeeds it leaves the
    collection it would have left without the first. *)
Theorem on_timezone_change_last_wins :
  forall (tz1 tz2 : string) (sg : ServerGroup),
    snd (on_timezone_change tz1 sg) = Ok tt ->
    snd (on_timezone_change tz2 (fst (on_timezone_change tz1 sg)))
    = snd (on_timezone_change tz2 sg) /\
    (snd (on_timezone_change tz2 sg) = Ok tt ->
     fst (on_timezone_change tz2 (fst (on_timezone_change tz1 sg)))
     = fst (on_timezone_change tz2 sg)).
Proof.
  intros tz1 tz2 sg. unfold on_timezone_change.
  pose proof (retime_logs_after tz1 tz2 (logs sg)) as H.
  destruct (retime_logs tz1 (logs sg)) as [l1 res1]. simpl in *.
  intros H1. destruct (H H1) as [Hs Hf].
  destruct (retime_logs tz2 l1) as [l12 res12].
  destruct (retime_logs tz2 (logs sg)) as [l2 res2]. simpl in *.
  split; [exact Hs|]. intros H2. rewrite (Hf H2). reflexivity.
Qed.

Lemma on_timezone_change_last_wins_witness :
  snd (on_timezone_change "Pacific (PST)"
         (fst (on_timezone_change "Eastern (EST)" MoreSamples.status_group)))
  = snd (on_timezone_change "Pacific (PST)" MoreSamples.status_group).
Proof.
  apply (proj1 (on_timezone_change_last_wins "Eastern (EST)" "Pacific (PST)"
                  MoreSamples.status_group ltac:(vm_compute; reflexivity))).
Defined.

(** ** Changing the zone and loading under the zone *)

Section RetimeLoad.
Context {lib : PyLib}.

Lemma extract_timestamp_real (tz : string) (entry : json) (ts : display_ts * datetime) :
  extract_timestamp tz entry = Ok ts ->
  dt_eqb (snd ts) datetime_min = false ->
  exists v, py_get entry "@timestamp" (JStr EmptyString) = Ok v /\
            truthy v = true /\ parse_timestamp tz v = Ok ts.
Proof.
  unfold extract_timestamp. intros H Hne. bind_inv H. exists x.
  split; [exact Hx|].
  destruct (truthy x).
  - split; [reflexivity|].
    destruct (parse_timestamp tz x) as [p|e].
    + congruence.
    + injection H as <-. simpl in Hne. rewrite dt_eqb_refl in Hne. discriminate.
  - injection H as <-. simpl in Hne. rewrite dt_eqb_refl in Hne. discriminate.
Qed.

Lemma parse_timestamp_inv (tz : string) (v : json) (ts : display_ts * datetime) :
  parse_timestamp tz v = Ok ts ->
  exists s local,
    v = JStr s /\ fromisoformat (replace_Z s) = Some (snd ts) /\
    convert_timezone tz (snd ts) = Ok local /\
    fst ts = Formatted local (get_timezone_name tz).
Proof.
  unfold parse_timestamp. destruct v as [| | |s| |]; try discriminate.
  destruct (fromisoformat (replace_Z s)) as [utc|] eqn:Hiso; [|discriminate].
  intros H. bind_inv H. injection H as <-. exists s, x. simpl.
  split; [reflexivity|]. split; [exact Hiso|]. split; [exact Hx | reflexivity].
Qed.

End RetimeLoad.

(** X17. Changing the zone agrees with loading under the zone: for a
    record that was loaded under one selection and has a real timestamp,
    the re-rendering done by [on_timezone_change] under a second
    selection, when it succeeds, gives the record that loading the same
    line under the second selection gives. *)
Theorem retime_agrees_with_load :
  forall (lib : PyLib) (tz1 tz2 : string) (entry : json) (n : nat)
         (file server : string) (r1 r2 : LogRecord),
    process_log_entry tz1 entry n file server = Ok r1 ->
    dt_eqb (parsed_timestamp r1) datetime_min = false ->
    retime tz2 r1 = Ok r2 ->
    process_log_entry tz2 entry n file server = Ok r2.
Proof.
  intros lib tz1 tz2 entry n file server r1 r2 H Hne Hr.
  unfold process_log_entry in *.
  apply bind_ok in H. destruct H as (ts & Hts & H).
  apply bind_ok in H. destruct H as (lv & Hlv & H).
  apply bind_ok in H. destruct H as (cmp & Hcmp & H).
  apply bind_ok in H. destruct H as (msg & Hmsg & H).
  apply bind_ok in H. destruct H as (len & Hlen & H).
  apply bind_ok in H. destruct H as (pre & Hpre & H).
  injection H as <-. simpl in Hne.
  unfold retime in Hr. simpl in Hr. rewrite Hne in Hr. simpl in Hr.
  apply bind_ok in Hr. destruct Hr as (local2 & Hc2 & Hr). injection Hr as <-.
  destruct (extract_timestamp_real tz1 entry ts Hts Hne) as (v & Hv & Ht & Hp).
  destruct (parse_timestamp_inv tz1 v ts Hp) as (s & local1 & -> & Hiso & _ & _).
  assert (Hts2 : extract_timestamp tz2 entry
                 = Ok (Formatted local2 (get_timezone_name tz2), snd ts)).
  { unfold extract_timestamp. rewrite Hv. cbn [bind]. rewrite Ht.
    unfold parse_timestamp. rewrite Hiso, Hc2. reflexivity. }
  rewrite Hts2. cbn [bind]. rewrite Hlv. cbn [bind]. rewrite Hcmp. cbn [bind].
  rewrite Hmsg. cbn [bind]. rewrite Hlen. cbn [bind]. rewrite Hpre. reflexivity.
Qed.

Lemma retime_agrees_with_load_witness :
  exists r2 : LogRecord,
    retime "Eastern (EST)" MoreSamples.refused_x = Ok r2 /\
    process_log_entry (lib := Reference.lib) "Eastern (EST)" (raw MoreSamples.refused_x)
      1 "a.ndjson" "A" = Ok r2.
Proof.
  destruct (retime "Eastern (EST)" MoreSamples.refused_x) as [r2|e] eqn:E;
    [|vm_compute in E; discriminate].
  exists r2. split; [reflexivity|].
  apply (retime_agrees_with_load Reference.lib "UTC" "Eastern (EST)"
           (raw MoreSamples.refused_x) 1 "a.ndjson" "A" MoreSamples.refused_x r2).
  - vm_compute. reflexivity.
  - vm_compute. reflexivity.
  - exact E.
Defined.

(** ** Component analysis: every record is counted once *)

Lemma hashable_eqb_refl (v : json) : hashable v = true -> hashable_eqb v v = true.
Proof.
  destruct v as [|b|q|s|l|kv]; simpl; try discriminate; intros _.
  - reflexivity.
  - destruct b; reflexivity.
  - apply Qeq_bool_iff. reflexivity.
  - apply String.eqb_refl.
Qed.

Lemma list_sum_perm (l1 l2 : list nat) :
  Permutation l1 l2 -> list_sum l1 = list_sum l2.
Proof. induction 1; simpl; lia. Qed.

Lemma stats_put_counted (c : json) (s : ComponentStats) (d : list (json * ComponentStats)) :
  (counted (stats_put c s d) + cs_total_logs (stats_get c d)
   = counted d + cs_total_logs s)%nat.
Proof.
  unfold counted. induction d as [|[k s'] d IH]; simpl; [lia|].
  destruct (hashable_eqb k c); simpl; lia.
Qed.

Lemma stats_put_distinct (c : json) (s : ComponentStats) (d : list (json * ComponentStats)) :
  hashable c = true -> keys_distinct d -> keys_distinct (stats_put c s d).
Proof.
  intros Hc. induction d as [|[k s'] d IH]; simpl.
  - intros _. split; [apply hashable_eqb_refl; exact Hc|]. split; [constructor | exact I].
  - intros (Hr & Hk & Hd). destruct (hashable_eqb k c) eqn:E; simpl.
    + auto.
    + split; [exact Hr|]. split; [|apply IH; exact Hd].
      clear IH Hd. induction d as [|[k' s''] d IH]; simpl.
      * constructor; [exact E | constructor].
      * inversion Hk as [|p l Hp Hl]; subst.
        destruct (hashable_eqb k' c); constructor; auto.
Qed.

Lemma stats_put_ok (c : json) (s : ComponentStats) (d : list (json * ComponentStats)) :
  stats_ok s -> Forall (fun p => stats_ok (snd p)) d ->
  Forall (fun p => stats_ok (snd p)) (stats_put c s d).
Proof.
  intros Hs. induction 1 as [|[k s'] d Hp Hd IH]; simpl.
  - constructor; [exact Hs | constructor].
  - destruct (hashable_eqb k c); constructor; auto.
Qed.

Lemma stats_get_ok (c : json) (d : list (json * ComponentStats)) :
  Forall (fun p => stats_ok (snd p)) d ->
  (error_count (stats_get c d) + warning_count (stats_get c d) + info_count (stats_get c d)
   <= cs_total_logs (stats_get c d))%nat.
Proof.
  induction 1 as [|[k s] d Hp Hd IH]; simpl; [lia|].
  destruct (hashable_eqb k c); [apply Hp | exact IH].
Qed.

Lemma stats_get_own (d : list (json * ComponentStats)) :
  keys_distinct d ->
  forall k s, In (k, s) d -> stats_get k d = s.
Proof.
  induction d as [|[k0 s0] d IH]; simpl; intros Hd k s Hin; [destruct Hin|].
  destruct Hd as (Hr & Hk & Hd). destruct Hin as [Heq|Hin].
  - injection Heq as <- <-. rewrite Hr. reflexivity.
  - rewrite Forall_forall in Hk. pose proof (Hk (k, s) Hin) as E. simpl in E.
    rewrite E. apply IH; assumption.
Qed.

Lemma hashable_eqb_hashable (x y : json) :
  hashable_eqb x y = true -> hashable x = true /\ hashable y = true.
Proof.
  destruct x as [|b|q|s|l|kv], y as [|b'|q'|s'|l'|kv']; simpl;
    try discriminate; auto.
Qed.

Lemma hashable_eqb_sym (x y : json) : hashable_eqb x y = hashable_eqb y x.
Proof.
  assert (Hq : forall p q, Qeq_bool p q = Qeq_bool q p).
  { intros p q. destruct (Qeq_bool p q) eqn:E.
    - symmetry. apply Qeq_bool_iff. symmetry. apply Qeq_bool_iff. exact E.
    - symmetry. destruct (Qeq_bool q p) eqn:E'; [|reflexivity].
      apply Qeq_bool_iff in E'. symmetry in E'. apply Qeq_bool_iff in E'. congruence. }
  destruct x as [|b|q|s|l|kv], y as [|b'|q'|s'|l'|kv']; simpl;
    try reflexivity; try apply Hq; apply String.eqb_sym.
Qed.

Lemma hashable_eqb_trans (x y z : json) :
  hashable_eqb x y = true -> hashable_eqb y z = true -> hashable_eqb x z = true.
Proof.
  assert (Hq : forall p q r, Qeq_bool p q = true -> Qeq_bool q r = true ->
                             Qeq_bool p r = true).
  { intros p q r H1 H2. apply Qeq_bool_iff in H1, H2. apply Qeq_bool_iff.
    rewrite H1. exact H2. }
  destruct x as [|b|q|s|l|kv], y as [|b'|q'|s'|l'|kv'], z as [|b2|q2|s2|l2|kv2];
    simpl; try discriminate; try reflexivity; try apply Hq.
  intros H1 H2. apply String.eqb_eq in H1, H2. subst. apply String.eqb_refl.
Qed.

(** keys that are not equal to each other cannot both equal [c] *)
Lemma hashable_eqb_apart (k c c' : json) :
  hashable_eqb k c' = true -> hashable_eqb c c' = false -> hashable_eqb k c = false.
Proof.
  intros H1 H2. destruct (hashable_eqb k c) eqn:E; [|reflexivity].
  rewrite <- H2. symmetry. rewrite hashable_eqb_sym in E.
  eapply hashable_eqb_trans; eassumption.
Qed.

Lemma hashable_eqb_congr (k x y : json) :
  hashable_eqb x y = true -> hashable_eqb k x = hashable_eqb k y.
Proof.
  intros E. destruct (hashable_eqb k x) eqn:E1.
  - symmetry. eapply hashable_eqb_trans; eassumption.
  - symmetry. destruct (hashable_eqb k y) eqn:E2; [|reflexivity].
    rewrite hashable_eqb_sym in E.
    rewrite (hashable_eqb_trans k y x E2 E) in E1. discriminate.
Qed.

Lemma stats_get_put (c c' : json) (s : ComponentStats) (d : list (json * ComponentStats)) :
  hashable c' = true ->
  stats_get c (stats_put c' s d)
  = if hashable_eqb c c' then s else stats_get c d.
Proof.
  intros Hc'. induction d as [|[k s'] d IH]; simpl.
  - rewrite (hashable_eqb_sym c' c). reflexivity.
  - destruct (hashable_eqb k c') eqn:E1; simpl.
    + destruct (hashable_eqb c c') eqn:E2.
      * rewrite (hashable_eqb_trans k c' c E1); [reflexivity|].
        rewrite hashable_eqb_sym. exact E2.
      * rewrite (hashable_eqb_apart k c c' E1 E2). reflexivity.
    + destruct (hashable_eqb k c) eqn:E3; [|exact IH].
      destruct (hashable_eqb c c') eqn:E2; [|reflexivity].
      rewrite (hashable_eqb_trans k c c' E3 E2) in E1. discriminate.
Qed.

Lemma track_log_count (d d' : list (json * ComponentStats)) (log : LogRecord) (c : json) :
  track_log d log = Ok d' ->
  cs_total_logs (stats_get c d')
  = (cs_total_logs (stats_get c d) + if of_component c log then 1 else 0)%nat.
Proof.
  unfold track_log, of_component. intros H.
  apply bind_ok in H. destruct H as (lv & _ & H).
  apply bind_ok in H. destruct H as (stats & Hst & H).
  apply bind_ok in H. destruct H as (seen & _ & H).
  apply bind_ok in H. destruct H as (msg & _ & H).
  destruct (hashable (component log)) eqn:Hh; [|discriminate].
  injection Hst as <-. injection H as <-.
  rewrite stats_get_put by exact Hh.
  destruct (hashable_eqb c (component log)) eqn:E; [|lia].
  simpl. clear - E.
  assert (Hsame : forall d, stats_get (component log) d = stats_get c d).
  { intros d0. induction d0 as [|[k s] d0 IH]; simpl; [reflexivity|].
    rewrite (hashable_eqb_congr k c (component log) E).
    destruct (hashable_eqb k (component log)); [reflexivity | exact IH]. }
  rewrite Hsame. lia.
Qed.

Lemma track_log_inv (d d' : list (json * ComponentStats)) (log : LogRecord) :
  track_log d log = Ok d' ->
  keys_distinct d -> Forall (fun p => stats_ok (snd p)) d ->
  counted d' = S (counted d) /\ keys_distinct d' /\
  Forall (fun p => stats_ok (snd p)) d'.
Proof.
  unfold track_log. intros H Hd Hok.
  apply bind_ok in H. destruct H as (lv & _ & H).
  apply bind_ok in H. destruct H as (stats & Hst & H).
  apply bind_ok in H. destruct H as (seen & _ & H).
  apply bind_ok in H. destruct H as (msg & _ & H).
  destruct (hashable (component log)) eqn:Hh; [|discriminate].
  injection Hst as <-. injection H as <-.
  pose proof (stats_get_ok (component log) d Hok) as Hle.
  remember (stats_get (component log) d) as st eqn:Est.
  split; [|split].
  - match goal with
    | |- counted (stats_put ?c ?s d) = _ =>
        pose proof (stats_put_counted c s d) as Hc
    end.
    rewrite <- Est in Hc. cbn [cs_total_logs] in Hc. lia.
  - apply stats_put_distinct; assumption.
  - apply stats_put_ok; [|exact Hok]. unfold stats_ok.
    cbn [cs_total_logs error_count warning_count info_count].
    destruct (String.eqb lv "error"), (String.eqb lv "warn"),
      (String.eqb lv "warning"), (String.eqb lv "info"); cbn [negb andb orb]; lia.
Qed.

Lemma track_all_inv (logs : list LogRecord) :
  forall d d' : list (json * ComponentStats),
    track_all d logs = Ok d' ->
    keys_distinct d -> Forall (fun p => stats_ok (snd p)) d ->
    counted d' = (counted d + List.length logs)%nat /\ keys_distinct d' /\
    Forall (fun p => stats_ok (snd p)) d'.
Proof.
  induction logs as [|log logs IH]; simpl; intros d d' H Hd Hok.
  - injection H as <-. split; [lia | auto].
  - apply bind_ok in H. destruct H as (d1 & H1 & H).
    destruct (track_log_inv d d1 log H1 Hd Hok) as (C1 & D1 & O1).
    destruct (IH d1 d' H D1 O1) as (C2 & D2 & O2).
    split; [lia | auto].
Qed.

Section ComponentReportFacts.
Variable tz : string.

Lemma status_lines_length (l : list (string * datetime)) (r : list (datetime * string)) :
  status_lines tz l = Ok r -> (List.length r <= List.length l)%nat.
Proof.
  revert r. induction l as [|[st t] l IH]; simpl; intros r H.
  - injection H as <-. simpl. lia.
  - destruct (negb (dt_eqb t datetime_min)).
    + apply bind_ok in H. destruct H as (lt & _ & H).
      apply bind_ok in H. destruct H as (r' & Hr' & H).
      injection H as <-. specialize (IH r' Hr'). simpl. lia.
    + specialize (IH r H). lia.
Qed.

Lemma reported_status_changes_length (changes : list (string * datetime))
    (r : list (datetime * string)) :
  reported_status_changes tz changes = Ok r -> (List.length r <= 5)%nat.
Proof.
  unfold reported_status_changes. destruct changes as [|c changes].
  - intros H. injection H as <-. simpl. lia.
  - intros H. apply bind_ok in H. destruct H as (sorted & _ & H).
    apply status_lines_length in H. unfold last_n in H.
    rewrite length_skipn in H. lia.
Qed.

Lemma report_component_inv (k : json) (s : ComponentStats) (r : ComponentReport) :
  report_component tz k s = Ok r ->
  rc_component r = k /\ rc_total_logs r = cs_total_logs s /\
  (stats_ok s -> report_ok r).
Proof.
  unfold report_component. intros H.
  apply bind_ok in H. destruct H as (period & _ & H).
  apply bind_ok in H. destruct H as (changes & Hch & H).
  injection H as <-. simpl. split; [reflexivity|]. split; [reflexivity|].
  intros [H1 H2]. unfold report_ok. simpl. split; [exact H1|]. split.
  - destruct (Nat.ltb_spec 0 (error_count s + warning_count s + info_count s)); [lia|exact I].
  - eapply reported_status_changes_length. exact Hch.
Qed.

Lemma report_all_inv (d : list (json * ComponentStats)) (keys : list json) :
  forall rs : list ComponentReport,
    report_all tz d keys = Ok rs ->
    map rc_component rs = keys /\
    map rc_total_logs rs = map (fun k => cs_total_logs (stats_get k d)) keys /\
    (Forall (fun k => stats_ok (stats_get k d)) keys -> Forall report_ok rs).
Proof.
  induction keys as [|k keys IH]; simpl; intros rs H.
  - injection H as <-. simpl. auto.
  - apply bind_ok in H. destruct H as (r & Hr & H).
    apply bind_ok in H. destruct H as (rs' & Hrs & H). injection H as <-.
    destruct (report_component_inv _ _ _ Hr) as (E1 & E2 & E3).
    destruct (IH rs' Hrs) as (I1 & I2 & I3). simpl.
    rewrite E1, E2, I1, I2. split; [reflexivity|]. split; [reflexivity|].
    intros Hall. inversion Hall; subst. constructor; auto.
Qed.

End ComponentReportFacts.

Lemma counted_by_key (d : list (json * ComponentStats)) :
  keys_distinct d ->
  list_sum (map (fun k => cs_total_logs (stats_get k d)) (map fst d)) = counted d.
Proof.
  intros Hd. unfold counted. rewrite map_map. f_equal.
  apply map_ext_in. intros [k s] Hin. simpl.
  rewrite (stats_get_own d Hd k s Hin). reflexivity.
Qed.


Lemma track_all_count (logs : list LogRecord) (c : json) :
  forall d d' : list (json * ComponentStats),
    track_all d logs = Ok d' ->
    cs_total_logs (stats_get c d')
    = (cs_total_logs (stats_get c d) + List.length (filter (of_component c) logs))%nat.
Proof.
  induction logs as [|log logs IH]; simpl; intros d d' H.
  - injection H as <-. lia.
  - apply bind_ok in H. destruct H as (d1 & H1 & H).
    rewrite (IH d1 d' H), (track_log_count d d1 log c H1).
    destruct (of_component c log); simpl; lia.
Qed.

(** X18. When the component analysis returns a report, every record is
    counted in exactly one section: the total of a section is the number
    of records of its component, the totals add up to the number of
    records, each section counts at least one record, its level
    breakdown, when shown, counts at most the records of the section, and
    it lists at most five status changes. *)
Theorem run_component_analysis_counts :
  forall (tz : string) (logs : list LogRecord) (rs : list ComponentReport),
    run_component_analysis tz logs = Ok (Some rs) ->
    list_sum (map rc_total_logs rs) = List.length logs /\
    Forall (fun r => rc_total_logs r
                     = List.length (filter (of_component (rc_component r)) logs)) rs /\
    Forall report_ok rs.
Proof.
  intros tz logs rs H. unfold run_component_analysis in H.
  destruct logs as [|l0 logs0] eqn:El; [discriminate|]. rewrite <- El in *. clear El.
  apply bind_ok in H. destruct H as (d & Hd & H).
  apply bind_ok in H. destruct H as (keys & Hk & H).
  apply bind_ok in H. destruct H as (rs' & Hrs & H). injection H as <-.
  destruct (track_all_inv logs [] d Hd I (Forall_nil _)) as (Hc & Hdist & Hok).
  apply sort_by_perm in Hk.
  destruct (report_all_inv tz d keys rs' Hrs) as (R1 & R2 & R3).
  split; [|split].
  - rewrite R2.
    rewrite <- (list_sum_perm _ _ (Permutation_map _ Hk)).
    rewrite counted_by_key by exact Hdist. rewrite Hc. reflexivity.
  - apply Forall_forall. intros r Hr.
    assert (Hin : In (rc_total_logs r, rc_component r)
                     (combine (map rc_total_logs rs') (map rc_component rs'))).
    { clear - Hr. induction rs' as [|x rs' IH]; [destruct Hr|].
      destruct Hr as [->|Hr]; [left; reflexivity | right; apply IH; exact Hr]. }
    rewrite R1, R2 in Hin.
    assert (Heq : rc_total_logs r = cs_total_logs (stats_get (rc_component r) d)).
    { clear - Hin. induction keys as [|k keys IH]; [destruct Hin|].
      destruct Hin as [Hin|Hin]; [injection Hin as <- <-; reflexivity | apply IH; exact Hin]. }
    rewrite Heq, (track_all_count logs (rc_component r) [] d Hd). reflexivity.
  - apply R3. apply Forall_forall. intros k Hkin.
    apply (Permutation_in _ (Permutation_sym Hk)) in Hkin.
    apply in_map_iff in Hkin. destruct Hkin as ([k' s] & <- & Hin). simpl.
    rewrite (stats_get_own d Hdist k' s Hin).
    rewrite Forall_forall in Hok. apply (Hok (k', s) Hin).
Qed.

Lemma run_component_analysis_counts_witness :
  exists rs : list ComponentReport,
    run_component_analysis "UTC" Samples.status_logs = Ok (Some rs) /\
    list_sum (map rc_total_logs rs) = List.length Samples.status_logs.
Proof.
  destruct (run_component_analysis "UTC" Samples.status_logs) as [[rs|]|e] eqn:E;
    try (vm_compute in E; discriminate).
  exists rs. split; [reflexivity|].
  apply (run_component_analysis_counts "UTC" Samples.status_logs rs E).
Defined.

(** ** Timeline analysis: gaps and duration *)

Lemma dt_leb_inv (x y : datetime) :
  dt_leb x y = Ok true -> same_kind x y /\ instant x <= instant y.
Proof.
  unfold dt_leb, dt_cmp_key, same_kind, instant.
  destruct (utcoffset x), (utcoffset y); simpl; try discriminate;
    intros H; injection H as H; apply Z.leb_le in H; auto.
Qed.

Lemma dt_sub_inv (x y : datetime) (d : Z) :
  dt_sub y x = Ok d -> d = instant y - instant x.
Proof.
  unfold dt_sub, dt_cmp_key, instant.
  destruct (utcoffset x), (utcoffset y); simpl; try discriminate;
    intros H; injection H as <-; reflexivity.
Qed.

Lemma sort_timestamps_sorted (l r : list datetime) :
  sort_by dt_ltb l = Ok r ->
  StronglySorted (fun x y => dt_leb x y = Ok true) r.
Proof.
  intros H.
  eapply (sort_by_sorted _ _ (fun x y => dt_leb x y = Ok true)); [| | |exact H].
  - intros x y. apply dt_ltb_true_leb.
  - intros x y. apply dt_ltb_false_leb.
  - intros x y z. apply dt_leb_trans.
Qed.

Lemma total_gap_app (l1 l2 : list Gap) :
  total_gap (l1 ++ l2) = total_gap l1 + total_gap l2.
Proof.
  unfold total_gap. induction l1 as [|g l1 IH]; simpl; [reflexivity|].
  rewrite IH. lia.
Qed.

Section GapFacts.
Variable tz : string.

Lemma logging_gaps_bounds (ts : list datetime) :
  StronglySorted (fun x y => dt_leb x y = Ok true) ts ->
  forall gs : list Gap,
    logging_gaps tz ts = Ok gs ->
    Forall (fun g => minutes 2 < gap_duration g) gs /\
    (Z.of_nat (List.length gs) <= Z.max 0 (Z.of_nat (List.length ts) - 1)) /\
    total_gap gs <= instant (last ts datetime_min) - instant (hd datetime_min ts) /\
    instant (last ts datetime_min) - instant (hd datetime_min ts)
    <= total_gap gs
       + minutes 2 * (Z.max 0 (Z.of_nat (List.length ts) - 1) - Z.of_nat (List.length gs)).
Proof.
  induction 1 as [|a ts Hs IH Ha]; intros gs H.
  - injection H as <-. simpl. split; [constructor|]. unfold total_gap. simpl. lia.
  - destruct ts as [|b rest].
    + injection H as <-. simpl. split; [constructor|]. unfold total_gap. simpl. lia.
    + cbn [logging_gaps] in H.
      apply bind_ok in H. destruct H as (gap & Hgap & H).
      apply bind_ok in H. destruct H as (found & Hfound & H).
      apply bind_ok in H. destruct H as (more & Hmore & H). injection H as <-.
      apply dt_sub_inv in Hgap.
      inversion Ha as [|b' rest' Hab _]; subst b' rest'.
      apply dt_leb_inv in Hab. destruct Hab as [_ Hab].
      destruct (IH more Hmore) as (I1 & I2 & I3 & I4).
      change (last (a :: b :: rest) datetime_min) with (last (b :: rest) datetime_min).
      change (hd datetime_min (a :: b :: rest)) with a.
      change (hd datetime_min (b :: rest)) with b in I3, I4.
      rewrite total_gap_app, length_app.
      change (List.length (a :: b :: rest)) with (S (List.length (b :: rest))).
      assert (Hlen : (1 <= List.length (b :: rest))%nat) by (simpl; lia).
      destruct (Z.ltb_spec (minutes 2) gap) as [Hbig|Hsmall].
      * apply bind_ok in Hfound. destruct Hfound as (gs0 & _ & Hfound).
        apply bind_ok in Hfound. destruct Hfound as (ge0 & _ & Hfound).
        injection Hfound as <-.
        unfold total_gap at 1 3. cbn [map fold_right gap_duration List.length].
        split; [constructor; [exact Hbig | exact I1]|].
        unfold minutes in *. unfold us_per_minute in *. cbn [List.length] in *.
        split; [lia|]. split; [lia|]. lia.
      * injection Hfound as <-.
        unfold total_gap at 1 3. cbn [map fold_right List.length app].
        split; [exact I1|].
        unfold minutes in *. unfold us_per_minute in *. cbn [List.length] in *.
        split; [lia|]. split; [lia|]. lia.
Qed.

End GapFacts.

(** ** Timeline analysis: the component dict *)

Lemma timeline_append_size (c : json) (t : datetime) (d : list (json * list datetime)) :
  timeline_size (timeline_append c t d) = S (timeline_size d).
Proof.
  unfold timeline_size. induction d as [|[k ts] d IH]; simpl; [reflexivity|].
  destruct (hashable_eqb k c); simpl; [rewrite length_app; simpl; lia | rewrite IH; lia].
Qed.

Lemma timeline_append_distinct (c : json) (t : datetime) (d : list (json * list datetime)) :
  hashable c = true -> timeline_keys_distinct d ->
  timeline_keys_distinct (timeline_append c t d).
Proof.
  intros Hc. induction d as [|[k ts] d IH]; simpl.
  - intros _. split; [apply hashable_eqb_refl; exact Hc|]. split; [constructor | exact I].
  - intros (Hr & Hk & Hd). destruct (hashable_eqb k c) eqn:E; simpl.
    + auto.
    + split; [exact Hr|]. split; [|apply IH; exact Hd].
      clear IH Hd. induction d as [|[k' ts'] d IH]; simpl.
      * constructor; [exact E | constructor].
      * inversion Hk as [|p l Hp Hl]; subst.
        destruct (hashable_eqb k' c); constructor; auto.
Qed.

Lemma timeline_get_own (d : list (json * list datetime)) :
  timeline_keys_distinct d ->
  forall k ts, In (k, ts) d -> timeline_get k d = ts.
Proof.
  induction d as [|[k0 ts0] d IH]; simpl; intros Hd k ts Hin; [destruct Hin|].
  destruct Hd as (Hr & Hk & Hd). destruct Hin as [Heq|Hin].
  - injection Heq as <- <-. rewrite Hr. reflexivity.
  - rewrite Forall_forall in Hk. pose proof (Hk (k, ts) Hin) as E. simpl in E.
    rewrite E. apply IH; assumption.
Qed.

Lemma collect_timeline_inv (logs : list LogRecord) :
  forall (d d' : list (json * list datetime)) (all all' : list datetime),
    collect_timeline logs d all = Ok (d', all') ->
    timeline_keys_distinct d ->
    all' = all ++ real_timestamps logs /\
    timeline_size d' = (timeline_size d + List.length (real_timestamps logs))%nat /\
    timeline_keys_distinct d'.
Proof.
  unfold real_timestamps.
  induction logs as [|log logs IH]; simpl; intros d d' all all' H Hd.
  - injection H as <- <-. rewrite app_nil_r. split; [reflexivity|]. split; [lia | exact Hd].
  - destruct (negb (dt_eqb (parsed_timestamp log) datetime_min)).
    + destruct (hashable (component log)) eqn:Hh; [|discriminate].
      apply IH in H; [|apply timeline_append_distinct; assumption].
      destruct H as (-> & Hsize & Hd'). rewrite <- app_assoc. simpl.
      split; [reflexivity|]. split; [|exact Hd'].
      rewrite Hsize, timeline_append_size. lia.
    + apply IH in H; [|exact Hd]. exact H.
Qed.

Section ActivityFacts.
Variable tz : string.

Lemma component_activity_counts (d : list (json * list datetime)) (keys : list json) :
  forall acts : list Activity,
    component_activity tz d keys = Ok acts ->
    list_sum (map act_count acts)
    = list_sum (map (fun k => List.length (timeline_get k d)) keys).
Proof.
  induction keys as [|k keys IH]; simpl; intros acts H.
  - injection H as <-. reflexivity.
  - apply bind_ok in H. destruct H as (ts & Hts & H).
    apply bind_ok in H. destruct H as (block & Hblock & H).
    apply bind_ok in H. destruct H as (more & Hmore & H). injection H as <-.
    rewrite map_app, list_sum_app, (IH more Hmore).
    apply sort_by_perm in Hts. apply Permutation_length in Hts. rewrite Hts.
    f_equal. destruct ts as [|first ts].
    + injection Hblock as <-. reflexivity.
    + apply bind_ok in Hblock. destruct Hblock as (cs & _ & Hblock).
      apply bind_ok in Hblock. destruct Hblock as (ce & _ & Hblock).
      injection Hblock as <-. simpl. lia.
Qed.

Lemma significant_of_logging (ts : list datetime) :
  forall (gs : list Gap) (k : nat),
    logging_gaps tz ts = Ok gs ->
    significant_gaps ts = Ok k ->
    k = List.length (filter (fun g => minutes 5 <? gap_duration g) gs).
Proof.
  induction ts as [|a ts IH]; intros gs k Hg Hk.
  - injection Hg as <-. injection Hk as <-. reflexivity.
  - destruct ts as [|b rest].
    + injection Hg as <-. injection Hk as <-. reflexivity.
    + cbn [logging_gaps] in Hg. cbn [significant_gaps] in Hk.
      apply bind_ok in Hg. destruct Hg as (gap & Hgap & Hg).
      apply bind_ok in Hg. destruct Hg as (found & Hfound & Hg).
      apply bind_ok in Hg. destruct Hg as (more & Hmore & Hg). injection Hg as <-.
      rewrite Hgap in Hk. cbn [bind] in Hk.
      apply bind_ok in Hk. destruct Hk as (k' & Hk' & Hk). injection Hk as <-.
      rewrite filter_app, length_app, <- (IH more k' Hmore Hk').
      destruct (Z.ltb_spec (minutes 2) gap) as [Hbig|Hsmall].
      * apply bind_ok in Hfound. destruct Hfound as (gs0 & _ & Hfound).
        apply bind_ok in Hfound. destruct Hfound as (ge0 & _ & Hfound).
        injection Hfound as <-. cbn [filter gap_duration].
        change (minutes 5) with 300000000.
        destruct (300000000 <? gap); reflexivity.
      * injection Hfound as <-. cbn [filter List.length Nat.add].
        change (minutes 5) with 300000000.
        destruct (Z.ltb_spec 300000000 gap) as [H5|H5]; [|reflexivity].
        unfold minutes, us_per_minute in *. lia.
Qed.

End ActivityFacts.

Lemma timeline_size_by_key (d : list (json * list datetime)) :
  timeline_keys_distinct d ->
  list_sum (map (fun k => List.length (timeline_get k d)) (map fst d)) = timeline_size d.
Proof.
  intros Hd. unfold timeline_size. rewrite map_map. f_equal.
  apply map_ext_in. intros [k ts] Hin. simpl.
  rewrite (timeline_get_own d Hd k ts Hin). reflexivity.
Qed.

(** what the steps of [run_timeline_analysis] computed when it shows a report *)
Lemma run_timeline_analysis_inv (tz : string) (logs : list LogRecord) (r : TimelineReport) :
  run_timeline_analysis tz logs = Ok (Timeline r) ->
  exists sorted : list datetime,
    sort_by dt_ltb (real_timestamps logs) = Ok sorted /\
    real_timestamps logs <> [] /\
    dt_sub (last sorted datetime_min) (hd datetime_min sorted) = Ok (tl_duration r) /\
    logging_gaps tz sorted = Ok (tl_gaps r) /\
    tl_total_entries r = List.length logs /\
    list_sum (map act_count (tl_activity r)) = List.length (real_timestamps logs).
Proof.
  unfold run_timeline_analysis. intros H.
  destruct logs as [|l0 logs0] eqn:El; [discriminate|]. rewrite <- El in *. clear El.
  apply bind_ok in H. destruct H as ([d all] & Hc & H). simpl in H.
  destruct (collect_timeline_inv logs [] d [] all Hc I) as (Hall & Hsize & Hdist).
  simpl in Hall. subst all.
  destruct (real_timestamps logs) as [|t0 ts0] eqn:Et; [discriminate|].
  rewrite <- Et in *.
  apply bind_ok in H. destruct H as (sorted & Hsorted & H).
  apply bind_ok in H. destruct H as (duration & Hdur & H).
  apply bind_ok in H. destruct H as (sl & _ & H).
  apply bind_ok in H. destruct H as (el & _ & H).
  apply bind_ok in H. destruct H as (gaps & Hgaps & H).
  apply bind_ok in H. destruct H as (keys & Hkeys & H).
  apply bind_ok in H. destruct H as (acts & Hacts & H).
  injection H as <-. simpl. exists sorted.
  split; [exact Hsorted|]. split; [rewrite Et; discriminate|].
  split; [exact Hdur|]. split; [exact Hgaps|]. split; [reflexivity|].
  rewrite (component_activity_counts tz d keys acts Hacts).
  apply sort_by_perm in Hkeys.
  rewrite <- (list_sum_perm _ _ (Permutation_map _ Hkeys)).
  rewrite timeline_size_by_key by exact Hdist. rewrite Hsize. reflexivity.
Qed.

(** X19. When the timeline analysis shows a report, every gap it lists
    is longer than two minutes, there are fewer gaps than timestamps, and
    the duration lies between the time covered by the gaps and that time
    plus two minutes for every other step between consecutive timestamps;
    so without a gap the duration is at most two minutes per step. The
    entry count is the number of records, and the counts of the component
    blocks add up to the number of records that have a timestamp. *)
Theorem run_timeline_analysis_gaps :
  forall (tz : string) (logs : list LogRecord) (r : TimelineReport),
    run_timeline_analysis tz logs = Ok (Timeline r) ->
    let n := Z.of_nat (List.length (real_timestamps logs)) in
    let g := Z.of_nat (List.length (tl_gaps r)) in
    tl_total_entries r = List.length logs /\
    Forall (fun gap => minutes 2 < gap_duration gap) (tl_gaps r) /\
    g <= n - 1 /\
    total_gap (tl_gaps r) <= tl_duration r /\
    tl_duration r <= total_gap (tl_gaps r) + minutes 2 * (n - 1 - g) /\
    list_sum (map act_count (tl_activity r)) = List.length (real_timestamps logs).
Proof.
  intros tz logs r H.
  destruct (run_timeline_analysis_inv tz logs r H)
    as (sorted & Hsorted & Hne & Hdur & Hgaps & Htotal & Hact).
  pose proof (sort_timestamps_sorted _ _ Hsorted) as Hs.
  apply dt_sub_inv in Hdur.
  destruct (logging_gaps_bounds tz sorted Hs (tl_gaps r) Hgaps) as (G1 & G2 & G3 & G4).
  apply sort_by_perm in Hsorted. apply Permutation_length in Hsorted.
  assert (Hpos : (1 <= List.length (real_timestamps logs))%nat).
  { destruct (real_timestamps logs); [congruence | simpl; lia]. }
  cbv zeta. rewrite Hsorted in *. rewrite Hdur.
  split; [exact Htotal|]. split; [exact G1|]. split; [lia|]. split; [lia|].
  split; [|exact Hact].
  replace (Z.max 0 (Z.of_nat (List.length sorted) - 1))
    with (Z.of_nat (List.length sorted) - 1) in G4 by lia.
  exact G4.
Qed.

Lemma run_timeline_analysis_gaps_witness :
  exists r : TimelineReport,
    run_timeline_analysis "UTC" (logs MoreSamples.gappy_group) = Ok (Timeline r) /\
    total_gap (tl_gaps r) <= tl_duration r.
Proof.
  destruct (run_timeline_analysis "UTC" (logs MoreSamples.gappy_group))
    as [[| |r]|e] eqn:E; try (vm_compute in E; discriminate).
  exists r. split; [reflexivity|].
  pose proof (run_timeline_analysis_gaps "UTC" (logs MoreSamples.gappy_group) r E) as H.
  cbv zeta in H. apply H.
Defined.

(** ** The executive summary of the report *)

(** X20. The executive summary of [generate_report] agrees with the
    other views of the same collection: its error, warning and component
    counts are those of [get_stats], which returns whenever the summary
    does; its time range is the duration the timeline analysis shows, and
    its potential outages are those gaps of the timeline analysis that
    are longer than five minutes, so never more than the gaps listed
    there. *)
Theorem executive_summary_agrees :
  forall (sg : ServerGroup) (s : ExecutiveSummary),
    executive_summary sg = Ok (Some s) ->
    (exists st : Stats,
        get_stats sg = Ok st /\
        errors_found s = errors st /\ warnings_found s = warnings st /\
        components_active s = components_count st) /\
    (forall (tz : string) (r : TimelineReport),
        run_timeline_analysis tz (logs sg) = Ok (Timeline r) ->
        time_range s = tl_duration r /\
        potential_outages s
        = List.length (filter (fun g => minutes 5 <? gap_duration g) (tl_gaps r)) /\
        (potential_outages s <= List.length (tl_gaps r))%nat).
Proof.
  intros sg s H. unfold executive_summary in H.
  apply bind_ok in H. destruct H as (es & Hes & H).
  apply bind_ok in H. destruct H as (ws & Hws & H).
  destruct (real_timestamps (logs sg)) as [|t0 ts0] eqn:Et; [discriminate|].
  rewrite <- Et in H.
  apply bind_ok in H. destruct H as (sorted & Hsorted & H).
  apply bind_ok in H. destruct H as (duration & Hdur & H).
  apply bind_ok in H. destruct H as (gaps & Hgaps & H).
  injection H as <-. cbn [errors_found warnings_found components_active time_range
                          potential_outages].
  split.
  - unfold get_stats. rewrite Hes. cbn [bind]. rewrite Hws. cbn [bind].
    eexists. split; [reflexivity|]. simpl. auto.
  - intros tz r Hr.
    destruct (run_timeline_analysis_inv tz (logs sg) r Hr)
      as (sorted' & Hsorted' & _ & Hdur' & Hgaps' & _).
    rewrite Hsorted in Hsorted'. injection Hsorted' as <-.
    rewrite Hdur in Hdur'. injection Hdur' as <-.
    pose proof (significant_of_logging tz sorted (tl_gaps r) gaps Hgaps' Hgaps) as Hk.
    split; [reflexivity|]. split; [exact Hk|].
    rewrite Hk. apply filter_length_le.
Qed.

Lemma executive_summary_agrees_witness :
  exists (s : ExecutiveSummary) (st : Stats),
    executive_summary MoreSamples.gappy_group = Ok (Some s) /\
    get_stats MoreSamples.gappy_group = Ok st /\
    errors_found s = errors st.
Proof.
  destruct (executive_summary MoreSamples.gappy_group) as [[s|]|e] eqn:E;
    try (vm_compute in E; discriminate).
  destruct (proj1 (executive_summary_agrees MoreSamples.gappy_group s E))
    as (st & Hst & He & _).
  exists s, st. split; [reflexivity|]. split; [exact Hst | exact He].
Defined.

(** ** Health analysis: the samples *)

Lemma append_if_positive_inv (holder : json) (key : string) (scale : Q -> Q)
    (acc r : list Q) :
  (forall x, (0 < x)%Q -> (0 < scale x)%Q) ->
  append_if_positive holder key scale acc = Ok r ->
  Forall (fun v => (0 < v)%Q) acc ->
  Forall (fun v => (0 < v)%Q) r /\
  (List.length acc <= List.length r <= S (List.length acc))%nat.
Proof.
  intros Hscale H Hacc. unfold append_if_positive in H.
  apply bind_ok in H. destruct H as (v & _ & H).
  apply bind_ok in H. destruct H as (n & _ & H). injection H as <-.
  destruct (Qltb 0 n) eqn:E.
  - apply Qltb_lt in E. split.
    + apply Forall_app. split; [exact Hacc|]. constructor; [auto | constructor].
    + rewrite length_app. simpl. lia.
  - split; [exact Hacc | lia].
Qed.

Lemma scale_id_pos (x : Q) : (0 < x)%Q -> (0 < (fun y : Q => y) x)%Q.
Proof. auto. Qed.

Lemma scale_mb_pos (x : Q) : (0 < x)%Q -> (0 < (fun y : Q => y / 1024 / 1024) x)%Q.
Proof.
  intros H. cbv beta.
  apply Qlt_shift_div_l; [reflexivity|]. rewrite Qmult_0_l.
  apply Qlt_shift_div_l; [reflexivity|]. rewrite Qmult_0_l. exact H.
Qed.

Ltac step_bind H :=
  let x := fresh "x" in apply bind_ok in H; destruct H as (x & _ & H).

Lemma extract_cpu_inv (metrics : json) (acc r : list Q) :
  extract_cpu metrics acc = Ok r -> Forall (fun v => (0 < v)%Q) acc ->
  Forall (fun v => (0 < v)%Q) r /\
  (List.length acc <= List.length r <= S (List.length acc))%nat.
Proof.
  unfold extract_cpu. intros H Hacc. step_bind H.
  destruct x; [|injection H as <-; split; [exact Hacc | lia]].
  step_bind H. step_bind H. step_bind H.
  apply (append_if_positive_inv _ _ _ _ _ scale_id_pos H Hacc).
Qed.

Lemma extract_memory_inv (metrics : json) (acc r : list Q) :
  extract_memory metrics acc = Ok r -> Forall (fun v => (0 < v)%Q) acc ->
  Forall (fun v => (0 < v)%Q) r /\
  (List.length acc <= List.length r <= S (List.length acc))%nat.
Proof.
  unfold extract_memory. intros H Hacc. step_bind H.
  destruct x; [|injection H as <-; split; [exact Hacc | lia]].
  step_bind H. step_bind H.
  apply (append_if_positive_inv _ _ _ _ _ scale_mb_pos H Hacc).
Qed.

Lemma extract_load_inv (metrics : json) (acc r : list Q) :
  extract_load metrics acc = Ok r -> Forall (fun v => (0 < v)%Q) acc ->
  Forall (fun v => (0 < v)%Q) r /\
  (List.length acc <= List.length r <= S (List.length acc))%nat.
Proof.
  unfold extract_load. intros H Hacc. step_bind H.
  destruct x; [|injection H as <-; split; [exact Hacc | lia]].
  step_bind H. step_bind H.
  apply (append_if_positive_inv _ _ _ _ _ scale_id_pos H Hacc).
Qed.

Lemma extract_goroutines_inv (metrics : json) (acc r : list Q) :
  extract_goroutines metrics acc = Ok r -> Forall (fun v => (0 < v)%Q) acc ->
  Forall (fun v => (0 < v)%Q) r /\
  (List.length acc <= List.length r <= S (List.length acc))%nat.
Proof.
  unfold extract_goroutines. intros H Hacc. step_bind H.
  destruct x; [|injection H as <-; split; [exact Hacc | lia]].
  step_bind H. step_bind H.
  apply (append_if_positive_inv _ _ _ _ _ scale_id_pos H Hacc).
Qed.

Lemma max0_nonneg (x : Q) : (0 <= max0 x)%Q.
Proof.
  unfold max0. destruct (Qltb 0 x) eqn:E; [|apply Qle_refl].
  apply Qltb_lt in E. apply Qlt_le_weak. exact E.
Qed.

Lemma extract_events_inv (metrics : json) (counts rates : list Q)
    (r : list Q * list Q) :
  extract_events metrics counts rates = Ok r ->
  Forall (fun v => (0 <= v)%Q) rates -> List.length counts = List.length rates ->
  Forall (fun v => (0 <= v)%Q) (snd r) /\
  List.length (fst r) = List.length (snd r) /\
  (List.length rates <= List.length (snd r) <= S (List.length rates))%nat.
Proof.
  unfold extract_events. intros H Hr Hlen.
  apply bind_ok in H. destruct H as (has & _ & H).
  apply bind_ok in H. destruct H as (has' & _ & H).
  destruct has'.
  - do 6 step_bind H.
    match type of H with
    | (if ?c then _ else _) = _ => destruct c
    end.
    + apply bind_ok in H. destruct H as (a & _ & H). injection H as <-. simpl.
      split; [|rewrite !length_app; simpl; lia].
      apply Forall_app. split; [exact Hr|]. constructor; [apply max0_nonneg | constructor].
    + injection H as <-. simpl. split; [exact Hr | lia].
  - injection H as <-. simpl. split; [exact Hr | lia].
Qed.

Lemma collect_metrics_inv (n : nat) (m m' : Metrics) (log : LogRecord) :
  collect_metrics m log = Ok m' -> samples_ok n m -> samples_ok (S n) m'.
Proof.
  unfold collect_metrics, samples_ok.
  intros H (C & M & L & G & R & E & Lc & Lm & Ll & Lg & Lr).
  apply bind_ok in H. destruct H as (has & _ & H). destruct has.
  - apply bind_ok in H. destruct H as (monitoring & _ & H).
    apply bind_ok in H. destruct H as (metrics & _ & H).
    apply bind_ok in H. destruct H as (cpu & Hcpu & H).
    apply bind_ok in H. destruct H as (mem & Hmem & H).
    apply bind_ok in H. destruct H as (load & Hload & H).
    apply bind_ok in H. destruct H as (gor & Hgor & H).
    apply bind_ok in H. destruct H as (ev & Hev & H). injection H as <-. simpl.
    destruct (extract_cpu_inv _ _ _ Hcpu C) as [C1 C2].
    destruct (extract_memory_inv _ _ _ Hmem M) as [M1 M2].
    destruct (extract_load_inv _ _ _ Hload L) as [L1 L2].
    destruct (extract_goroutines_inv _ _ _ Hgor G) as [G1 G2].
    destruct (extract_events_inv _ _ _ _ Hev R E) as (R1 & R2 & R3).
    repeat (split; [assumption || lia|]). lia.
  - injection H as <-. repeat (split; [assumption || lia|]). lia.
Qed.

Lemma collect_all_inv (logs : list LogRecord) :
  forall (n : nat) (m m' : Metrics),
    collect_all m logs = Ok m' -> samples_ok n m ->
    samples_ok (n + List.length logs) m'.
Proof.
  induction logs as [|log logs IH]; simpl; intros n m m' H Hm.
  - injection H as <-. rewrite Nat.add_0_r. exact Hm.
  - apply bind_ok in H. destruct H as (m1 & H1 & H).
    replace (n + S (List.length logs))%nat with (S n + List.length logs)%nat by lia.
    eapply IH; [exact H|]. eapply collect_metrics_inv; eassumption.
Qed.

(** X21. The samples the health analysis collects: a gauge (CPU,
    memory, load, goroutines) enters only with a positive value, so every
    sample is positive and zero or negative readings are skipped; every
    event error rate is at least 0 and stands beside one event count; and
    no metric has more samples than there are records. *)
Theorem collect_all_samples :
  forall (logs : list LogRecord) (m : Metrics),
    collect_all (mkMetrics [] [] [] [] [] []) logs = Ok m ->
    samples_ok (List.length logs) m.
Proof.
  intros logs m H.
  apply (collect_all_inv logs 0 _ m H).
  unfold samples_ok. simpl. repeat (split; [constructor || lia|]). lia.
Qed.

Lemma collect_all_samples_witness :
  exists m : Metrics,
    collect_all (mkMetrics [] [] [] [] [] []) Samples.memory_logs = Ok m /\
    samples_ok (List.length Samples.memory_logs) m.
Proof.
  destruct (collect_all (mkMetrics [] [] [] [] [] []) Samples.memory_logs)
    as [m|e] eqn:E; [|vm_compute in E; discriminate].
  exists m. split; [reflexivity|].
  apply (collect_all_samples Samples.memory_logs m E).
Defined.
